(** * IoT sensor network: a shallow embedding of [backend/climate_iot/iot_sensors.py]

    The development follows the Python class [IoTSensorManager] method by
    method.  Conventions of the embedding:

    - Python numbers ([int] thresholds of the configuration table and the
      [float] values of readings) are exact rationals [Q]; comparisons are
      the boolean tests the source writes ([<=], [<], [>]), arithmetic is
      exact.  Equality of numbers is therefore [Qeq] ([==]).
    - A [datetime] without a time zone is an integer count of microseconds
      from 1970-01-01T00:00:00; the class holds the counts from
      [datetime_min] (the first instant of the year 1) to [datetime_max]
      (the last of the year 9999), and arithmetic that leaves them raises
      [OverflowError].  A [timedelta] is a count of microseconds,
      [timedelta(hours=h)] is [h * 3_600_000_000].  Every method that reads
      the clock ([datetime.now()]) takes the clock reading as its argument
      [now].  A timestamp that a caller passes is a [Timestamp]: it may
      carry a time zone, and then an order comparison with a clock reading
      raises [TypeError].
    - The instance [self] is a record that each method receives and returns;
      a method ends in [Returned] or in [Raised], both with the instance as
      the call left it.
    - [self.sensors], a [dict] keyed by sensor id, is an association list in
      insertion order, which is the order Python iterates a [dict] in.
    - A registered alert listener is given by what a call of it does to its
      caller.  The methods of the manager are first given for listeners that
      observe: such a listener returns, or it raises an exception of class
      [Exception]; it does not call back into the manager, and it leaves the
      alert that it receives as it is.  The module [Listeners] then gives
      [_generate_alert] and [ingest_reading] for listeners that may also
      raise an exception outside class [Exception] and may assign to the
      fields of the alert that they receive.
    - [random.random()] is the sequence of the numbers that it returns, an
      argument of [simulate_readings], and so is the clock of its loop. *)

From Stdlib Require Import ZArith QArith Qabs Qround Qminmax List String Ascii Bool.
From Stdlib Require Import Lia Lqa DecimalString DecimalNat.
Import ListNotations.

Local Open Scope string_scope.
Local Open Scope Q_scope.

(** ** Numbers and text *)

Definition Qlt_bool (x y : Q) : bool := negb (Qle_bool y x).

(** Python's [max(a, b)]: the first argument unless the second is larger. *)
Definition py_max (a b : Q) : Q := if Qlt_bool a b then b else a.

(** Python's [round(x, 1)]: to one decimal, ties to the even neighbour. *)
Definition round1 (x : Q) : Q :=
  let n := x * 10 in
  let f := Qfloor n in
  let d := n - inject_Z f in
  if Qlt_bool d (1 # 2) then inject_Z f / 10
  else if Qlt_bool (1 # 2) d then inject_Z (f + 1) / 10
  else if Z.even f then inject_Z f / 10
  else inject_Z (f + 1) / 10.

Fixpoint zeros (n : nat) : string :=
  match n with
  | O => ""
  | S k => String "0" (zeros k)
  end.

(** The format specification [{n:0<width>d}] for a natural number. *)
Definition format_d (width n : nat) : string :=
  let digits := NilEmpty.string_of_uint (Nat.to_uint n) in
  zeros (width - String.length digits) ++ digits.

Definition datetime : Set := Z.

Bind Scope Z_scope with datetime.

Definition timedelta_hours (hours : Z) : Z := (hours * 3600000000)%Z.

(** [datetime.min] and [datetime.max]. *)
Definition datetime_min : datetime := (-62135596800000000)%Z.
Definition datetime_max : datetime := 253402300799999999%Z.

(** A [datetime] object as a caller may pass it: naive, or aware of a time
    zone, with the offset from UTC in microseconds.  The count of an aware
    one is its local time. *)
Inductive Timestamp : Set :=
| Naive (t : datetime)
| Aware (t : datetime) (utcoffset : Z).

(** ** Enumerations *)

Inductive SensorType : Set :=
| TEMPERATURE | HUMIDITY | AIR_QUALITY | CO2 | VOC | PARTICULATE | NOISE
| LIGHT | MOTION | DOOR_WINDOW | WATER_LEAK | SMOKE | GAS | RADON
| ELECTRICITY.

Definition SensorType_value (t : SensorType) : string :=
  match t with
  | TEMPERATURE => "Temperature"
  | HUMIDITY => "Humidity"
  | AIR_QUALITY => "Air Quality (AQI)"
  | CO2 => "CO2"
  | VOC => "Volatile Organic Compounds"
  | PARTICULATE => "Particulate Matter (PM2.5/PM10)"
  | NOISE => "Noise Level"
  | LIGHT => "Light Intensity"
  | MOTION => "Motion"
  | DOOR_WINDOW => "Door/Window Contact"
  | WATER_LEAK => "Water Leak"
  | SMOKE => "Smoke"
  | GAS => "Gas Leak"
  | RADON => "Radon"
  | ELECTRICITY => "Electricity Usage"
  end.

Definition SensorType_eqb (a b : SensorType) : bool :=
  String.eqb (SensorType_value a) (SensorType_value b).

Inductive AlertSeverity : Set := INFO | WARNING | CRITICAL | EMERGENCY.

(** The declaration order of the severity levels. *)
Definition severity_rank (s : AlertSeverity) : nat :=
  match s with
  | INFO => 0
  | WARNING => 1
  | CRITICAL => 2
  | EMERGENCY => 3
  end.

Definition severity_le (a b : AlertSeverity) : Prop :=
  (severity_rank a <= severity_rank b)%nat.

(** The exceptions of class [Exception] that occur in the module. *)
Inductive PyException : Set :=
| ValueError (msg : string)
| ZeroDivisionError
| RuntimeError (msg : string)
| OverflowError
| TypeError.

(** ** The configuration table [SENSOR_CONFIG] *)

Record Config : Set := mkConfig {
  cfg_unit : string;
  min_threshold : Q;
  max_threshold : Q;
  optimal_min : Q;
  optimal_max : Q
}.

Definition SENSOR_CONFIG (t : SensorType) : option Config :=
  match t with
  | TEMPERATURE => Some (mkConfig "°C" 10 35 20 26)
  | HUMIDITY => Some (mkConfig "%" 20 80 40 60)
  | AIR_QUALITY => Some (mkConfig "AQI" 0 150 0 50)
  | CO2 => Some (mkConfig "ppm" 400 1000 400 600)
  | VOC => Some (mkConfig "ppb" 0 500 0 100)
  | PARTICULATE => Some (mkConfig "μg/m³" 0 60 0 12)
  | NOISE => Some (mkConfig "dB" 0 70 0 45)
  | LIGHT => Some (mkConfig "lux" 0 10000 300 500)
  | ELECTRICITY => Some (mkConfig "kWh" 0 1000 0 30)
  | _ => None
  end.

(** [config.get(key, default)] on the entry of a sensor type, where [config]
    is [SENSOR_CONFIG.get(sensor_type, {})]. *)
Definition config_get {A : Type} (t : SensorType) (key : Config -> A)
    (default : A) : A :=
  match SENSOR_CONFIG t with
  | Some c => key c
  | None => default
  end.

(** ** The dataclasses *)

(** [Sensor.thresholds], a [dict] with the four keys ["min"], ["max"],
    ["optimal_min"] and ["optimal_max"]. *)
Record Thresholds : Set := mkThresholds {
  th_min : Q;
  th_max : Q;
  th_optimal_min : Q;
  th_optimal_max : Q
}.

Record Sensor : Set := mkSensor {
  sensor_id : string;
  sensor_type : SensorType;
  location : string;
  room : string;
  status : string;
  battery_level : Z;
  last_reading : Q;
  last_reading_time : Timestamp;
  calibration_date : datetime;
  thresholds : Thresholds
}.

Record SensorReading : Set := mkSensorReading {
  reading_id : string;
  r_sensor_id : string;
  r_sensor_type : SensorType;
  value : Q;
  r_unit : string;
  timestamp : Timestamp;
  quality : string;
  triggered_alert : bool
}.

(** The holes of the f-string
    ["{category} in {room}: {value}{unit} (Threshold: {threshold})"]; the
    text is determined by them. *)
Record AlertMessage : Set := mkAlertMessage {
  msg_category : string;
  msg_room : string;
  msg_value : Q;
  msg_unit : string;
  msg_threshold : Q
}.

Record Alert : Set := mkAlert {
  alert_id : string;
  a_sensor_id : string;
  severity : AlertSeverity;
  message : AlertMessage;
  a_value : Q;
  threshold : Q;
  a_timestamp : datetime;
  acknowledged : bool;
  resolved : bool;
  resolution_time : option datetime
}.

(** What a call of a listener does: it returns, or it raises an exception of
    the class that the handler in [_generate_alert] names. *)
Inductive CallResult : Set :=
| Returns
| Raises (e : PyException).

Definition Callable : Set := Alert -> CallResult.

Record IoTSensorManager : Set := mkManager {
  property_id : string;
  sensors : list (string * Sensor);
  readings : list SensorReading;
  alerts : list Alert;
  alert_callbacks : list Callable;
  _reading_counter : nat;
  _alert_counter : nat
}.

(** How a method call ends, with the instance as the call left it. *)
Inductive Outcome (A : Type) : Type :=
| Returned (a : A) (self : IoTSensorManager)
| Raised (e : PyException) (self : IoTSensorManager).

Arguments Returned {A} a self.
Arguments Raised {A} e self.

(** A computation that touches no state: [inr] a value, [inl] an exception. *)
Definition Result (A : Type) : Type := (PyException + A)%type.

Definition bind {A B : Type} (r : Result A) (k : A -> Result B) : Result B :=
  match r with
  | inl e => inl e
  | inr a => k a
  end.

Notation "x <- r ;; k" := (bind r (fun x => k))
  (at level 61, r at next level, right associativity).

(** Python's true division: a zero divisor raises. *)
Definition py_div (a b : Q) : Result Q :=
  if Qeq_bool b 0 then inl ZeroDivisionError else inr (a / b).

(** ** Field assignments *)

Definition set_sensors (self : IoTSensorManager) (d : list (string * Sensor)) :=
  mkManager (property_id self) d (readings self) (alerts self)
    (alert_callbacks self) (_reading_counter self) (_alert_counter self).

Definition set_readings (self : IoTSensorManager) (l : list SensorReading) :=
  mkManager (property_id self) (sensors self) l (alerts self)
    (alert_callbacks self) (_reading_counter self) (_alert_counter self).

Definition set_alerts (self : IoTSensorManager) (l : list Alert) :=
  mkManager (property_id self) (sensors self) (readings self) l
    (alert_callbacks self) (_reading_counter self) (_alert_counter self).

Definition set_alert_callbacks (self : IoTSensorManager) (l : list Callable) :=
  mkManager (property_id self) (sensors self) (readings self) (alerts self)
    l (_reading_counter self) (_alert_counter self).

Definition set_reading_counter (self : IoTSensorManager) (n : nat) :=
  mkManager (property_id self) (sensors self) (readings self) (alerts self)
    (alert_callbacks self) n (_alert_counter self).

Definition set_alert_counter (self : IoTSensorManager) (n : nat) :=
  mkManager (property_id self) (sensors self) (readings self) (alerts self)
    (alert_callbacks self) (_reading_counter self) n.

Definition set_last_reading (s : Sensor) (v : Q) (t : Timestamp) : Sensor :=
  mkSensor (sensor_id s) (sensor_type s) (location s) (room s) (status s)
    (battery_level s) v t (calibration_date s) (thresholds s).

Definition set_acknowledged (a : Alert) : Alert :=
  mkAlert (alert_id a) (a_sensor_id a) (severity a) (message a) (a_value a)
    (threshold a) (a_timestamp a) true (resolved a) (resolution_time a).

Definition set_resolved (a : Alert) (now : datetime) : Alert :=
  mkAlert (alert_id a) (a_sensor_id a) (severity a) (message a) (a_value a)
    (threshold a) (a_timestamp a) (acknowledged a) true (Some now).

(** ** Dictionaries in insertion order *)

Fixpoint dict_get {V : Type} (d : list (string * V)) (k : string) : option V :=
  match d with
  | [] => None
  | (k', v) :: rest => if String.eqb k' k then Some v else dict_get rest k
  end.

(** [d[k] = v]: the entry keeps its place when the key is present, a new key
    goes to the end. *)
Fixpoint dict_set {V : Type} (d : list (string * V)) (k : string) (v : V)
    : list (string * V) :=
  match d with
  | [] => [(k, v)]
  | (k', v') :: rest =>
      if String.eqb k' k then (k', v) :: rest else (k', v') :: dict_set rest k v
  end.

Definition dict_values {V : Type} (d : list (string * V)) : list V :=
  map snd d.

(** ** The methods of [IoTSensorManager] *)

Definition __init__ (property_id : string) : IoTSensorManager :=
  mkManager property_id [] [] [] [] 0 0.

Definition register_sensor (self : IoTSensorManager) (sensor_type : SensorType)
    (location room : string) (now : datetime) : Outcome Sensor :=
  let sensor_id := "S-" ++ format_d 4 (List.length (sensors self) + 1) in
  let sensor :=
    mkSensor sensor_id sensor_type location room "Online" 100 0 (Naive now) now
      (mkThresholds
         (config_get sensor_type min_threshold 0)
         (config_get sensor_type max_threshold 100)
         (config_get sensor_type optimal_min 20)
         (config_get sensor_type optimal_max 80)) in
  Returned sensor (set_sensors self (dict_set (sensors self) sensor_id sensor)).

Definition _assess_reading_quality (value : Q) (sensor_type : SensorType)
    : string :=
  let optimal_min := config_get sensor_type optimal_min 20 in
  let optimal_max := config_get sensor_type optimal_max 80 in
  if Qle_bool optimal_min value && Qle_bool value optimal_max then "Good"
  else if Qlt_bool value (optimal_min * (8 # 10))
          || Qlt_bool (optimal_max * (12 # 10)) value then "Poor"
  else "Fair".

Definition _check_thresholds (sensor : Sensor) (value : Q) : bool :=
  Qlt_bool value (th_min (thresholds sensor))
  || Qlt_bool (th_max (thresholds sensor)) value.

(** The severity rule of [_generate_alert]. *)
Definition alert_severity (sensor : Sensor) (value : Q) : AlertSeverity :=
  let t := thresholds sensor in
  if Qlt_bool (th_max t * (15 # 10)) value
     || Qlt_bool value (th_min t * (5 # 10)) then CRITICAL
  else if Qlt_bool (th_max t * (12 # 10)) value
          || Qlt_bool value (th_min t * (8 # 10)) then WARNING
  else INFO.

(** [try: callback(alert)  except Exception: pass]. *)
Definition try_except_pass (r : CallResult) : CallResult :=
  match r with
  | Returns => Returns
  | Raises _ => Returns
  end.

(** The loop over [self.alert_callbacks]; an exception that gets out of an
    iteration ends the loop. *)
Fixpoint notify_callbacks (callbacks : list Callable) (alert : Alert)
    : CallResult :=
  match callbacks with
  | [] => Returns
  | callback :: rest =>
      match try_except_pass (callback alert) with
      | Returns => notify_callbacks rest alert
      | Raises e => Raises e
      end
  end.

Definition _generate_alert (self : IoTSensorManager) (sensor : Sensor)
    (value : Q) (now : datetime) : Outcome unit :=
  let self := set_alert_counter self (_alert_counter self + 1) in
  let alert_id := "A-" ++ format_d 6 (_alert_counter self) in
  let t := thresholds sensor in
  let threshold := if Qlt_bool (th_max t) value then th_max t else th_min t in
  let severity := alert_severity sensor value in
  let message :=
    mkAlertMessage (SensorType_value (sensor_type sensor)) (room sensor) value
      (config_get (sensor_type sensor) cfg_unit "") threshold in
  let alert :=
    mkAlert alert_id (sensor_id sensor) severity message value threshold now
      false false None in
  let self := set_alerts self (alerts self ++ [alert]) in
  match notify_callbacks (alert_callbacks self) alert with
  | Returns => Returned tt self
  | Raises e => Raised e self
  end.

Definition ingest_reading (self : IoTSensorManager) (sensor_id : string)
    (value : Q) (timestamp : option Timestamp) (now : datetime)
    : Outcome SensorReading :=
  match dict_get (sensors self) sensor_id with
  | None => Raised (ValueError ("Sensor " ++ sensor_id ++ " not found")) self
  | Some sensor =>
      let timestamp :=
        match timestamp with
        | None => Naive now
        | Some t => t
        end in
      let self := set_reading_counter self (_reading_counter self + 1) in
      let reading_id := "R-" ++ format_d 8 (_reading_counter self) in
      let quality := _assess_reading_quality value (sensor_type sensor) in
      let triggered_alert := _check_thresholds sensor value in
      let reading :=
        mkSensorReading reading_id sensor_id (sensor_type sensor) value
          (config_get (sensor_type sensor) cfg_unit "") timestamp quality
          triggered_alert in
      let sensor := set_last_reading sensor value timestamp in
      let self := set_sensors self (dict_set (sensors self) sensor_id sensor) in
      let self := set_readings self (readings self ++ [reading]) in
      if triggered_alert then
        match _generate_alert self sensor value now with
        | Returned _ self => Returned reading self
        | Raised e self => Raised e self
        end
      else Returned reading self
  end.

(** [timedelta(hours=hours)]: the days of a [timedelta], [hours // 24] here,
    have a magnitude of at most 999999999. *)
Definition timedelta (hours : Z) : Result Z :=
  let days := (hours / 24)%Z in
  if (-999999999 <=? days)%Z && (days <=? 999999999)%Z
  then inr (timedelta_hours hours)
  else inl OverflowError.

(** [t - delta] for a naive [datetime]: the difference is a [datetime] of
    the years 1 to 9999. *)
Definition datetime_sub (t : datetime) (delta : Z) : Result datetime :=
  let d := (t - delta)%Z in
  if (datetime_min <=? d)%Z && (d <=? datetime_max)%Z then inr d
  else inl OverflowError.

(** [t > cutoff] for a naive [cutoff]: a naive and an aware [datetime] are
    not ordered. *)
Definition datetime_gt (t : Timestamp) (cutoff : datetime) : Result bool :=
  match t with
  | Naive t => inr (cutoff <? t)%Z
  | Aware _ _ => inl TypeError
  end.

(** One row of [get_sensor_history]; the timestamp stands for its
    [isoformat()] text. *)
Record HistoryEntry : Set := mkHistoryEntry {
  h_value : Q;
  h_timestamp : Timestamp;
  h_quality : string
}.

Definition history_entry (r : SensorReading) : HistoryEntry :=
  mkHistoryEntry (value r) (timestamp r) (quality r).

(** The condition of the list comprehension in [get_sensor_history]; [and]
    compares the timestamps only for a reading of the sensor. *)
Definition in_history (sensor_id : string) (cutoff : datetime)
    (r : SensorReading) : Result bool :=
  if String.eqb (r_sensor_id r) sensor_id
  then datetime_gt (timestamp r) cutoff
  else inr false.

(** The list comprehension, over [self.readings]. *)
Fixpoint history_loop (sensor_id : string) (cutoff : datetime)
    (readings : list SensorReading) : Result (list HistoryEntry) :=
  match readings with
  | [] => inr []
  | r :: rest =>
      keep <- in_history sensor_id cutoff r ;;
      history <- history_loop sensor_id cutoff rest ;;
      inr (if keep : bool then history_entry r :: history else history)
  end.

Definition get_sensor_history (self : IoTSensorManager) (sensor_id : string)
    (hours : Z) (now : datetime) : Outcome (list HistoryEntry) :=
  match (delta <- timedelta hours ;;
         cutoff <- datetime_sub now delta ;;
         history_loop sensor_id cutoff (readings self)) with
  | inr history => Returned history self
  | inl e => Raised e self
  end.

Definition get_active_alerts (self : IoTSensorManager) : Outcome (list Alert) :=
  Returned (filter (fun a => negb (resolved a)) (alerts self)) self.

(** The loop of [acknowledge_alert] over [self.alerts]: the first alert with
    the identifier is updated in place and the loop returns. *)
Fixpoint acknowledge_loop (alerts : list Alert) (alert_id' : string)
    : bool * list Alert :=
  match alerts with
  | [] => (false, [])
  | alert :: rest =>
      if String.eqb (alert_id alert) alert_id'
      then (true, set_acknowledged alert :: rest)
      else let (found, rest') := acknowledge_loop rest alert_id' in
           (found, alert :: rest')
  end.

Definition acknowledge_alert (self : IoTSensorManager) (alert_id : string)
    : Outcome bool :=
  let (found, alerts') := acknowledge_loop (alerts self) alert_id in
  Returned found (set_alerts self alerts').

Fixpoint resolve_loop (alerts : list Alert) (alert_id' : string)
    (now : datetime) : bool * list Alert :=
  match alerts with
  | [] => (false, [])
  | alert :: rest =>
      if String.eqb (alert_id alert) alert_id'
      then (true, set_resolved alert now :: rest)
      else let (found, rest') := resolve_loop rest alert_id' now in
           (found, alert :: rest')
  end.

Definition resolve_alert (self : IoTSensorManager) (alert_id : string)
    (now : datetime) : Outcome bool :=
  let (found, alerts') := resolve_loop (alerts self) alert_id now in
  Returned found (set_alerts self alerts').

Definition register_alert_callback (self : IoTSensorManager)
    (callback : Callable) : Outcome unit :=
  Returned tt
    (set_alert_callbacks self (alert_callbacks self ++ [callback])%list).

(** ** Comfort score *)

Definition _calculate_sensor_score (sensor : Sensor) : Result Q :=
  let optimal_min := config_get (sensor_type sensor) optimal_min 20 in
  let optimal_max := config_get (sensor_type sensor) optimal_max 80 in
  let value := last_reading sensor in
  if Qle_bool optimal_min value && Qle_bool value optimal_max then
    mid <- py_div (optimal_min + optimal_max) 2 ;;
    distance <- py_div (Qabs (value - mid)) (optimal_max - mid) ;;
    inr (100 - distance * 20)
  else
    deviation <-
      (if Qlt_bool value optimal_min
       then py_div (optimal_min - value) optimal_min
       else py_div (value - optimal_max) optimal_max) ;;
    inr (py_max 0 (80 - deviation * 50)).

Definition _score_to_category (score : Q) : string :=
  if Qle_bool 90 score then "Excellent"
  else if Qle_bool 75 score then "Good"
  else if Qle_bool 60 score then "Fair"
  else if Qle_bool 40 score then "Poor"
  else "Critical".

(** [scores.get(key, 100)]. *)
Definition scores_get (scores : list (string * Q)) (key : string) : Q :=
  match dict_get scores key with
  | Some s => s
  | None => 100
  end.

Definition _generate_comfort_recommendations (scores : list (string * Q))
    : list string :=
  let recommendations :=
    ((if Qlt_bool (scores_get scores (SensorType_value TEMPERATURE)) 70
      then ["Adjust HVAC temperature settings"] else [])
     ++ (if Qlt_bool (scores_get scores (SensorType_value HUMIDITY)) 70
         then ["Consider using humidifier/dehumidifier"] else [])
     ++ (if Qlt_bool (scores_get scores (SensorType_value AIR_QUALITY)) 70
         then ["Improve ventilation or use air purifier"] else [])
     ++ (if Qlt_bool (scores_get scores (SensorType_value CO2)) 70
         then ["Increase fresh air intake"] else [])
     ++ (if Qlt_bool (scores_get scores (SensorType_value NOISE)) 70
         then ["Investigate noise sources"] else []))%list in
  match recommendations with
  | [] => ["All parameters within optimal range"]
  | _ => recommendations
  end.

(** The local dictionary [weights] of [calculate_comfort_score]. *)
Definition weights : list (SensorType * Q) :=
  [ (TEMPERATURE, 25 # 100); (HUMIDITY, 20 # 100); (AIR_QUALITY, 25 # 100);
    (CO2, 15 # 100); (NOISE, 10 # 100); (LIGHT, 5 # 100) ].

(** [sensor_type in weights]. *)
Definition in_weights (t : SensorType) : bool :=
  existsb (fun w => SensorType_eqb (fst w) t) weights.

(** The first loop: one score for every sensor of a weighted type, stored
    under the type's name; it stops at the first exception. *)
Fixpoint score_sensors (l : list Sensor) (scores : list (string * Q))
    : Result (list (string * Q)) :=
  match l with
  | [] => inr scores
  | sensor :: rest =>
      if in_weights (sensor_type sensor) then
        score <- _calculate_sensor_score sensor ;;
        score_sensors rest
          (dict_set scores (SensorType_value (sensor_type sensor)) score)
      else score_sensors rest scores
  end.

(** The second loop: [(weighted_sum, total_weight)] over the weighted types
    that have a score. *)
Fixpoint weighted_totals (ws : list (SensorType * Q))
    (scores : list (string * Q)) (weighted_sum total_weight : Q) : Q * Q :=
  match ws with
  | [] => (weighted_sum, total_weight)
  | (t, weight) :: rest =>
      match dict_get scores (SensorType_value t) with
      | Some s =>
          weighted_totals rest scores (weighted_sum + s * weight)
            (total_weight + weight)
      | None => weighted_totals rest scores weighted_sum total_weight
      end
  end.

(** The dictionary that [calculate_comfort_score] returns. *)
Record ComfortScore : Set := mkComfortScore {
  overall_score : Q;
  category : string;
  component_scores : list (string * Q);
  recommendations : list string
}.

Definition comfort_result (self : IoTSensorManager) : Result ComfortScore :=
  scores <- score_sensors (dict_values (sensors self)) [] ;;
  let (weighted_sum, total_weight) := weighted_totals weights scores 0 0 in
  overall <-
    (if Qlt_bool 0 total_weight then py_div weighted_sum total_weight
     else inr 50) ;;
  inr (mkComfortScore (round1 overall) (_score_to_category overall) scores
         (_generate_comfort_recommendations scores)).

Definition calculate_comfort_score (self : IoTSensorManager)
    : Outcome ComfortScore :=
  match comfort_result self with
  | inr c => Returned c self
  | inl e => Raised e self
  end.

(** ** Current readings *)

(** One row of the dictionary that [get_current_readings] returns; the
    timestamp stands for its [isoformat()] text. *)
Record CurrentReading : Set := mkCurrentReading {
  c_sensor_type : string;
  c_location : string;
  c_room : string;
  c_value : Q;
  c_unit : string;
  c_quality : string;
  c_timestamp : Timestamp;
  c_status : string
}.

Definition current_row (sensor : Sensor) : CurrentReading :=
  mkCurrentReading (SensorType_value (sensor_type sensor)) (location sensor)
    (room sensor) (last_reading sensor)
    (config_get (sensor_type sensor) cfg_unit "")
    (_assess_reading_quality (last_reading sensor) (sensor_type sensor))
    (last_reading_time sensor) (status sensor).

(** The loop over [self.sensors.items()]. *)
Fixpoint current_loop (items : list (string * Sensor))
    (current : list (string * CurrentReading))
    : list (string * CurrentReading) :=
  match items with
  | [] => current
  | (sensor_id, sensor) :: rest =>
      current_loop rest (dict_set current sensor_id (current_row sensor))
  end.

Definition get_current_readings (self : IoTSensorManager)
    : Outcome (list (string * CurrentReading)) :=
  Returned (current_loop (sensors self) []) self.

(** ** Network status *)

(** [datetime.date()]: the day of a timestamp; the count of microseconds
    starts at a midnight. *)
Definition date (t : datetime) : Z := (t / 86400000000)%Z.

(** The same for a timestamp that may carry a time zone: the day of its
    local time. *)
Definition timestamp_date (t : Timestamp) : Z :=
  match t with
  | Naive t => date t
  | Aware t _ => date t
  end.

Record SensorNetwork : Set := mkSensorNetwork {
  n_property_id : string;
  total_sensors : Z;
  online_sensors : Z;
  offline_sensors : Z;
  n_sensors : list Sensor;
  active_alerts : list Alert;
  daily_readings : Z;
  network_health : string
}.

(** [len([x for x in l if f(x)])] and [sum(1 for x in l if f(x))]. *)
Definition count_if {A : Type} (f : A -> bool) (l : list A) : Z :=
  Z.of_nat (List.length (filter f l)).

Definition is_critical (a : Alert) : bool :=
  match severity a with
  | CRITICAL => true
  | _ => false
  end.

Definition get_network_status (self : IoTSensorManager) (now : datetime)
    : Outcome SensorNetwork :=
  let online :=
    count_if (fun s => String.eqb (status s) "Online")
      (dict_values (sensors self)) in
  let offline := (Z.of_nat (List.length (sensors self)) - online)%Z in
  let active_alerts := filter (fun a => negb (resolved a)) (alerts self) in
  let health :=
    if (offline =? 0)%Z && (Z.of_nat (List.length active_alerts) =? 0)%Z
    then "Excellent"
    else if (offline <=? 1)%Z && (count_if is_critical active_alerts =? 0)%Z
    then "Good"
    else if (offline <=? 2)%Z then "Fair"
    else "Poor" in
  let today := date now in
  let daily :=
    count_if (fun r => (timestamp_date (timestamp r) =? today)%Z)
      (readings self) in
  Returned
    (mkSensorNetwork (property_id self) (Z.of_nat (List.length (sensors self)))
       online offline (dict_values (sensors self)) active_alerts daily health)
    self.

(** ** Simulated readings *)

(** [random.uniform(a, b)], which is [a + (b - a) * random.random()]; [u] is
    the number that [random.random()] returns. *)
Definition uniform (a b u : Q) : Q := a + (b - a) * u.

(** The inner loop of [simulate_readings] for one sensor, over the hours
    that are left of [range(duration_hours)]; [random] is the sequence of
    the numbers that [random.random()] returns and [n] counts the iterations
    so far, each of which draws one.  In iteration [n] the clock reads
    [clock n] when the loop asks it, and [alert_clock n] when
    [_generate_alert] does.  The loop returns the count that it reached. *)
Fixpoint simulate_hours (self : IoTSensorManager) (sensor_id : string)
    (optimal_min optimal_max : Q) (duration_hours : Z) (hours : list Z)
    (random : nat -> Q) (clock alert_clock : nat -> datetime) (n : nat)
    : Outcome nat :=
  match hours with
  | [] => Returned n self
  | hour :: rest =>
      match (delta <- timedelta (duration_hours - hour) ;;
             datetime_sub (clock n) delta) with
      | inl e => Raised e self
      | inr timestamp =>
          let mid := (optimal_min + optimal_max) / 2 in
          let variation := (optimal_max - optimal_min) / 4 in
          let value := mid + uniform (- variation) variation (random n) in
          match ingest_reading self sensor_id value (Some (Naive timestamp))
                  (alert_clock n) with
          | Returned _ self =>
              simulate_hours self sensor_id optimal_min optimal_max
                duration_hours rest random clock alert_clock (S n)
          | Raised e self => Raised e self
          end
      end
  end.

(** [range(n)]. *)
Definition range (n : Z) : list Z := map Z.of_nat (seq 0 (Z.to_nat n)).

(** The outer loop over [self.sensors.values()].  It reads the type and the
    identifier of each sensor, which no ingestion changes. *)
Fixpoint simulate_sensors (self : IoTSensorManager) (l : list Sensor)
    (duration_hours : Z) (random : nat -> Q)
    (clock alert_clock : nat -> datetime) (n : nat) : Outcome nat :=
  match l with
  | [] => Returned n self
  | sensor :: rest =>
      let optimal_min := config_get (sensor_type sensor) optimal_min 20 in
      let optimal_max := config_get (sensor_type sensor) optimal_max 80 in
      match simulate_hours self (sensor_id sensor) optimal_min optimal_max
              duration_hours (range duration_hours) random clock alert_clock
              n with
      | Returned n self =>
          simulate_sensors self rest duration_hours random clock alert_clock n
      | Raised e self => Raised e self
      end
  end.

Definition simulate_readings (self : IoTSensorManager) (duration_hours : Z)
    (random : nat -> Q) (clock alert_clock : nat -> datetime)
    : Outcome unit :=
  match simulate_sensors self (dict_values (sensors self)) duration_hours
          random clock alert_clock 0 with
  | Returned _ self => Returned tt self
  | Raised e self => Raised e self
  end.

(** ** The managers of the routes *)

(** [get_sensor_manager] of [climate_iot/routes.py] on the module dictionary
    [_sensor_managers], which it receives and returns beside the manager. *)
Definition get_sensor_manager
    (_sensor_managers : list (string * IoTSensorManager))
    (property_id : string)
    : IoTSensorManager * list (string * IoTSensorManager) :=
  match dict_get _sensor_managers property_id with
  | Some manager => (manager, _sensor_managers)
  | None =>
      let manager := __init__ property_id in
      (manager, dict_set _sensor_managers property_id manager)
  end.

(** ** Listeners in general *)

(** [_generate_alert] and [ingest_reading] once more, for listeners that are
    not held to observe: a call of a listener may assign to the fields of
    the alert that it receives, and it may raise an exception of any class.
    The list [self.alert_callbacks], which the two methods read and do not
    assign to, is their argument [alert_callbacks] here; the field of the
    record is not read.  A listener still does not call back into the
    manager. *)
Module Listeners.

(** What a [raise] statement raises: an instance of class [Exception], or
    of one of the classes that stand beside it under [BaseException]. *)
Inductive PyBaseException : Set :=
| ExceptionInstance (e : PyException)
| KeyboardInterrupt
| SystemExit (code : Z)
| GeneratorExit.

(** [isinstance(e, Exception)]. *)
Definition is_Exception (e : PyBaseException) : bool :=
  match e with
  | ExceptionInstance _ => true
  | KeyboardInterrupt | SystemExit _ | GeneratorExit => false
  end.

Inductive CallResult : Set :=
| Returns
| Raises (e : PyBaseException).

(** A call of a listener gives the alert as the call leaves it, and how the
    call ends. *)
Definition Callable : Set := Alert -> Alert * CallResult.

Inductive Outcome (A : Type) : Type :=
| Returned (a : A) (self : IoTSensorManager)
| Raised (e : PyBaseException) (self : IoTSensorManager).

Arguments Returned {A} a self.
Arguments Raised {A} e self.

(** [try: callback(alert)  except Exception: pass]: the handler takes the
    instances of [Exception], every other exception goes on. *)
Definition try_except_pass (r : CallResult) : CallResult :=
  match r with
  | Returns => Returns
  | Raises e => if is_Exception e then Returns else Raises e
  end.

(** The loop over [self.alert_callbacks]; an exception that gets out of an
    iteration ends the loop.  Every listener receives the same object, as
    the listeners before it left it. *)
Fixpoint notify_callbacks (callbacks : list Callable) (alert : Alert)
    : Alert * CallResult :=
  match callbacks with
  | [] => (alert, Returns)
  | callback :: rest =>
      let (alert, r) := callback alert in
      match try_except_pass r with
      | Returns => notify_callbacks rest alert
      | Raises e => (alert, Raises e)
      end
  end.

(** The alert is appended to [self.alerts] before the listeners are called,
    and they receive the object that is in the list: the list ends with the
    alert as the listeners leave it, also when the loop ends in an
    exception. *)
Definition _generate_alert (alert_callbacks : list Callable)
    (self : IoTSensorManager) (sensor : Sensor) (value : Q) (now : datetime)
    : Outcome unit :=
  let self := set_alert_counter self (_alert_counter self + 1) in
  let alert_id := "A-" ++ format_d 6 (_alert_counter self) in
  let t := thresholds sensor in
  let threshold := if Qlt_bool (th_max t) value then th_max t else th_min t in
  let severity := alert_severity sensor value in
  let message :=
    mkAlertMessage (SensorType_value (sensor_type sensor)) (room sensor) value
      (config_get (sensor_type sensor) cfg_unit "") threshold in
  let alert :=
    mkAlert alert_id (sensor_id sensor) severity message value threshold now
      false false None in
  let (alert, r) := notify_callbacks alert_callbacks alert in
  let self := set_alerts self (alerts self ++ [alert]) in
  match r with
  | Returns => Returned tt self
  | Raises e => Raised e self
  end.

Definition ingest_reading (alert_callbacks : list Callable)
    (self : IoTSensorManager) (sensor_id : string) (value : Q)
    (timestamp : option Timestamp) (now : datetime)
    : Outcome SensorReading :=
  match dict_get (sensors self) sensor_id with
  | None =>
      Raised
        (ExceptionInstance
           (ValueError ("Sensor " ++ sensor_id ++ " not found")))
        self
  | Some sensor =>
      let timestamp :=
        match timestamp with
        | None => Naive now
        | Some t => t
        end in
      let self := set_reading_counter self (_reading_counter self + 1) in
      let reading_id := "R-" ++ format_d 8 (_reading_counter self) in
      let quality := _assess_reading_quality value (sensor_type sensor) in
      let triggered_alert := _check_thresholds sensor value in
      let reading :=
        mkSensorReading reading_id sensor_id (sensor_type sensor) value
          (config_get (sensor_type sensor) cfg_unit "") timestamp quality
          triggered_alert in
      let sensor := set_last_reading sensor value timestamp in
      let self := set_sensors self (dict_set (sensors self) sensor_id sensor) in
      let self := set_readings self (readings self ++ [reading]) in
      if triggered_alert then
        match _generate_alert alert_callbacks self sensor value now with
        | Returned _ self => Returned reading self
        | Raised e self => Raised e self
        end
      else Returned reading self
  end.

End Listeners.

(** * Specifications *)

(** ** States and outcomes *)

Definition state_of {A : Type} (o : Outcome A) : IoTSensorManager :=
  match o with
  | Returned _ self => self
  | Raised _ self => self
  end.

Definition raises {A : Type} (o : Outcome A) : Prop :=
  exists e self', o = Raised e self'.

(** The [timestamp] argument of [ingest_reading] with its default. *)
Definition timestamp_or (timestamp : option Timestamp) (now : datetime)
    : Timestamp :=
  match timestamp with
  | None => Naive now
  | Some t => t
  end.

(** The thresholds that [register_sensor] gives a sensor of type [t]. *)
Definition default_thresholds (t : SensorType) : Thresholds :=
  mkThresholds (config_get t min_threshold 0) (config_get t max_threshold 100)
    (config_get t optimal_min 20) (config_get t optimal_max 80).

(** A manager is created by [__init__] and changes only through its public
    methods. *)
Inductive reachable : IoTSensorManager -> Prop :=
| reach_init (pid : string) : reachable (__init__ pid)
| reach_register self t loc rm now s self' :
    reachable self ->
    register_sensor self t loc rm now = Returned s self' ->
    reachable self'
| reach_ingest self id v ts now r self' :
    reachable self ->
    ingest_reading self id v ts now = Returned r self' ->
    reachable self'
| reach_acknowledge self id b self' :
    reachable self ->
    acknowledge_alert self id = Returned b self' ->
    reachable self'
| reach_resolve self id now b self' :
    reachable self ->
    resolve_alert self id now = Returned b self' ->
    reachable self'
| reach_callback self callback self' :
    reachable self ->
    register_alert_callback self callback = Returned tt self' ->
    reachable self'.

(** Every sensor carries the thresholds of the table for its type, and every
    logged reading belongs to a registered sensor. *)
Record consistent (self : IoTSensorManager) : Prop := mkConsistent {
  table_thresholds :
    forall id s, dict_get (sensors self) id = Some s ->
                 thresholds s = default_thresholds (sensor_type s);
  readings_registered :
    forall r, In r (readings self) ->
              dict_get (sensors self) (r_sensor_id r) <> None
}.

(** ** The history query *)

(** [Selected P l l']: [l'] keeps, in the order of [l] and as often as they
    occur there, exactly the elements of [l] that satisfy [P]. *)
Inductive Selected {A : Type} (P : A -> Prop) : list A -> list A -> Prop :=
| Selected_nil : Selected P [] []
| Selected_keep x l l' : P x -> Selected P l l' -> Selected P (x :: l) (x :: l')
| Selected_skip x l l' : ~ P x -> Selected P l l' -> Selected P (x :: l) l'.

(** The count of microseconds of a timestamp. *)
Definition instant (t : Timestamp) : Z :=
  match t with
  | Naive t => t
  | Aware t _ => t
  end.

Definition is_naive (t : Timestamp) : bool :=
  match t with
  | Naive _ => true
  | Aware _ _ => false
  end.

(** The counts that the class [datetime] holds. *)
Definition representable (t : Z) : Prop :=
  (datetime_min <= t <= datetime_max)%Z.

(** The readings of the sensor carry timestamps without a time zone. *)
Definition naive_readings (self : IoTSensorManager) (id : string) : Prop :=
  forall r, In r (readings self) -> r_sensor_id r = id ->
            is_naive (timestamp r) = true.

(** The window of the code: the reading belongs to the sensor and is stamped
    strictly after [now - hours]. *)
Definition after_cutoff (id : string) (hours : Z) (now : datetime)
    (r : SensorReading) : Prop :=
  r_sensor_id r = id
  /\ (now - timedelta_hours hours < instant (timestamp r))%Z.

(** The same as a test. *)
Definition stamped_after (id : string) (cutoff : datetime)
    (r : SensorReading) : bool :=
  String.eqb (r_sensor_id r) id && (cutoff <? instant (timestamp r))%Z.

(** The window of the specification: the reading belongs to the sensor and
    is stamped within [[now - hours, now]]. *)
Definition within_window (id : string) (hours : Z) (now : datetime)
    (r : SensorReading) : Prop :=
  r_sensor_id r = id
  /\ (now - timedelta_hours hours <= instant (timestamp r) <= now)%Z.

(** Earlier entries come first. *)
Definition chronological (h : list HistoryEntry) : Prop :=
  forall i j a b,
    (i < j)%nat -> nth_error h i = Some a -> nth_error h j = Some b ->
    (instant (h_timestamp a) <= instant (h_timestamp b))%Z.

(** The history query as the specification words it: it returns exactly the
    entries of the readings within the window, in chronological order. *)
Definition history_as_specified (self : IoTSensorManager) (id : string)
    (hours : Z) (now : datetime) : Prop :=
  exists h,
    get_sensor_history self id hours now = Returned h self
    /\ chronological h
    /\ forall e, In e h <->
                 exists r, In r (readings self)
                           /\ within_window id hours now r
                           /\ e = history_entry r.

(** ** Alerts *)

(** The alert that an identifier denotes: the first of the list with it. *)
Fixpoint find_alert (alerts : list Alert) (id : string) : option Alert :=
  match alerts with
  | [] => None
  | a :: rest => if String.eqb (alert_id a) id then Some a else find_alert rest id
  end.

(** ** Scenarios and example states *)

(** A fresh manager registers one temperature sensor (optimal range
    [[20, 26]], maximum threshold 35) and ingests the value 40: the reading
    is [Poor] and flagged, and the one alert of the manager has severity
    [sev]. *)
Definition temperature_40_scenario (pid loc rm : string) (now : datetime)
    (ts : option Timestamp) (now' : datetime) (sev : AlertSeverity) : Prop :=
  exists s self1 r self2 a,
    register_sensor (__init__ pid) TEMPERATURE loc rm now = Returned s self1
    /\ th_optimal_min (thresholds s) == 20
    /\ th_optimal_max (thresholds s) == 26
    /\ th_max (thresholds s) == 35
    /\ ingest_reading self1 (sensor_id s) 40 ts now' = Returned r self2
    /\ quality r = "Poor"
    /\ triggered_alert r = true
    /\ alerts self2 = [a]
    /\ severity a = sev.

Definition one_hour : Z := timedelta_hours 1.

(** A manager with one sensor of type [t], registered at time 0. *)
Definition single_sensor_manager (t : SensorType) : IoTSensorManager :=
  state_of (register_sensor (__init__ "PROP-001") t "Main Hall"
              "Living Room" 0).

Definition temperature_manager : IoTSensorManager :=
  single_sensor_manager TEMPERATURE.

(** The sensor of [temperature_manager] as [register_sensor] leaves it. *)
Definition temperature_sensor : Sensor :=
  mkSensor "S-0001" TEMPERATURE "Main Hall" "Living Room" "Online" 100 0
    (Naive 0) 0 (default_thresholds TEMPERATURE).

(** The temperature manager after three readings that arrive out of order,
    all ingested in the tenth hour: one stamped in the eleventh hour, one
    stamped nine hours after the registration and one nine and a half hours
    after it. *)
Definition out_of_order_manager : IoTSensorManager :=
  let self := temperature_manager in
  let self := state_of (ingest_reading self "S-0001" 21
                          (Some (Naive (11 * one_hour))) (10 * one_hour)) in
  let self := state_of (ingest_reading self "S-0001" 22
                          (Some (Naive (9 * one_hour))) (10 * one_hour)) in
  state_of (ingest_reading self "S-0001" 23
              (Some (Naive (9 * one_hour + one_hour / 2))) (10 * one_hour)).

(** ** Listeners *)

(** An observing listener among the listeners in general. *)
Definition observer (callback : Callable) : Listeners.Callable :=
  fun alert =>
    (alert,
     match callback alert with
     | Returns => Listeners.Returns
     | Raises e => Listeners.Raises (Listeners.ExceptionInstance e)
     end).

Definition general_outcome {A : Type} (o : Outcome A) : Listeners.Outcome A :=
  match o with
  | Returned a self => Listeners.Returned a self
  | Raised e self => Listeners.Raised (Listeners.ExceptionInstance e) self
  end.

(** A listener none of whose calls raises an exception outside class
    [Exception]. *)
Definition raises_only_Exception (callback : Listeners.Callable) : Prop :=
  forall alert e,
    snd (callback alert) = Listeners.Raises e ->
    Listeners.is_Exception e = true.

(** Listener isolation as the specification words it: the ingestion returns
    the reading, and the reading and the alert are appended. *)
Definition listener_isolation (callbacks : list Listeners.Callable)
    (self : IoTSensorManager) (id : string) (v : Q)
    (ts : option Timestamp) (now : datetime) : Prop :=
  exists r self' a,
    Listeners.ingest_reading callbacks self id v ts now
    = Listeners.Returned r self'
    /\ readings self' = (readings self ++ [r])%list
    /\ alerts self' = (alerts self ++ [a])%list.

(** A listener that raises on every call. *)
Definition failing_listener : Listeners.Callable :=
  fun alert =>
    (alert,
     Listeners.Raises
       (Listeners.ExceptionInstance (RuntimeError "listener failed"))).

(** A listener that acknowledges the alert and then raises. *)
Definition acknowledging_listener : Listeners.Callable :=
  fun alert =>
    (set_acknowledged alert,
     Listeners.Raises (Listeners.ExceptionInstance (ValueError "no channel"))).

(** A listener whose call is interrupted from the keyboard. *)
Definition interrupted_listener : Listeners.Callable :=
  fun alert => (alert, Listeners.Raises Listeners.KeyboardInterrupt).

(** The temperature manager after the ingestion of 40, which creates the
    alert [A-000001]. *)
Definition alerted_manager : IoTSensorManager :=
  state_of (ingest_reading temperature_manager "S-0001" 40 None one_hour).

(** The temperature manager after the ingestion of 23. *)
Definition comfortable_manager : IoTSensorManager :=
  state_of (ingest_reading temperature_manager "S-0001" 23 None one_hour).

(** A manager with one sensor of type [t] after the ingestion of -1. *)
Definition negative_manager (t : SensorType) : IoTSensorManager :=
  state_of (ingest_reading (single_sensor_manager t) "S-0001" (-1) None
              one_hour).

(** ** Identifiers *)

(** The identifiers that the three counters give out. *)
Definition sensor_key (i : nat) : string := "S-" ++ format_d 4 i.

Definition reading_key (i : nat) : string := "R-" ++ format_d 8 i.

Definition alert_key (i : nat) : string := "A-" ++ format_d 6 i.

(** Reads a decimal numeral, leading zeros included. *)
Definition parse_d (s : string) : option nat :=
  option_map Nat.of_uint (NilEmpty.uint_of_string s).

(** The sensors are stored under the keys [S-0001], [S-0002], ... in this
    order, each under its own identifier; the readings and the alerts carry
    the identifiers that their counters gave out, in this order. *)
Record numbered (self : IoTSensorManager) : Prop := mkNumbered {
  sensor_keys :
    map fst (sensors self)
    = map sensor_key (seq 1 (List.length (sensors self)));
  sensor_ids :
    map sensor_id (dict_values (sensors self)) = map fst (sensors self);
  reading_ids :
    map reading_id (readings self)
    = map reading_key (seq 1 (_reading_counter self));
  alert_ids :
    map alert_id (alerts self) = map alert_key (seq 1 (_alert_counter self))
}.

(** One call of a public method that changes the manager. *)
Inductive step : IoTSensorManager -> IoTSensorManager -> Prop :=
| step_register self t loc rm now s self' :
    register_sensor self t loc rm now = Returned s self' -> step self self'
| step_ingest self id v ts now r self' :
    ingest_reading self id v ts now = Returned r self' -> step self self'
| step_acknowledge self id b self' :
    acknowledge_alert self id = Returned b self' -> step self self'
| step_resolve self id now b self' :
    resolve_alert self id now = Returned b self' -> step self self'
| step_callback self callback self' :
    register_alert_callback self callback = Returned tt self' ->
    step self self'.

(** [l] is the beginning of [l']. *)
Definition prefix {A : Type} (l l' : list A) : Prop :=
  exists rest, l' = (l ++ rest)%list.

(** An alert and a later state of it: everything but the two flags and the
    resolution time is the same, and a flag that was set is still set. *)
Definition alert_evolves (a a' : Alert) : Prop :=
  alert_id a' = alert_id a
  /\ a_sensor_id a' = a_sensor_id a
  /\ severity a' = severity a
  /\ message a' = message a
  /\ a_value a' = a_value a
  /\ threshold a' = threshold a
  /\ a_timestamp a' = a_timestamp a
  /\ (acknowledged a = true -> acknowledged a' = true)
  /\ (resolved a = true -> resolved a' = true).

(** A sensor and a later state of it: only the last reading and its time may
    differ. *)
Definition sensor_evolves (s s' : Sensor) : Prop :=
  sensor_id s' = sensor_id s
  /\ sensor_type s' = sensor_type s
  /\ location s' = location s
  /\ room s' = room s
  /\ status s' = status s
  /\ battery_level s' = battery_level s
  /\ calibration_date s' = calibration_date s
  /\ thresholds s' = thresholds s.

(** What holds of every alert of a manager with the registry [d]: the
    severity is one of the three that the rule assigns, the resolution time
    is there exactly when the alert is resolved, and the alert belongs to a
    registered sensor whose band its value lies outside of, with the violated
    bound as the threshold. *)
Definition alert_sound (d : list (string * Sensor)) (a : Alert) : Prop :=
  severity a <> EMERGENCY
  /\ (resolved a = true <-> resolution_time a <> None)
  /\ exists s,
      dict_get d (a_sensor_id a) = Some s
      /\ severity a = alert_severity s (a_value a)
      /\ (a_value a < th_min (thresholds s)
          /\ threshold a = th_min (thresholds s)
          \/ th_max (thresholds s) < a_value a
             /\ threshold a = th_max (thresholds s)).

(** The scores of a dictionary all lie between 0 and 100. *)
Definition scores_in_range (scores : list (string * Q)) : Prop :=
  forall k q, In (k, q) scores -> 0 <= q <= 100.

(** The last sensor of type [t] in a list of sensors. *)
Fixpoint last_of_type (t : SensorType) (l : list Sensor) : option Sensor :=
  match l with
  | [] => None
  | s :: rest =>
      match last_of_type t rest with
      | Some s' => Some s'
      | None => if SensorType_eqb (sensor_type s) t then Some s else None
      end
  end.

(** The order of the categories of [_score_to_category], worst first. *)
Definition category_rank (c : string) : nat :=
  if String.eqb c "Excellent" then 4
  else if String.eqb c "Good" then 3
  else if String.eqb c "Fair" then 2
  else if String.eqb c "Poor" then 1
  else 0.

(** A manager with two temperature sensors: the first read 23, the second
    read 30. *)
Definition two_temperature_manager : IoTSensorManager :=
  let self := comfortable_manager in
  let self := state_of (register_sensor self TEMPERATURE "Attic" "Bedroom"
                          one_hour) in
  state_of (ingest_reading self "S-0002" 30 None (2 * one_hour)).

(** What holds of every reading that [simulate_readings] makes: its quality
    is Good, it triggered no alert, and its timestamp has no time zone and
    lies within the simulated hours before a reading of the clock. *)
Definition simulated (duration_hours : Z) (clock : nat -> datetime)
    (r : SensorReading) : Prop :=
  quality r = "Good"
  /\ triggered_alert r = false
  /\ exists n t,
       timestamp r = Naive t
       /\ (clock n - timedelta_hours duration_hours <= t < clock n)%Z.

(** The simulated hours before every reading of the clock are times that
    the class [datetime] holds. *)
Definition simulation_representable (duration_hours : Z)
    (clock : nat -> datetime) : Prop :=
  forall n, representable (clock n)
            /\ representable (clock n - timedelta_hours duration_hours).

(** The registry [d'] has every sensor of [d], with its type and band. *)
Definition registry_kept (d d' : list (string * Sensor)) : Prop :=
  forall id s,
    dict_get d id = Some s ->
    exists s', dict_get d' id = Some s'
               /\ sensor_type s' = sensor_type s
               /\ thresholds s' = thresholds s.

(** * Auxiliary results *)

(** ** Boolean tests on rationals *)

Lemma Qle_bool_spec (x y : Q) : reflect (x <= y) (Qle_bool x y).
Proof.
  destruct (Qle_bool x y) eqn:E; constructor.
  - now apply Qle_bool_iff.
  - intro H. apply Qle_bool_iff in H. congruence.
Qed.

Lemma Qlt_bool_spec (x y : Q) : reflect (x < y) (Qlt_bool x y).
Proof.
  unfold Qlt_bool.
  destruct (Qle_bool_spec y x) as [H | H]; constructor.
  - now apply Qle_not_lt.
  - now apply Qnot_le_lt.
Qed.

Lemma Qeq_bool_spec (x y : Q) : reflect (x == y) (Qeq_bool x y).
Proof.
  destruct (Qeq_bool x y) eqn:E; constructor.
  - now apply Qeq_bool_iff.
  - intro H. apply Qeq_bool_iff in H. congruence.
Qed.

(** Turns every boolean comparison of the goal into a fact on [Q]. *)
Ltac qtests :=
  repeat match goal with
  | |- context [Qle_bool ?a ?b] => destruct (Qle_bool_spec a b)
  | |- context [Qlt_bool ?a ?b] => destruct (Qlt_bool_spec a b)
  | |- context [Qeq_bool ?a ?b] => destruct (Qeq_bool_spec a b)
  end; cbn [andb orb negb].

Lemma py_div_nonzero (a b : Q) : ~ b == 0 -> py_div a b = inr (a / b).
Proof.
  intro H. unfold py_div. now destruct (Qeq_bool_spec b 0).
Qed.

Lemma py_div_zero (a b : Q) : b == 0 -> py_div a b = inl ZeroDivisionError.
Proof.
  intro H. unfold py_div. now destruct (Qeq_bool_spec b 0).
Qed.

Lemma py_max_0 (x : Q) : py_max 0 x == Qmax 0 x.
Proof.
  unfold py_max. destruct (Qlt_bool_spec 0 x) as [H | H].
  - symmetry. apply Q.max_r. now apply Qlt_le_weak.
  - symmetry. apply Q.max_l. now apply Qnot_lt_le.
Qed.

(** ** The configuration table *)

Ltac table t :=
  destruct t;
  cbn [default_thresholds config_get SENSOR_CONFIG cfg_unit min_threshold
       max_threshold optimal_min optimal_max th_min th_max th_optimal_min
       th_optimal_max] in *.

Lemma optimal_range_table (t : SensorType) :
  0 <= config_get t optimal_min 20
  /\ config_get t optimal_min 20 < config_get t optimal_max 80.
Proof. table t; split; lra. Qed.

Lemma threshold_band_table (t : SensorType) :
  0 <= th_min (default_thresholds t)
  /\ th_min (default_thresholds t) < th_max (default_thresholds t).
Proof. table t; split; lra. Qed.

(** ** Dictionaries *)

Lemma dict_get_set_same {V : Type} (d : list (string * V)) (k : string) (v : V) :
  dict_get (dict_set d k v) k = Some v.
Proof.
  induction d as [| [k' v'] d IH]; cbn.
  - now rewrite String.eqb_refl.
  - destruct (String.eqb k' k) eqn:E; cbn; now rewrite E.
Qed.

Lemma dict_get_set_other {V : Type} (d : list (string * V)) (k k' : string)
    (v : V) :
  k <> k' -> dict_get (dict_set d k v) k' = dict_get d k'.
Proof.
  intro Hk. induction d as [| [k0 v0] d IH]; cbn.
  - destruct (String.eqb_spec k k'); [contradiction | reflexivity].
  - destruct (String.eqb_spec k0 k) as [-> | Hne]; cbn.
    + destruct (String.eqb_spec k k'); [contradiction | reflexivity].
    + now rewrite IH.
Qed.

Lemma dict_get_set {V : Type} (d : list (string * V)) (k k' : string) (v : V) :
  dict_get (dict_set d k v) k'
  = if String.eqb k k' then Some v else dict_get d k'.
Proof.
  destruct (String.eqb_spec k k') as [-> | Hne].
  - apply dict_get_set_same.
  - now apply dict_get_set_other.
Qed.

Lemma dict_get_In {V : Type} (d : list (string * V)) (k : string) (v : V) :
  dict_get d k = Some v -> In v (dict_values d).
Proof.
  induction d as [| [k' v'] d IH]; cbn; [discriminate |].
  destruct (String.eqb k' k).
  - intros [= ->]. now left.
  - intro H. right. now apply IH.
Qed.

(** ** Listeners *)

(** Whatever the listeners do, the notification loop returns. *)
Lemma notify_callbacks_returns (callbacks : list Callable) (alert : Alert) :
  notify_callbacks callbacks alert = Returns.
Proof.
  induction callbacks as [| callback rest IH]; cbn; [reflexivity |].
  now destruct (callback alert).
Qed.

(** ** Ingestion of a reading for a registered sensor *)

Lemma _generate_alert_returns (self : IoTSensorManager) (sensor : Sensor)
    (v : Q) (now : datetime) :
  exists a self',
    _generate_alert self sensor v now = Returned tt self'
    /\ alerts self' = (alerts self ++ [a])%list
    /\ sensors self' = sensors self
    /\ readings self' = readings self
    /\ alert_callbacks self' = alert_callbacks self
    /\ severity a = alert_severity sensor v
    /\ a_sensor_id a = sensor_id sensor
    /\ a_value a = v
    /\ acknowledged a = false
    /\ resolved a = false.
Proof.
  unfold _generate_alert. cbn -[format_d Nat.add].
  rewrite notify_callbacks_returns.
  eexists. eexists. split; [reflexivity |]. cbn -[format_d Nat.add].
  repeat split; reflexivity.
Qed.

Lemma ingest_reading_registered (self : IoTSensorManager) (id : string)
    (sensor : Sensor) (v : Q) (ts : option Timestamp) (now : datetime) :
  dict_get (sensors self) id = Some sensor ->
  exists r self',
    ingest_reading self id v ts now = Returned r self'
    /\ r_sensor_id r = id
    /\ value r = v
    /\ timestamp r = timestamp_or ts now
    /\ quality r = _assess_reading_quality v (sensor_type sensor)
    /\ triggered_alert r = _check_thresholds sensor v
    /\ readings self' = (readings self ++ [r])%list
    /\ sensors self'
       = dict_set (sensors self) id
           (set_last_reading sensor v (timestamp_or ts now))
    /\ alert_callbacks self' = alert_callbacks self
    /\ if _check_thresholds sensor v
       then exists a,
           alerts self' = (alerts self ++ [a])%list
           /\ severity a = alert_severity sensor v
           /\ a_sensor_id a = sensor_id sensor
           /\ a_value a = v
           /\ acknowledged a = false
           /\ resolved a = false
       else alerts self' = alerts self.
Proof.
  intro Hget. unfold ingest_reading. rewrite Hget.
  fold (timestamp_or ts now).
  destruct (_check_thresholds sensor v) eqn:Hc.
  - match goal with
    | |- context [_generate_alert ?s ?x ?y ?z] =>
        destruct (_generate_alert_returns s x y z)
          as (a & self' & -> & Ha & Hs & Hr & Hcb & Hsev & Hid & Hv & Hack & Hres)
    end.
    eexists. exists self'. split; [reflexivity |].
    cbn -[format_d Nat.add] in *.
    rewrite Hr, Hs, Hcb. repeat split; try reflexivity.
    exists a. rewrite Ha. now repeat split.
  - eexists. eexists. split; [reflexivity |].
    cbn -[format_d Nat.add]. repeat split; reflexivity.
Qed.

(** ** The states a manager can be in *)

Lemma acknowledge_alert_frame (self : IoTSensorManager) (id : string) b self' :
  acknowledge_alert self id = Returned b self' ->
  sensors self' = sensors self /\ readings self' = readings self.
Proof.
  unfold acknowledge_alert.
  destruct (acknowledge_loop (alerts self) id) as [found alerts'].
  intros [= _ <-]. now split.
Qed.

Lemma resolve_alert_frame (self : IoTSensorManager) (id : string) now b self' :
  resolve_alert self id now = Returned b self' ->
  sensors self' = sensors self /\ readings self' = readings self.
Proof.
  unfold resolve_alert.
  destruct (resolve_loop (alerts self) id now) as [found alerts'].
  intros [= _ <-]. now split.
Qed.

Lemma consistent_register self t loc rm now s self' :
  consistent self ->
  register_sensor self t loc rm now = Returned s self' ->
  consistent self'.
Proof.
  intros [Ht Hr]. unfold register_sensor. intros [= _ <-].
  split; cbn -[format_d Nat.add].
  - intros id s0. rewrite dict_get_set.
    destruct (String.eqb _ id); [intros [= <-]; reflexivity | apply Ht].
  - intros r Hin. rewrite dict_get_set.
    destruct (String.eqb _ (r_sensor_id r)); [discriminate | now apply Hr].
Qed.

Lemma consistent_ingest self id v ts now r self' :
  consistent self ->
  ingest_reading self id v ts now = Returned r self' ->
  consistent self'.
Proof.
  intros [Ht Hr] Hin.
  destruct (dict_get (sensors self) id) as [sensor |] eqn:Hget.
  - destruct (ingest_reading_registered self id sensor v ts now Hget)
      as (r0 & self0 & E & Hid & _ & _ & _ & _ & Hrs & Hss & _).
    rewrite E in Hin. injection Hin as <- <-.
    split.
    + intros id' s. rewrite Hss, dict_get_set.
      destruct (String.eqb id id').
      * intros [= <-]. cbn. now apply (Ht id).
      * apply Ht.
    + intros r'. rewrite Hrs, Hss, dict_get_set. intro H.
      apply in_app_or in H.
      destruct (String.eqb_spec id (r_sensor_id r')) as [_ | Hne];
        [discriminate |].
      destruct H as [H | [<- | []]]; [now apply Hr | congruence].
  - unfold ingest_reading in Hin. rewrite Hget in Hin. discriminate.
Qed.

Theorem reachable_consistent (self : IoTSensorManager) :
  reachable self -> consistent self.
Proof.
  induction 1 as [pid | self t loc rm now s self' _ IH E
                 | self id v ts now r self' _ IH E
                 | self id b self' _ IH E
                 | self id now b self' _ IH E
                 | self callback self' _ IH E].
  - split; cbn; [discriminate | contradiction].
  - eapply consistent_register; eassumption.
  - eapply consistent_ingest; eassumption.
  - destruct (acknowledge_alert_frame _ _ _ _ E) as [Hs Hr].
    destruct IH as [Ht Hrr]. split; rewrite ?Hs, ?Hr; assumption.
  - destruct (resolve_alert_frame _ _ _ _ _ E) as [Hs Hr].
    destruct IH as [Ht Hrr]. split; rewrite ?Hs, ?Hr; assumption.
  - injection E as <-. destruct IH as [Ht Hrr]. now split.
Qed.

(** * The properties of the specification *)

(** ** Scenario: a temperature sensor reads 40 *)

(** C1, as the code has it: after registering a temperature sensor and
    ingesting 40, the returned reading has quality Poor and
    triggered_alert = true, and the alert created by that ingestion has
    severity Info (40 exceeds the maximum 35, but neither 35 * 1.5 = 52.5
    nor 35 * 1.2 = 42). *)
Theorem C1_temperature_40_is_info (pid loc rm : string) (now : datetime)
    (ts : option Timestamp) (now' : datetime) :
  temperature_40_scenario pid loc rm now ts now' INFO.
Proof.
  unfold temperature_40_scenario.
  eexists. eexists. eexists. eexists. eexists.
  split; [reflexivity |].
  cbn [thresholds th_optimal_min th_optimal_max th_max config_get
       SENSOR_CONFIG optimal_min optimal_max max_threshold].
  do 3 (split; [reflexivity |]).
  split; [vm_compute; reflexivity |].
  cbn [quality triggered_alert alerts severity].
  now repeat split.
Qed.

(** C1, as the specification states it, fails: the severity of the alert is
    not Warning. *)
Lemma C1_temperature_40_not_warning :
  ~ temperature_40_scenario "PROP-001" "Main Hall" "Living Room" 0 None 1
      WARNING.
Proof.
  intros (s & self1 & r & self2 & a & Hreg & _ & _ & _ & Hin & _ & _ & Ha & Hsev).
  vm_compute in Hreg. injection Hreg as <- <-.
  vm_compute in Hin. injection Hin as <- <-.
  cbn in Ha. injection Ha as <-.
  discriminate Hsev.
Qed.

(** ** Reachability of the example states *)

(** The state that a call of [ingest_reading] leaves is reachable, whether the
    call returns or raises. *)
Lemma reachable_after_ingest (self : IoTSensorManager) (id : string) (v : Q)
    (ts : option Timestamp) (now : datetime) :
  reachable self -> reachable (state_of (ingest_reading self id v ts now)).
Proof.
  intro H.
  destruct (ingest_reading self id v ts now) as [r self' | e self'] eqn:E.
  - exact (reach_ingest self id v ts now r self' H E).
  - destruct (dict_get (sensors self) id) as [sensor |] eqn:Hget.
    + destruct (ingest_reading_registered self id sensor v ts now Hget)
        as (r & self0 & E' & _).
      rewrite E' in E. discriminate E.
    + unfold ingest_reading in E. rewrite Hget in E.
      injection E as _ <-. exact H.
Defined.

Lemma temperature_manager_reachable : reachable temperature_manager.
Proof.
  eapply reach_register; [apply reach_init | reflexivity].
Defined.

Lemma out_of_order_manager_reachable : reachable out_of_order_manager.
Proof.
  unfold out_of_order_manager. cbv zeta.
  do 3 apply reachable_after_ingest.
  exact temperature_manager_reachable.
Defined.

(** ** The window of the history query *)

(** Between two times of the class [datetime] lie fewer hours than a
    [timedelta] holds, so that the subtraction gives the earlier time. *)
Lemma datetime_sub_hours (t : datetime) (hours : Z) :
  representable t ->
  representable (t - timedelta_hours hours) ->
  (delta <- timedelta hours ;; datetime_sub t delta)
  = inr (t - timedelta_hours hours)%Z.
Proof.
  unfold representable, datetime_min, datetime_max, timedelta_hours.
  intros Ht Hc. unfold timedelta, bind, datetime_sub, timedelta_hours.
  assert (H1 : (-999999999 <=? hours / 24)%Z = true).
  { apply Z.leb_le. apply Z.div_le_lower_bound; lia. }
  assert (H2 : (hours / 24 <=? 999999999)%Z = true).
  { apply Z.leb_le. apply Z.div_le_upper_bound; lia. }
  rewrite H1, H2. cbn [andb].
  assert (H3 : (datetime_min <=? t - hours * 3600000000)%Z = true)
    by (apply Z.leb_le; unfold datetime_min; lia).
  assert (H4 : (t - hours * 3600000000 <=? datetime_max)%Z = true)
    by (apply Z.leb_le; unfold datetime_max; lia).
  now rewrite H3, H4.
Qed.

Lemma datetime_sub_overflow (t : datetime) (hours : Z) :
  ~ representable (t - timedelta_hours hours) ->
  (delta <- timedelta hours ;; datetime_sub t delta) = inl OverflowError.
Proof.
  intro Hc. unfold timedelta, bind.
  destruct ((-999999999 <=? hours / 24)%Z && (hours / 24 <=? 999999999)%Z);
    [| reflexivity].
  unfold datetime_sub.
  destruct ((datetime_min <=? t - timedelta_hours hours)%Z
            && (t - timedelta_hours hours <=? datetime_max)%Z) eqn:E;
    [| reflexivity].
  exfalso. apply Hc. apply andb_prop in E. destruct E as [E1 E2].
  apply Z.leb_le in E1, E2. now split.
Qed.

Lemma history_loop_other (id : string) (cutoff : datetime)
    (l : list SensorReading) :
  (forall r, In r l -> r_sensor_id r <> id) ->
  history_loop id cutoff l = inr [].
Proof.
  induction l as [| r l IH]; intro H; cbn [history_loop]; [reflexivity |].
  unfold in_history.
  destruct (String.eqb_spec (r_sensor_id r) id) as [E | _].
  - exfalso. apply (H r); [now left | exact E].
  - cbn [bind]. rewrite IH; [reflexivity |].
    intros r' Hr'. apply H. now right.
Qed.

Lemma history_loop_naive (id : string) (cutoff : datetime)
    (l : list SensorReading) :
  (forall r, In r l -> r_sensor_id r = id -> is_naive (timestamp r) = true) ->
  history_loop id cutoff l
  = inr (map history_entry (filter (stamped_after id cutoff) l)).
Proof.
  induction l as [| r l IH]; intro H; cbn [history_loop filter];
    [reflexivity |].
  rewrite IH by (intros r' Hr'; apply H; now right).
  unfold in_history, stamped_after at 2.
  destruct (String.eqb_spec (r_sensor_id r) id) as [E | _];
    [| reflexivity].
  pose proof (H r (or_introl eq_refl) E) as Hn.
  destruct (timestamp r) as [t | t off]; [| discriminate Hn].
  cbn [datetime_gt bind instant andb].
  now destruct (cutoff <? t)%Z.
Qed.

Lemma history_loop_aware (id : string) (cutoff : datetime)
    (l : list SensorReading) :
  (exists r, In r l /\ r_sensor_id r = id /\ is_naive (timestamp r) = false) ->
  history_loop id cutoff l = inl TypeError.
Proof.
  induction l as [| r l IH]; intros (r' & Hin & Hid & Hn); [destruct Hin |].
  cbn [history_loop]. unfold in_history.
  destruct Hin as [<- | Hin].
  - rewrite Hid, String.eqb_refl.
    destruct (timestamp r) as [t | t off]; [discriminate Hn | reflexivity].
  - rewrite (IH (ex_intro _ r' (conj Hin (conj Hid Hn)))).
    destruct (String.eqb (r_sensor_id r) id); [| reflexivity].
    now destruct (timestamp r).
Qed.

(** With a window that the class [datetime] holds and timestamps without a
    time zone, the query is a filter of the log. *)
Lemma get_sensor_history_naive (self : IoTSensorManager) (id : string)
    (hours : Z) (now : datetime) :
  representable now ->
  representable (now - timedelta_hours hours) ->
  naive_readings self id ->
  get_sensor_history self id hours now
  = Returned
      (map history_entry
         (filter (stamped_after id (now - timedelta_hours hours))
            (readings self)))
      self.
Proof.
  intros Hnow Hcut Hnaive. unfold get_sensor_history.
  pose proof (datetime_sub_hours now hours Hnow Hcut) as E.
  unfold bind in E |- *.
  destruct (timedelta hours) as [e | delta]; [discriminate E |].
  rewrite E. now rewrite (history_loop_naive id _ (readings self) Hnaive).
Qed.

Lemma get_sensor_history_overflow (self : IoTSensorManager) (id : string)
    (hours : Z) (now : datetime) :
  ~ representable (now - timedelta_hours hours) ->
  get_sensor_history self id hours now = Raised OverflowError self.
Proof.
  intro Hcut. unfold get_sensor_history.
  pose proof (datetime_sub_overflow now hours Hcut) as E.
  unfold bind in E |- *.
  destruct (timedelta hours) as [e | delta].
  - now injection E as ->.
  - now rewrite E.
Qed.

(** ** Unknown sensor identifiers *)

(** C2, as the code has it: for a sensor identifier that is not registered,
    ingesting a reading raises [ValueError] and leaves the manager as it was;
    the history query raises no such error: it returns the empty list for
    every window whose start [now - hours] the class [datetime] holds, and
    for the other windows it raises the [OverflowError] of the subtraction,
    as it does for a registered sensor. *)
Theorem C2_unknown_sensor (self : IoTSensorManager) (id : string) (v : Q)
    (ts : option Timestamp) (hours : Z) (now : datetime) :
  reachable self ->
  dict_get (sensors self) id = None ->
  representable now ->
  ingest_reading self id v ts now
  = Raised (ValueError ("Sensor " ++ id ++ " not found")) self
  /\ (representable (now - timedelta_hours hours) ->
      get_sensor_history self id hours now = Returned [] self)
  /\ (~ representable (now - timedelta_hours hours) ->
      get_sensor_history self id hours now = Raised OverflowError self).
Proof.
  intros Hreach Hget Hnow. split; [| split].
  - unfold ingest_reading. now rewrite Hget.
  - intro Hcut. unfold get_sensor_history.
    pose proof (datetime_sub_hours now hours Hnow Hcut) as E.
    unfold bind in E |- *.
    destruct (timedelta hours) as [e | delta]; [discriminate E |].
    rewrite E. rewrite history_loop_other; [reflexivity |].
    intros r Hr Er.
    apply (readings_registered self (reachable_consistent self Hreach) r Hr).
    now rewrite Er.
  - apply get_sensor_history_overflow.
Qed.

Lemma C2_unknown_sensor_witness :
  ingest_reading out_of_order_manager "S-0002" 21 None (10 * one_hour)
  = Raised (ValueError "Sensor S-0002 not found") out_of_order_manager
  /\ get_sensor_history out_of_order_manager "S-0002" 24 (10 * one_hour)
     = Returned [] out_of_order_manager
  /\ get_sensor_history out_of_order_manager "S-0002" 600000000
       (10 * one_hour)
     = Raised OverflowError out_of_order_manager.
Proof.
  destruct (C2_unknown_sensor out_of_order_manager "S-0002" 21 None 24
              (10 * one_hour) out_of_order_manager_reachable eq_refl)
    as (H1 & H2 & _).
  { split; discriminate. }
  split; [exact H1 |]. split.
  - apply H2. split; discriminate.
  - apply (C2_unknown_sensor out_of_order_manager "S-0002" 21 None 600000000
             (10 * one_hour) out_of_order_manager_reachable eq_refl).
    + split; discriminate.
    + intros [H _]. now apply H.
Defined.

(** C2, as the specification states it, fails: the history query for an
    unregistered identifier does not raise. *)
Lemma C2_history_unknown_does_not_raise :
  dict_get (sensors out_of_order_manager) "S-0002" = None
  /\ ~ raises (get_sensor_history out_of_order_manager "S-0002" 24
                 (10 * one_hour)).
Proof.
  split; [reflexivity |].
  intros (e & self' & H). discriminate H.
Qed.

(** ** The history query *)

Lemma Selected_In {A : Type} (P : A -> Prop) (l l' : list A) :
  Selected P l l' -> forall x, In x l' <-> In x l /\ P x.
Proof.
  induction 1 as [| y l l' Hy _ IH | y l l' Hy _ IH]; intro x; cbn.
  - tauto.
  - rewrite IH. split.
    + intros [<- | [H1 H2]]; auto.
    + intros [[<- | H1] H2]; auto.
  - rewrite IH. split.
    + intros [H1 H2]; auto.
    + intros [[<- | H1] H2]; [contradiction | auto].
Qed.

Lemma Selected_unique {A : Type} (P : A -> Prop) (l l1 l2 : list A) :
  Selected P l l1 -> Selected P l l2 -> l1 = l2.
Proof.
  intro H. revert l2.
  induction H as [| y l l' Hy _ IH | y l l' Hy _ IH]; intros l2 H2;
    inversion H2; subst; try contradiction; auto.
  f_equal. now apply IH.
Qed.

Lemma Selected_nil_iff {A : Type} (P : A -> Prop) (l l' : list A) :
  Selected P l l' -> l' = [] <-> forall x, In x l -> ~ P x.
Proof.
  intro H. split.
  - intros -> x Hx HP.
    destruct (proj2 (Selected_In P l [] H x) (conj Hx HP)).
  - intro Hnone. destruct l' as [| y l']; [reflexivity |].
    destruct (proj1 (Selected_In P l (y :: l') H y) (or_introl eq_refl))
      as [Hy HP].
    now destruct (Hnone y Hy).
Qed.

Lemma filter_Selected (id : string) (hours : Z) (now : datetime)
    (l : list SensorReading) :
  Selected (after_cutoff id hours now) l
    (filter (stamped_after id (now - timedelta_hours hours)) l).
Proof.
  induction l as [| r l IH]; cbn; [constructor |].
  unfold stamped_after at 1.
  destruct (String.eqb_spec (r_sensor_id r) id) as [E | E]; cbn.
  - destruct (Z.ltb_spec (now - timedelta_hours hours) (instant (timestamp r)))
      as [L | L].
    + apply Selected_keep; [now split | exact IH].
    + apply Selected_skip; [| exact IH]. intros [_ H]. lia.
  - apply Selected_skip; [| exact IH]. now intros [H _].
Qed.

(** C3, as the code has it.  Let the query be made at a time [now] for a
    window of [hours] hours.  If the start [now - hours] of the window is a
    time that the class [datetime] holds and the readings of the sensor
    carry timestamps without a time zone, the query returns the entries of
    exactly those readings of the log that belong to the sensor and are
    stamped strictly after [now - hours] (no upper bound is applied), in the
    order of the log, which is the order of ingestion; the list is empty
    exactly when there is no such reading.  If the start of the window is
    such a time and a reading of the sensor carries a time zone, the query
    raises [TypeError]; if the start of the window is no such time, it
    raises [OverflowError].  The manager stays as it was. *)
Theorem C3_history_after_cutoff (self : IoTSensorManager) (id : string)
    (hours : Z) (now : datetime) :
  representable now ->
  (representable (now - timedelta_hours hours) ->
   naive_readings self id ->
   exists rs,
     get_sensor_history self id hours now
     = Returned (map history_entry rs) self
     /\ Selected (after_cutoff id hours now) (readings self) rs
     /\ (map history_entry rs = [] <->
         forall r, In r (readings self) -> ~ after_cutoff id hours now r))
  /\ (representable (now - timedelta_hours hours) ->
      (exists r, In r (readings self) /\ r_sensor_id r = id
                 /\ is_naive (timestamp r) = false) ->
      get_sensor_history self id hours now = Raised TypeError self)
  /\ (~ representable (now - timedelta_hours hours) ->
      get_sensor_history self id hours now = Raised OverflowError self).
Proof.
  intro Hnow. split; [| split].
  - intros Hcut Hnaive.
    exists (filter (stamped_after id (now - timedelta_hours hours))
              (readings self)).
    split; [now apply get_sensor_history_naive |].
    split; [apply filter_Selected |].
    rewrite <- (Selected_nil_iff _ _ _
                  (filter_Selected id hours now (readings self))).
    split.
    + apply map_eq_nil.
    + now intros ->.
  - intros Hcut Haware. unfold get_sensor_history.
    pose proof (datetime_sub_hours now hours Hnow Hcut) as E.
    unfold bind in E |- *.
    destruct (timedelta hours) as [e | delta]; [discriminate E |].
    rewrite E. now rewrite (history_loop_aware id _ (readings self) Haware).
  - apply get_sensor_history_overflow.
Qed.

(** On the manager whose readings arrived out of order, one hour back from
    the tenth hour, the query returns the reading of the eleventh hour before
    the one of hour nine and a half, and leaves out the reading stamped
    exactly [now - hours]. *)
Example out_of_order_history :
  get_sensor_history out_of_order_manager "S-0001" 1 (10 * one_hour)
  = Returned
      [ mkHistoryEntry 21 (Naive (11 * one_hour)) "Good";
        mkHistoryEntry 23 (Naive (9 * one_hour + one_hour / 2)) "Good" ]
      out_of_order_manager.
Proof. reflexivity. Qed.

Lemma out_of_order_naive : naive_readings out_of_order_manager "S-0001".
Proof. intros r [<- | [<- | [<- | []]]] _; reflexivity. Qed.

Lemma C3_history_after_cutoff_witness :
  (exists rs,
     get_sensor_history out_of_order_manager "S-0001" 1 (10 * one_hour)
     = Returned (map history_entry rs) out_of_order_manager
     /\ List.length rs = 2%nat)
  /\ get_sensor_history out_of_order_manager "S-0001" 20000000
       (10 * one_hour)
     = Raised OverflowError out_of_order_manager.
Proof.
  assert (Hnow : representable (10 * one_hour)) by (split; discriminate).
  split.
  - destruct (C3_history_after_cutoff out_of_order_manager "S-0001" 1
                (10 * one_hour) Hnow)
      as (H & _).
    destruct H as (rs & E & _); [split; discriminate | |].
    + exact out_of_order_naive.
    + exists rs. split; [exact E |].
      rewrite out_of_order_history in E. injection E as E.
      apply (f_equal (@List.length _)) in E. rewrite length_map in E.
      now rewrite <- E.
  - apply (C3_history_after_cutoff out_of_order_manager "S-0001" 20000000
             (10 * one_hour) Hnow).
    intros [H _]. now apply H.
Defined.

(** C3, as the specification states it, fails on that manager: the list
    that the query returns is not in chronological order, it has an entry
    stamped after [now], and it lacks the reading stamped exactly
    [now - hours], which lies within the window. *)
Lemma C3_history_not_as_specified :
  ~ history_as_specified out_of_order_manager "S-0001" 1 (10 * one_hour)
  /\ exists h,
      get_sensor_history out_of_order_manager "S-0001" 1 (10 * one_hour)
      = Returned h out_of_order_manager
      /\ ~ chronological h
      /\ (exists e, In e h /\ (10 * one_hour < instant (h_timestamp e))%Z)
      /\ (exists r, In r (readings out_of_order_manager)
                    /\ within_window "S-0001" 1 (10 * one_hour) r
                    /\ ~ In (history_entry r) h).
Proof.
  split.
  - intros (h & E & _ & Hm).
    rewrite out_of_order_history in E. injection E as <-.
    destruct (proj1 (Hm _) (or_introl eq_refl)) as (r & _ & [_ [_ Hle]] & He).
    apply (f_equal h_timestamp) in He.
    cbn [h_timestamp history_entry] in He.
    rewrite <- He in Hle. vm_compute in Hle. now apply Hle.
  - eexists. split; [exact out_of_order_history |]. split; [| split].
    + intro Hc.
      specialize (Hc 0%nat 1%nat _ _ (le_n 1) eq_refl eq_refl).
      vm_compute in Hc. now apply Hc.
    + eexists. split; [left; reflexivity | reflexivity].
    + exists (mkSensorReading "R-00000002" "S-0001" TEMPERATURE 22 "°C"
                (Naive (9 * one_hour)) "Good" false).
      split; [right; left; reflexivity |].
      split; [split; [reflexivity | split; vm_compute; discriminate] |].
      intros [H | [H | []]]; discriminate H.
Qed.

(** ** Quality of a reading *)

Lemma _assess_reading_quality_cases (v : Q) (t : SensorType) :
  let lo := config_get t optimal_min 20 in
  let hi := config_get t optimal_max 80 in
  (lo <= v <= hi -> _assess_reading_quality v t = "Good")
  /\ (v < (8 # 10) * lo \/ (12 # 10) * hi < v ->
      _assess_reading_quality v t = "Poor")
  /\ (~ lo <= v <= hi -> ~ (v < (8 # 10) * lo \/ (12 # 10) * hi < v) ->
      _assess_reading_quality v t = "Fair").
Proof.
  intros lo hi.
  destruct (optimal_range_table t) as [H0 Hlt].
  fold lo in H0, Hlt. fold hi in Hlt.
  unfold _assess_reading_quality. fold lo. fold hi.
  repeat split.
  - intros [H1 H2]. qtests; try reflexivity; lra.
  - intros [H | H]; qtests; try reflexivity; lra.
  - intros H1 H2. qtests; try reflexivity; exfalso; lra.
Qed.

(** C4: for every registered sensor, with optimal range [[lo, hi]], and
    every ingested value [v], the reading that [ingest_reading] returns has
    quality Good if [lo <= v <= hi], Poor if [v < 0.8 * lo] or
    [v > 1.2 * hi], and Fair for every other value. *)
Theorem C4_reading_quality (self : IoTSensorManager) (id : string)
    (sensor : Sensor) (v : Q) (ts : option Timestamp) (now : datetime) :
  reachable self ->
  dict_get (sensors self) id = Some sensor ->
  let lo := th_optimal_min (thresholds sensor) in
  let hi := th_optimal_max (thresholds sensor) in
  exists r self',
    ingest_reading self id v ts now = Returned r self'
    /\ (lo <= v <= hi -> quality r = "Good")
    /\ (v < (8 # 10) * lo \/ (12 # 10) * hi < v -> quality r = "Poor")
    /\ (~ lo <= v <= hi -> ~ (v < (8 # 10) * lo \/ (12 # 10) * hi < v) ->
        quality r = "Fair").
Proof.
  intros Hreach Hget lo hi.
  destruct (ingest_reading_registered self id sensor v ts now Hget)
    as (r & self' & E & _ & _ & _ & Hq & _).
  exists r, self'. split; [exact E |].
  rewrite Hq. subst lo hi.
  rewrite (table_thresholds self (reachable_consistent self Hreach) id sensor Hget).
  apply _assess_reading_quality_cases.
Qed.

Lemma C4_reading_quality_witness :
  exists r self',
    ingest_reading temperature_manager "S-0001" 28 None one_hour
    = Returned r self'
    /\ quality r = "Fair".
Proof.
  destruct (C4_reading_quality temperature_manager "S-0001"
              temperature_sensor 28 None one_hour
              temperature_manager_reachable eq_refl)
    as (r & self' & E & _ & _ & Hfair).
  exists r, self'. split; [exact E |].
  apply Hfair; cbn; intro H.
  - destruct H as [_ H]. vm_compute in H. now apply H.
  - destruct H as [H | H]; vm_compute in H; discriminate H.
Defined.

(** ** Threshold breaches and alerts *)

Lemma _check_thresholds_iff (sensor : Sensor) (v : Q) :
  _check_thresholds sensor v = true
  <-> v < th_min (thresholds sensor) \/ th_max (thresholds sensor) < v.
Proof.
  unfold _check_thresholds. qtests; split; intro H; try reflexivity;
    try discriminate; tauto.
Qed.

(** C5: for every registered sensor and every value [v], the reading that
    [ingest_reading] returns has triggered_alert = true if and only if
    [v < min] or [v > max] for the threshold band of the sensor, and the
    ingestion appends one alert to the alerts of the manager exactly when
    the flag is true. *)
Theorem C5_alert_iff_breach (self : IoTSensorManager) (id : string)
    (sensor : Sensor) (v : Q) (ts : option Timestamp) (now : datetime) :
  dict_get (sensors self) id = Some sensor ->
  exists r self',
    ingest_reading self id v ts now = Returned r self'
    /\ (triggered_alert r = true
        <-> v < th_min (thresholds sensor) \/ th_max (thresholds sensor) < v)
    /\ (triggered_alert r = true ->
        exists a, alerts self' = (alerts self ++ [a])%list
                  /\ a_sensor_id a = sensor_id sensor /\ a_value a = v)
    /\ (triggered_alert r = false -> alerts self' = alerts self).
Proof.
  intro Hget.
  destruct (ingest_reading_registered self id sensor v ts now Hget)
    as (r & self' & E & _ & _ & _ & _ & Hflag & _ & _ & _ & Halerts).
  exists r, self'. split; [exact E |].
  rewrite Hflag. split; [apply _check_thresholds_iff |].
  destruct (_check_thresholds sensor v).
  - split; [| discriminate]. intros _.
    destruct Halerts as (a & Ha & _ & Hid & Hv & _). now exists a.
  - split; [discriminate | now intros _].
Qed.

Lemma C5_alert_iff_breach_witness :
  exists r self',
    ingest_reading temperature_manager "S-0001" 9 None one_hour
    = Returned r self'
    /\ triggered_alert r = true
    /\ exists a, alerts self' = [a] /\ a_value a = 9.
Proof.
  destruct (C5_alert_iff_breach temperature_manager "S-0001"
              temperature_sensor 9 None one_hour eq_refl)
    as (r & self' & E & Hiff & Hyes & _).
  assert (Hflag : triggered_alert r = true).
  { apply Hiff. left. reflexivity. }
  exists r, self'. split; [exact E |]. split; [exact Hflag |].
  destruct (Hyes Hflag) as (a & Ha & _ & Hv).
  exists a. split; [exact Ha | exact Hv].
Defined.

(** ** Severity of an alert *)

(** On a band with [0 <= min <= max] the severity grows with the distance
    from the band, on either side of it. *)
Lemma alert_severity_monotone (sensor : Sensor) (v1 v2 : Q) :
  0 <= th_min (thresholds sensor) ->
  th_min (thresholds sensor) <= th_max (thresholds sensor) ->
  th_max (thresholds sensor) < v1 <= v2
  \/ v2 <= v1 < th_min (thresholds sensor) ->
  severity_le (alert_severity sensor v1) (alert_severity sensor v2).
Proof.
  intros H0 Hband Hout. unfold alert_severity, severity_le.
  set (lo := th_min (thresholds sensor)) in *.
  set (hi := th_max (thresholds sensor)) in *.
  destruct (Qlt_bool_spec (hi * (15 # 10)) v1);
    destruct (Qlt_bool_spec v1 (lo * (5 # 10)));
    destruct (Qlt_bool_spec (hi * (15 # 10)) v2);
    destruct (Qlt_bool_spec v2 (lo * (5 # 10)));
    cbn [orb severity_rank]; try lia; try (exfalso; lra);
    destruct (Qlt_bool_spec (hi * (12 # 10)) v1);
    destruct (Qlt_bool_spec v1 (lo * (8 # 10)));
    cbn [orb severity_rank]; try lia; try (exfalso; lra);
    destruct (Qlt_bool_spec (hi * (12 # 10)) v2);
    destruct (Qlt_bool_spec v2 (lo * (8 # 10)));
    cbn [orb severity_rank]; try lia; exfalso; lra.
Qed.

(** C6: for a fixed registered sensor, if [v2] lies further outside the
    threshold band than [v1] on the same side (further above [max], or
    further below [min]), the alert that the ingestion of [v2] creates is at
    least as severe as the one that the ingestion of [v1] creates, in the
    order Info <= Warning <= Critical. *)
Theorem C6_severity_monotone (self : IoTSensorManager) (id : string)
    (sensor : Sensor) (v1 v2 : Q) (ts1 ts2 : option Timestamp)
    (now1 now2 : datetime) :
  reachable self ->
  dict_get (sensors self) id = Some sensor ->
  th_max (thresholds sensor) < v1 <= v2
  \/ v2 <= v1 < th_min (thresholds sensor) ->
  exists r1 self1 a1 r2 self2 a2,
    ingest_reading self id v1 ts1 now1 = Returned r1 self1
    /\ alerts self1 = (alerts self ++ [a1])%list
    /\ ingest_reading self id v2 ts2 now2 = Returned r2 self2
    /\ alerts self2 = (alerts self ++ [a2])%list
    /\ severity_le (severity a1) (severity a2).
Proof.
  intros Hreach Hget Hout.
  pose proof (table_thresholds self (reachable_consistent self Hreach)
                id sensor Hget) as Hth.
  destruct (threshold_band_table (sensor_type sensor)) as [H0 Hband].
  rewrite <- Hth in H0, Hband.
  assert (Hb1 : _check_thresholds sensor v1 = true).
  { apply _check_thresholds_iff. destruct Hout as [[H _] | [_ H]]; auto. }
  assert (Hb2 : _check_thresholds sensor v2 = true).
  { apply _check_thresholds_iff. destruct Hout as [[H H'] | [H H']].
    - right. lra.
    - left. lra. }
  destruct (ingest_reading_registered self id sensor v1 ts1 now1 Hget)
    as (r1 & self1 & E1 & _ & _ & _ & _ & _ & _ & _ & _ & Ha1).
  destruct (ingest_reading_registered self id sensor v2 ts2 now2 Hget)
    as (r2 & self2 & E2 & _ & _ & _ & _ & _ & _ & _ & _ & Ha2).
  rewrite Hb1 in Ha1. rewrite Hb2 in Ha2.
  destruct Ha1 as (a1 & Ha1 & Hs1 & _). destruct Ha2 as (a2 & Ha2 & Hs2 & _).
  exists r1, self1, a1, r2, self2, a2.
  repeat (split; [assumption |]).
  rewrite Hs1, Hs2.
  apply alert_severity_monotone; [exact H0 | now apply Qlt_le_weak | exact Hout].
Qed.

Lemma C6_severity_monotone_witness :
  exists r1 self1 a1 r2 self2 a2,
    ingest_reading temperature_manager "S-0001" 40 None one_hour
    = Returned r1 self1
    /\ alerts self1 = [a1]
    /\ ingest_reading temperature_manager "S-0001" 43 None one_hour
       = Returned r2 self2
    /\ alerts self2 = [a2]
    /\ severity_le (severity a1) (severity a2).
Proof.
  apply (C6_severity_monotone temperature_manager "S-0001"
           temperature_sensor 40 43 None None one_hour one_hour
           temperature_manager_reachable eq_refl).
  left. split; [reflexivity | vm_compute; discriminate].
Defined.

(** ** Acknowledging and resolving alerts *)

Section AlertLoops.

Variable id : string.

(** A field assignment that keeps the identifier, as both loops make. *)
Variable assign : Alert -> Alert.
Hypothesis assign_id : forall a, alert_id (assign a) = alert_id a.

Variable loop : list Alert -> bool * list Alert.
Hypothesis loop_nil : loop [] = (false, []).
Hypothesis loop_cons :
  forall a l,
    loop (a :: l)
    = if String.eqb (alert_id a) id then (true, assign a :: l)
      else let (found, l') := loop l in (found, a :: l').

Lemma loop_known (l : list Alert) (a : Alert) :
  find_alert l id = Some a ->
  exists l',
    loop l = (true, l')
    /\ find_alert l' id = Some (assign a)
    /\ List.length l' = List.length l
    /\ forall id', id' <> id -> find_alert l' id' = find_alert l id'.
Proof.
  induction l as [| b l IH]; cbn; [discriminate |].
  rewrite loop_cons.
  destruct (String.eqb_spec (alert_id b) id) as [E | E].
  - intros [= ->]. exists (assign a :: l). cbn.
    rewrite assign_id, E, String.eqb_refl. repeat split.
    intros id' Hne. destruct (String.eqb_spec id id'); congruence.
  - intro H. destruct (IH H) as (l' & -> & Hf & Hlen & Hother).
    exists (b :: l'). cbn.
    destruct (String.eqb_spec (alert_id b) id); [contradiction |].
    repeat split; [exact Hf | now rewrite Hlen |].
    intros id' Hne. rewrite (Hother id' Hne). reflexivity.
Qed.

Lemma loop_unknown (l : list Alert) :
  find_alert l id = None -> loop l = (false, l).
Proof.
  induction l as [| b l IH]; cbn; [intros _; exact loop_nil |].
  rewrite loop_cons.
  destruct (String.eqb (alert_id b) id); [discriminate |].
  intro H. now rewrite (IH H).
Qed.

(** A second run of the loop finds the alert it updated and leaves the
    list as the first run made it. *)
Lemma loop_again (l l' : list Alert) :
  (forall a, assign (assign a) = assign a) ->
  loop l = (true, l') -> loop l' = (true, l').
Proof.
  intro Hidem. revert l'.
  induction l as [| b l IH]; intro l'.
  - rewrite loop_nil. discriminate.
  - rewrite loop_cons.
    destruct (String.eqb (alert_id b) id) eqn:E.
    + intros [= <-]. now rewrite loop_cons, assign_id, E, Hidem.
    + destruct (loop l) as [found l0] eqn:El. intros [= -> <-].
      rewrite loop_cons, E, (IH l0 eq_refl). reflexivity.
Qed.

End AlertLoops.

Lemma acknowledge_known (self : IoTSensorManager) (id : string) (a : Alert) :
  find_alert (alerts self) id = Some a ->
  exists self',
    acknowledge_alert self id = Returned true self'
    /\ find_alert (alerts self') id = Some (set_acknowledged a)
    /\ (forall id', id' <> id ->
          find_alert (alerts self') id' = find_alert (alerts self) id')
    /\ sensors self' = sensors self /\ readings self' = readings self.
Proof.
  intro H.
  destruct (loop_known id set_acknowledged (fun _ => eq_refl)
              (fun l => acknowledge_loop l id) (fun _ _ => eq_refl)
              (alerts self) a H) as (l' & E & Hf & _ & Hother).
  unfold acknowledge_alert. rewrite E.
  eexists. split; [reflexivity |]. cbn. auto.
Qed.

Lemma resolve_known (self : IoTSensorManager) (id : string) (now : datetime)
    (a : Alert) :
  find_alert (alerts self) id = Some a ->
  exists self',
    resolve_alert self id now = Returned true self'
    /\ find_alert (alerts self') id = Some (set_resolved a now)
    /\ (forall id', id' <> id ->
          find_alert (alerts self') id' = find_alert (alerts self) id')
    /\ sensors self' = sensors self /\ readings self' = readings self.
Proof.
  intro H.
  destruct (loop_known id (fun a => set_resolved a now) (fun _ => eq_refl)
              (fun l => resolve_loop l id now) (fun _ _ => eq_refl)
              (alerts self) a H) as (l' & E & Hf & _ & Hother).
  unfold resolve_alert. rewrite E.
  eexists. split; [reflexivity |]. cbn. auto.
Qed.

Lemma set_alerts_same (self : IoTSensorManager) :
  set_alerts self (alerts self) = self.
Proof. now destruct self. Qed.

(** C7: for a known alert identifier, [acknowledge_alert] sets
    acknowledged = true and returns true, and a second call returns true
    again and leaves the manager as the first call left it; [resolve_alert]
    sets resolved = true and the resolution time and returns true, after an
    acknowledgement as well as without one.  For an unknown identifier both
    methods return false, raise nothing and leave the manager unchanged. *)
Theorem C7_alert_lifecycle (self : IoTSensorManager) (id : string)
    (now : datetime) :
  (forall a, find_alert (alerts self) id = Some a ->
     exists self1 a1,
       acknowledge_alert self id = Returned true self1
       /\ find_alert (alerts self1) id = Some a1
       /\ acknowledged a1 = true
       /\ resolved a1 = resolved a
       /\ acknowledge_alert self1 id = Returned true self1
       /\ (exists self2 a2,
             resolve_alert self1 id now = Returned true self2
             /\ find_alert (alerts self2) id = Some a2
             /\ resolved a2 = true
             /\ resolution_time a2 = Some now
             /\ acknowledged a2 = true)
       /\ (exists self3 a3,
             resolve_alert self id now = Returned true self3
             /\ find_alert (alerts self3) id = Some a3
             /\ resolved a3 = true
             /\ resolution_time a3 = Some now
             /\ acknowledged a3 = acknowledged a))
  /\ (find_alert (alerts self) id = None ->
      acknowledge_alert self id = Returned false self
      /\ resolve_alert self id now = Returned false self).
Proof.
  split.
  - intros a Ha.
    destruct (acknowledge_known self id a Ha) as (self1 & E1 & Hf1 & _).
    exists self1, (set_acknowledged a).
    split; [exact E1 |]. split; [exact Hf1 |].
    split; [reflexivity |]. split; [reflexivity |].
    split; [| split].
    + unfold acknowledge_alert in E1 |- *.
      destruct (acknowledge_loop (alerts self) id) as [found l'] eqn:El.
      injection E1 as -> <-. cbn [alerts set_alerts].
      rewrite (loop_again id set_acknowledged (fun _ => eq_refl)
                 (fun l => acknowledge_loop l id) eq_refl (fun _ _ => eq_refl)
                 (alerts self) l' (fun _ => eq_refl) El).
      reflexivity.
    + destruct (resolve_known self1 id now _ Hf1) as (self2 & E2 & Hf2 & _).
      exists self2, (set_resolved (set_acknowledged a) now). now repeat split.
    + destruct (resolve_known self id now a Ha) as (self3 & E3 & Hf3 & _).
      exists self3, (set_resolved a now). now repeat split.
  - intro Hnone. split.
    + unfold acknowledge_alert.
      rewrite (loop_unknown id set_acknowledged
                 (fun l => acknowledge_loop l id) eq_refl (fun _ _ => eq_refl)
                 (alerts self) Hnone).
      now rewrite set_alerts_same.
    + unfold resolve_alert.
      rewrite (loop_unknown id (fun a => set_resolved a now)
                 (fun l => resolve_loop l id now) eq_refl (fun _ _ => eq_refl)
                 (alerts self) Hnone).
      now rewrite set_alerts_same.
Qed.

Lemma C7_alert_lifecycle_witness :
  (exists self1,
     acknowledge_alert alerted_manager "A-000001" = Returned true self1
     /\ acknowledge_alert self1 "A-000001" = Returned true self1)
  /\ acknowledge_alert alerted_manager "A-000002"
     = Returned false alerted_manager
  /\ resolve_alert alerted_manager "A-000002" (2 * one_hour)
     = Returned false alerted_manager.
Proof.
  split.
  - destruct (C7_alert_lifecycle alerted_manager "A-000001" (2 * one_hour))
      as [Hknown _].
    destruct (Hknown _ eq_refl) as (self1 & a1 & E1 & _ & _ & _ & E2 & _).
    exists self1. split; [exact E1 | exact E2].
  - destruct (C7_alert_lifecycle alerted_manager "A-000002" (2 * one_hour))
      as [_ Hunknown].
    exact (Hunknown eq_refl).
Defined.

(** ** Listeners that raise *)

Lemma notify_callbacks_quiet (callbacks : list Listeners.Callable)
    (alert : Alert) :
  (forall c, In c callbacks -> raises_only_Exception c) ->
  snd (Listeners.notify_callbacks callbacks alert) = Listeners.Returns.
Proof.
  revert alert. induction callbacks as [| c l IH]; intros alert H;
    [reflexivity |].
  cbn [Listeners.notify_callbacks].
  pose proof (H c (or_introl eq_refl) alert) as Hc.
  destruct (c alert) as [alert' [| e]]; cbn [Listeners.try_except_pass].
  - apply IH. intros c' Hc'. apply H. now right.
  - rewrite (Hc e eq_refl). apply IH. intros c' Hc'. apply H. now right.
Qed.

Lemma notify_callbacks_raises (callbacks : list Listeners.Callable)
    (alert : Alert) (e : Listeners.PyBaseException) :
  snd (Listeners.notify_callbacks callbacks alert) = Listeners.Raises e ->
  Listeners.is_Exception e = false.
Proof.
  revert alert. induction callbacks as [| c l IH]; intros alert;
    [discriminate |].
  cbn [Listeners.notify_callbacks].
  destruct (c alert) as [alert' [| e']]; cbn [Listeners.try_except_pass].
  - apply IH.
  - destruct (Listeners.is_Exception e') eqn:E; [apply IH |].
    cbn [snd]. intro H. now injection H as <-.
Qed.

(** The first listener that raises an exception outside class [Exception]
    ends the loop with it. *)
Lemma notify_callbacks_propagates (pre post : list Listeners.Callable)
    (c : Listeners.Callable) (alert : Alert)
    (e : Listeners.PyBaseException) :
  (forall c', In c' pre -> raises_only_Exception c') ->
  snd (c (fst (Listeners.notify_callbacks pre alert))) = Listeners.Raises e ->
  Listeners.is_Exception e = false ->
  Listeners.notify_callbacks (pre ++ c :: post) alert
  = (fst (c (fst (Listeners.notify_callbacks pre alert))), Listeners.Raises e).
Proof.
  revert alert. induction pre as [| c' pre IH]; intros alert Hpre Hc He.
  - cbn [app Listeners.notify_callbacks fst] in *.
    destruct (c alert) as [alert' result]. cbn [fst snd] in *. subst result.
    cbn [Listeners.try_except_pass]. now rewrite He.
  - cbn [app Listeners.notify_callbacks] in *.
    pose proof (Hpre c' (or_introl eq_refl) alert) as Hc'.
    destruct (c' alert) as [alert' [| e']];
      cbn [Listeners.try_except_pass snd] in *.
    + apply IH; [| exact Hc | exact He].
      intros c'' H. apply Hpre. now right.
    + rewrite (Hc' e' eq_refl) in *.
      apply IH; [| exact Hc | exact He].
      intros c'' H. apply Hpre. now right.
Qed.

Lemma notify_callbacks_same (callbacks : list Listeners.Callable)
    (alert : Alert) :
  (forall c alert', In c callbacks -> fst (c alert') = alert') ->
  fst (Listeners.notify_callbacks callbacks alert) = alert.
Proof.
  intro H. induction callbacks as [| c l IH]; [reflexivity |].
  cbn [Listeners.notify_callbacks].
  pose proof (H c alert (or_introl eq_refl)) as Hc.
  destruct (c alert) as [alert' result]. cbn [fst] in Hc. subst alert'.
  destruct (Listeners.try_except_pass result); [| reflexivity].
  apply IH. intros c' alert' Hc'. apply H. now right.
Qed.

Lemma notify_callbacks_observers (callbacks : list Callable) (alert : Alert) :
  Listeners.notify_callbacks (map observer callbacks) alert
  = (alert, Listeners.Returns).
Proof.
  induction callbacks as [| c l IH]; [reflexivity |].
  cbn [map Listeners.notify_callbacks]. unfold observer at 1.
  now destruct (c alert).
Qed.

(** With listeners that observe, the methods for listeners in general end
    as the methods for observing listeners do. *)
Lemma ingest_reading_observers (self : IoTSensorManager) (id : string)
    (v : Q) (ts : option Timestamp) (now : datetime) :
  Listeners.ingest_reading (map observer (alert_callbacks self)) self id v ts
    now
  = general_outcome (ingest_reading self id v ts now).
Proof.
  unfold Listeners.ingest_reading, ingest_reading.
  destruct (dict_get (sensors self) id) as [sensor |]; [| reflexivity].
  destruct (_check_thresholds sensor v); [| reflexivity].
  unfold Listeners._generate_alert, _generate_alert.
  rewrite notify_callbacks_observers, notify_callbacks_returns.
  reflexivity.
Qed.

(** C8, as the code has it.  Whatever listeners are registered, the
    ingestion of a breaching reading appends the reading to the log and the
    alert to the alerts, in the state in which the listeners leave the
    alert, and it ends as the loop over the listeners ends.  If no listener
    raises an exception outside class [Exception], the ingestion returns
    the reading, listeners that raise on every call included.  An exception
    that reaches the caller of the ingestion is never of class
    [Exception]; the first listener that raises an exception outside the
    class ends the ingestion with it. *)
Theorem C8_listener_isolation (callbacks : list Listeners.Callable)
    (self : IoTSensorManager) (id : string) (sensor : Sensor) (v : Q)
    (ts : option Timestamp) (now : datetime) :
  dict_get (sensors self) id = Some sensor ->
  _check_thresholds sensor v = true ->
  exists r a self',
    value r = v
    /\ triggered_alert r = true
    /\ a_value a = v
    /\ acknowledged a = false
    /\ resolved a = false
    /\ readings self' = (readings self ++ [r])%list
    /\ alerts self'
       = (alerts self ++ [fst (Listeners.notify_callbacks callbacks a)])%list
    /\ Listeners.ingest_reading callbacks self id v ts now
       = match snd (Listeners.notify_callbacks callbacks a) with
         | Listeners.Returns => Listeners.Returned r self'
         | Listeners.Raises e => Listeners.Raised e self'
         end
    /\ ((forall c, In c callbacks -> raises_only_Exception c) ->
        Listeners.ingest_reading callbacks self id v ts now
        = Listeners.Returned r self')
    /\ (forall e s,
          Listeners.ingest_reading callbacks self id v ts now
          = Listeners.Raised e s ->
          Listeners.is_Exception e = false)
    /\ (forall pre c post e,
          callbacks = (pre ++ c :: post)%list ->
          (forall c', In c' pre -> raises_only_Exception c') ->
          snd (c (fst (Listeners.notify_callbacks pre a)))
          = Listeners.Raises e ->
          Listeners.is_Exception e = false ->
          Listeners.ingest_reading callbacks self id v ts now
          = Listeners.Raised e self').
Proof.
  intros Hget Hbreach.
  unfold Listeners.ingest_reading. rewrite Hget, Hbreach.
  unfold Listeners._generate_alert.
  match goal with
  | |- context [Listeners.notify_callbacks callbacks ?x] => set (a := x)
  end.
  pose proof (notify_callbacks_quiet callbacks a) as Hquiet.
  pose proof (notify_callbacks_raises callbacks a) as Hraises.
  pose proof (fun pre c post e => notify_callbacks_propagates pre post c a e)
    as Hfirst.
  destruct (Listeners.notify_callbacks callbacks a) as [a' result] eqn:En.
  cbn [fst snd] in Hquiet, Hraises. cbv beta iota.
  match goal with
  | |- context [set_readings _ (_ ++ [?x])%list] => set (r := x)
  end.
  match goal with
  | |- context [Listeners.Returned tt ?s] => set (self' := s)
  end.
  exists r, a, self'. rewrite En. cbn [fst snd].
  split; [reflexivity |]. split; [reflexivity |]. split; [reflexivity |].
  split; [reflexivity |]. split; [reflexivity |].
  split; [reflexivity |]. split; [reflexivity |].
  split; [now destruct result |]. split; [| split].
  - intro H. now rewrite (Hquiet H).
  - intros e s H. apply Hraises.
    destruct result as [| e']; [discriminate H | now injection H as <- _].
  - intros pre c post e Hcb Hpre Hc He.
    rewrite Hcb, (Hfirst pre c post e Hpre Hc He) in En.
    now injection En as _ <-.
Qed.

Lemma C8_listener_isolation_witness :
  exists r a self',
    Listeners.ingest_reading [failing_listener; acknowledging_listener]
      temperature_manager "S-0001" 40 None one_hour
    = Listeners.Returned r self'
    /\ readings self' = [r]
    /\ alerts self' = [set_acknowledged a].
Proof.
  destruct (C8_listener_isolation [failing_listener; acknowledging_listener]
              temperature_manager "S-0001" temperature_sensor 40 None one_hour
              eq_refl eq_refl)
    as (r & a & self' & _ & _ & _ & _ & _ & Hlog & Halerts & _ & E & _).
  exists r, a, self'. split; [| split; [exact Hlog | exact Halerts]].
  apply E. intros c [<- | [<- | []]] alert e H; injection H as <-;
    reflexivity.
Defined.

(** C8, as the specification states it, fails for a listener whose call is
    interrupted: the interrupt is not of class [Exception], the handler
    lets it go on, and it reaches the caller of the ingestion, after the
    reading and the alert were appended. *)
Lemma C8_interrupt_reaches_caller :
  dict_get (sensors temperature_manager) "S-0001" = Some temperature_sensor
  /\ _check_thresholds temperature_sensor 40 = true
  /\ ~ listener_isolation [interrupted_listener] temperature_manager "S-0001"
        40 None one_hour
  /\ exists self',
      Listeners.ingest_reading [interrupted_listener] temperature_manager
        "S-0001" 40 None one_hour
      = Listeners.Raised Listeners.KeyboardInterrupt self'
      /\ List.length (readings self') = 1%nat
      /\ List.length (alerts self') = 1%nat.
Proof.
  split; [reflexivity |]. split; [reflexivity |]. split.
  - intros (r & self' & a & H & _). discriminate H.
  - eexists. split; [reflexivity |]. split; reflexivity.
Qed.

(** ** Comfort score of a sensor within its optimal range *)

Lemma _calculate_sensor_score_in_range (sensor : Sensor) :
  let lo := config_get (sensor_type sensor) optimal_min 20 in
  let hi := config_get (sensor_type sensor) optimal_max 80 in
  let v := last_reading sensor in
  let mid := (lo + hi) / 2 in
  lo <= v <= hi ->
  exists score,
    _calculate_sensor_score sensor = inr score
    /\ score == Qmax 0 (100 - 20 * Qabs (v - mid) / (hi - mid))
    /\ 80 <= score <= 100.
Proof.
  intros lo hi v mid [Hlo Hhi].
  destruct (optimal_range_table (sensor_type sensor)) as [H0 Hlt].
  fold lo in H0, Hlt. fold hi in Hlt.
  unfold _calculate_sensor_score. fold lo. fold hi. fold v.
  destruct (Qle_bool_spec lo v); [| contradiction].
  destruct (Qle_bool_spec v hi); [| contradiction].
  cbn [andb].
  rewrite py_div_nonzero by lra. cbn [bind]. fold mid.
  assert (Hmid : mid == (lo + hi) * (1 # 2)) by reflexivity.
  assert (Hhalf : 0 < hi - mid) by lra.
  rewrite py_div_nonzero by lra. cbn [bind].
  eexists. split; [reflexivity |].
  assert (Habs : Qabs (v - mid) <= hi - mid).
  { apply Qabs_Qle_condition. split; lra. }
  assert (Hd0 : 0 <= Qabs (v - mid) / (hi - mid)).
  { apply Qle_shift_div_l; [exact Hhalf |]. rewrite Qmult_0_l. apply Qabs_nonneg. }
  assert (Hd1 : Qabs (v - mid) / (hi - mid) <= 1).
  { apply Qle_shift_div_r; [exact Hhalf |]. now rewrite Qmult_1_l. }
  set (d := Qabs (v - mid) / (hi - mid)) in *.
  assert (E : 20 * Qabs (v - mid) / (hi - mid) == d * 20).
  { unfold d, Qdiv. ring. }
  rewrite E. split.
  - symmetry. apply Q.max_r. lra.
  - split; lra.
Qed.

(** The rounding and the category depend on the number only. *)
Lemma Qlt_bool_comp (x x' y y' : Q) :
  x == x' -> y == y' -> Qlt_bool x y = Qlt_bool x' y'.
Proof.
  intros Hx Hy. unfold Qlt_bool. now rewrite Hx, Hy.
Qed.

Lemma round1_comp (x y : Q) : x == y -> round1 x == round1 y.
Proof.
  intro H. unfold round1.
  assert (Hn : x * 10 == y * 10) by (rewrite H; reflexivity).
  rewrite (Qfloor_comp _ _ Hn).
  set (f := Qfloor (y * 10)).
  assert (Hd : x * 10 - inject_Z f == y * 10 - inject_Z f)
    by (rewrite Hn; reflexivity).
  rewrite (Qlt_bool_comp _ _ _ _ Hd (Qeq_refl (1 # 2))).
  rewrite (Qlt_bool_comp _ _ _ _ (Qeq_refl (1 # 2)) Hd).
  reflexivity.
Qed.

Lemma _score_to_category_comp (x y : Q) :
  x == y -> _score_to_category x = _score_to_category y.
Proof.
  intro H. unfold _score_to_category.
  now rewrite !(fun c => Qleb_comp c c (Qeq_refl c) x y H).
Qed.

(** A population of one temperature sensor at the optimal midpoint. *)
Lemma single_temperature_sensor (self : IoTSensorManager) (id : string)
    (s : Sensor) :
  sensors self = [(id, s)] ->
  sensor_type s = TEMPERATURE ->
  last_reading s == 23 ->
  exists score c,
    _calculate_sensor_score s = inr score
    /\ score == 100
    /\ calculate_comfort_score self = Returned c self
    /\ component_scores c = [(SensorType_value TEMPERATURE, score)]
    /\ overall_score c == 100
    /\ category c = "Excellent".
Proof.
  intros Hs Ht Hv.
  destruct (_calculate_sensor_score_in_range s) as (score & E & Hscore & _).
  { rewrite Ht. cbn [config_get SENSOR_CONFIG optimal_min optimal_max].
    rewrite Hv. split; lra. }
  rewrite Ht in Hscore.
  cbn [config_get SENSOR_CONFIG optimal_min optimal_max] in Hscore.
  assert (H100 : score == 100).
  { rewrite Hscore, Hv. reflexivity. }
  unfold calculate_comfort_score, comfort_result.
  rewrite Hs. cbn [dict_values map snd score_sensors].
  rewrite Ht. change (in_weights TEMPERATURE) with true. cbv iota.
  rewrite E. cbn [bind dict_set].
  change (weighted_totals weights [(SensorType_value TEMPERATURE, score)] 0 0)
    with (0 + score * (25 # 100), 0 + (25 # 100)).
  cbv iota beta.
  change (Qlt_bool 0 (0 + (25 # 100))) with true. cbv iota.
  rewrite py_div_nonzero by lra. cbn [bind].
  assert (Hall : (0 + score * (25 # 100)) / (0 + (25 # 100)) == 100).
  { rewrite H100. reflexivity. }
  exists score. eexists.
  split; [reflexivity |]. split; [exact H100 |].
  split; [reflexivity |].
  cbn [component_scores overall_score category].
  split; [reflexivity |]. split.
  - rewrite (round1_comp _ _ Hall). reflexivity.
  - rewrite (_score_to_category_comp _ _ Hall). reflexivity.
Qed.

(** C9: for every sensor whose last value [v] satisfies
    [optimal_min <= v <= optimal_max], the score of the sensor is
    [100 - 20 * |v - mid| / (optimal_max - mid)] with
    [mid = (optimal_min + optimal_max) / 2], clamped at 0; and for a
    population of one temperature sensor whose last value is the optimal
    midpoint 23, the score of the sensor is 100, the overall comfort score is
    100 and the category is Excellent. *)
Theorem C9_comfort_score_in_range :
  (forall sensor : Sensor,
     let lo := config_get (sensor_type sensor) optimal_min 20 in
     let hi := config_get (sensor_type sensor) optimal_max 80 in
     let v := last_reading sensor in
     let mid := (lo + hi) / 2 in
     lo <= v <= hi ->
     exists score,
       _calculate_sensor_score sensor = inr score
       /\ score == Qmax 0 (100 - 20 * Qabs (v - mid) / (hi - mid)))
  /\ (forall (self : IoTSensorManager) (id : string) (s : Sensor),
        sensors self = [(id, s)] ->
        sensor_type s = TEMPERATURE ->
        last_reading s == 23 ->
        exists score c,
          _calculate_sensor_score s = inr score
          /\ score == 100
          /\ calculate_comfort_score self = Returned c self
          /\ component_scores c = [(SensorType_value TEMPERATURE, score)]
          /\ overall_score c == 100
          /\ category c = "Excellent").
Proof.
  split.
  - intros sensor lo hi v mid Hin.
    destruct (_calculate_sensor_score_in_range sensor Hin)
      as (score & E & Hscore & _).
    now exists score.
  - exact single_temperature_sensor.
Qed.

Lemma C9_comfort_score_in_range_witness :
  exists c,
    calculate_comfort_score comfortable_manager
    = Returned c comfortable_manager
    /\ overall_score c == 100
    /\ category c = "Excellent".
Proof.
  destruct C9_comfort_score_in_range as [_ Hscenario].
  destruct (Hscenario comfortable_manager "S-0001"
              (mkSensor "S-0001" TEMPERATURE "Main Hall" "Living Room"
                 "Online" 100 23 (Naive one_hour) 0
                 (default_thresholds TEMPERATURE))
              eq_refl eq_refl (Qeq_refl 23))
    as (score & c & _ & _ & E & _ & Hall & Hcat).
  exists c. split; [exact E |]. split; [exact Hall | exact Hcat].
Defined.

(** ** Division by zero in the comfort score *)

Lemma _calculate_sensor_score_negative (sensor : Sensor) :
  config_get (sensor_type sensor) optimal_min 20 == 0 ->
  last_reading sensor < 0 ->
  _calculate_sensor_score sensor = inl ZeroDivisionError.
Proof.
  intros Hlo Hneg. unfold _calculate_sensor_score.
  set (lo := config_get (sensor_type sensor) optimal_min 20) in *.
  destruct (Qle_bool_spec lo (last_reading sensor)) as [H | _]; [lra |].
  cbn [andb].
  destruct (Qlt_bool_spec (last_reading sensor) lo) as [_ | H]; [| lra].
  now rewrite (py_div_zero _ _ Hlo).
Qed.

Lemma py_div_error (a b : Q) (e : PyException) :
  py_div a b = inl e -> e = ZeroDivisionError.
Proof.
  unfold py_div. destruct (Qeq_bool b 0); [now intros [= <-] | discriminate].
Qed.

Lemma bind_error {A B : Type} (r : Result A) (k : A -> Result B)
    (e : PyException) :
  bind r k = inl e -> r = inl e \/ exists a, r = inr a /\ k a = inl e.
Proof.
  destruct r as [e' | a]; cbn; [intros [= ->]; now left |].
  intro H. right. now exists a.
Qed.

(** The only exception of the score computation is the division by zero. *)
Lemma _calculate_sensor_score_error (sensor : Sensor) (e : PyException) :
  _calculate_sensor_score sensor = inl e -> e = ZeroDivisionError.
Proof.
  unfold _calculate_sensor_score.
  destruct (Qle_bool _ _ && Qle_bool _ _).
  - intro H. apply bind_error in H.
    destruct H as [H | (mid & _ & H)]; [now apply py_div_error in H |].
    apply bind_error in H.
    destruct H as [H | (d & _ & H)]; [now apply py_div_error in H | discriminate].
  - intro H. apply bind_error in H.
    destruct H as [H | (d & _ & H)]; [| discriminate].
    destruct (Qlt_bool _ _); now apply py_div_error in H.
Qed.

Lemma score_sensors_raises (l : list Sensor) (sensor : Sensor) :
  In sensor l ->
  in_weights (sensor_type sensor) = true ->
  _calculate_sensor_score sensor = inl ZeroDivisionError ->
  forall scores, score_sensors l scores = inl ZeroDivisionError.
Proof.
  intros Hin Hw Hraise.
  induction l as [| s l IH]; [contradiction |].
  intro scores. cbn [score_sensors].
  destruct Hin as [-> | Hin].
  - now rewrite Hw, Hraise.
  - destruct (in_weights (sensor_type s)); [| now apply IH].
    destruct (_calculate_sensor_score s) as [e | q] eqn:E; cbn [bind].
    + now rewrite (_calculate_sensor_score_error s e E).
    + now apply IH.
Qed.

Lemma _calculate_sensor_score_total (sensor : Sensor) :
  0 <= last_reading sensor
  \/ 0 < config_get (sensor_type sensor) optimal_min 20 ->
  exists score, _calculate_sensor_score sensor = inr score.
Proof.
  intro Hpre.
  destruct (optimal_range_table (sensor_type sensor)) as [H0 Hlt].
  unfold _calculate_sensor_score.
  set (lo := config_get (sensor_type sensor) optimal_min 20) in *.
  set (hi := config_get (sensor_type sensor) optimal_max 80) in *.
  set (v := last_reading sensor) in *.
  destruct (Qle_bool lo v && Qle_bool v hi).
  - rewrite py_div_nonzero by lra. cbn [bind].
    assert (Hmid : (lo + hi) / 2 == (lo + hi) * (1 # 2)) by reflexivity.
    rewrite py_div_nonzero by lra. cbn [bind]. now eexists.
  - destruct (Qlt_bool_spec v lo) as [Hv | Hv].
    + rewrite py_div_nonzero by lra. cbn [bind]. now eexists.
    + rewrite py_div_nonzero by lra. cbn [bind]. now eexists.
Qed.

Lemma score_sensors_total (l : list Sensor) :
  (forall sensor, In sensor l -> in_weights (sensor_type sensor) = true ->
     0 <= last_reading sensor
     \/ 0 < config_get (sensor_type sensor) optimal_min 20) ->
  forall scores, exists scores', score_sensors l scores = inr scores'.
Proof.
  induction l as [| s l IH]; intros Hpre scores; cbn [score_sensors].
  - now exists scores.
  - assert (Hrest : forall sensor, In sensor l ->
              in_weights (sensor_type sensor) = true ->
              0 <= last_reading sensor
              \/ 0 < config_get (sensor_type sensor) optimal_min 20).
    { intros sensor Hin. apply Hpre. now right. }
    destruct (in_weights (sensor_type s)) eqn:Hw; [| now apply IH].
    destruct (_calculate_sensor_score_total s (Hpre s (or_introl eq_refl) Hw))
      as (score & ->).
    cbn [bind]. now apply IH.
Qed.

Lemma calculate_comfort_score_total (self : IoTSensorManager) :
  (forall sensor, In sensor (dict_values (sensors self)) ->
     in_weights (sensor_type sensor) = true ->
     0 <= last_reading sensor
     \/ 0 < config_get (sensor_type sensor) optimal_min 20) ->
  exists c, calculate_comfort_score self = Returned c self.
Proof.
  intro Hpre. unfold calculate_comfort_score, comfort_result.
  destruct (score_sensors_total _ Hpre []) as (scores & ->). cbn [bind].
  destruct (weighted_totals weights scores 0 0) as [weighted_sum total_weight].
  destruct (Qlt_bool_spec 0 total_weight) as [Hw | Hw].
  - rewrite py_div_nonzero by lra. cbn [bind]. now eexists.
  - cbn [bind]. now eexists.
Qed.

(** C10, as the code has it: the score of a sensor is partial.  For every
    sensor whose category has [optimal_min = 0] and whose last value is
    negative, [_calculate_sensor_score] raises [ZeroDivisionError];
    [calculate_comfort_score] raises it whenever the population has such a
    sensor of a weighted category (of the categories with [optimal_min = 0],
    air quality and noise are weighted); and if every sensor of a weighted
    category has a non-negative last value or a positive [optimal_min],
    [calculate_comfort_score] returns, whatever the sensors of the other
    categories read. *)
Theorem C10_comfort_score_division_by_zero :
  (forall sensor : Sensor,
     config_get (sensor_type sensor) optimal_min 20 == 0 ->
     last_reading sensor < 0 ->
     _calculate_sensor_score sensor = inl ZeroDivisionError)
  /\ (forall (self : IoTSensorManager) (sensor : Sensor),
        In sensor (dict_values (sensors self)) ->
        in_weights (sensor_type sensor) = true ->
        config_get (sensor_type sensor) optimal_min 20 == 0 ->
        last_reading sensor < 0 ->
        calculate_comfort_score self = Raised ZeroDivisionError self)
  /\ (forall self : IoTSensorManager,
        (forall sensor, In sensor (dict_values (sensors self)) ->
           in_weights (sensor_type sensor) = true ->
           0 <= last_reading sensor
           \/ 0 < config_get (sensor_type sensor) optimal_min 20) ->
        exists c, calculate_comfort_score self = Returned c self).
Proof.
  split; [exact _calculate_sensor_score_negative |].
  split; [| exact calculate_comfort_score_total].
  intros self sensor Hin Hw Hlo Hneg.
  unfold calculate_comfort_score, comfort_result.
  rewrite (score_sensors_raises _ sensor Hin Hw
             (_calculate_sensor_score_negative sensor Hlo Hneg) []).
  reflexivity.
Qed.

Lemma C10_comfort_score_division_by_zero_witness :
  calculate_comfort_score (negative_manager NOISE)
  = Raised ZeroDivisionError (negative_manager NOISE)
  /\ exists c,
      calculate_comfort_score comfortable_manager
      = Returned c comfortable_manager.
Proof.
  destruct C10_comfort_score_division_by_zero as (_ & Hraise & Hreturn).
  split.
  - apply (Hraise (negative_manager NOISE)
             (mkSensor "S-0001" NOISE "Main Hall" "Living Room" "Online" 100
                (-1) (Naive one_hour) 0 (default_thresholds NOISE))).
    + left. reflexivity.
    + reflexivity.
    + reflexivity.
    + reflexivity.
  - apply Hreturn. intros sensor [<- | []] _. left. discriminate.
Defined.

(** C10, as it is stated, fails for the categories that carry no weight: a
    sensor of volatile organic compounds has [optimal_min = 0], and with the
    last value -1 its score raises, but [calculate_comfort_score] does not
    compute that score and returns. *)
Lemma C10_unweighted_sensor_does_not_fail :
  exists sensor,
    dict_values (sensors (negative_manager VOC)) = [sensor]
    /\ sensor_type sensor = VOC
    /\ config_get (sensor_type sensor) optimal_min 20 == 0
    /\ last_reading sensor < 0
    /\ _calculate_sensor_score sensor = inl ZeroDivisionError
    /\ ~ raises (calculate_comfort_score (negative_manager VOC)).
Proof.
  eexists. split; [reflexivity |].
  split; [reflexivity |]. split; [reflexivity |]. split; [reflexivity |].
  split; [reflexivity |].
  intros (e & self' & H). discriminate H.
Qed.

(** * Further properties of the manager *)

(** ** Identifiers *)

Lemma parse_d_zeros (k : nat) (s : string) :
  parse_d (zeros k ++ s) = parse_d s.
Proof.
  unfold parse_d.
  induction k as [| k IH]; cbn [zeros String.append]; [reflexivity |].
  cbn [NilEmpty.uint_of_string]. rewrite <- IH.
  destruct (NilEmpty.uint_of_string (zeros k ++ s)) as [d |]; reflexivity.
Qed.

(** A formatted number reads back as the number, whatever the width. *)
Lemma parse_d_format_d (width n : nat) : parse_d (format_d width n) = Some n.
Proof.
  unfold format_d. cbv zeta. rewrite parse_d_zeros. unfold parse_d.
  rewrite NilEmpty.usu. cbn [option_map]. now rewrite Unsigned.of_to.
Qed.

Lemma format_d_inj (width n m : nat) :
  format_d width n = format_d width m -> n = m.
Proof.
  intro H. apply (f_equal parse_d) in H.
  rewrite !parse_d_format_d in H. now injection H.
Qed.

Lemma prefix_inj (p s s' : string) : (p ++ s = p ++ s')%string -> s = s'.
Proof.
  induction p as [| c p IH]; cbn; [auto |]. intros [= E]. now apply IH.
Qed.

Lemma NoDup_keys (p : string) (width : nat) (l : list nat) :
  NoDup l -> NoDup (map (fun i => p ++ format_d width i) l).
Proof.
  induction 1 as [| n l Hn _ IH]; cbn; constructor; [| exact IH].
  intro Hin. apply in_map_iff in Hin. destruct Hin as (m & E & Hm).
  apply prefix_inj, format_d_inj in E. now subst m.
Qed.

(** ** Dictionaries, continued *)

Lemma dict_get_None {V : Type} (d : list (string * V)) (k : string) :
  dict_get d k = None <-> ~ In k (map fst d).
Proof.
  induction d as [| [k' v'] d IH]; cbn; [tauto |].
  destruct (String.eqb_spec k' k) as [-> | Hne].
  - split; [discriminate | intro H; exfalso; apply H; now left].
  - rewrite IH. tauto.
Qed.

Lemma dict_set_fresh {V : Type} (d : list (string * V)) (k : string) (v : V) :
  dict_get d k = None -> dict_set d k v = (d ++ [(k, v)])%list.
Proof.
  induction d as [| [k' v'] d IH]; cbn; [reflexivity |].
  destruct (String.eqb k' k); [discriminate |].
  intro H. now rewrite IH.
Qed.

Lemma dict_set_present {V W : Type} (f : V -> W) (d : list (string * V))
    (k : string) (v0 v : V) :
  dict_get d k = Some v0 ->
  f v = f v0 ->
  map fst (dict_set d k v) = map fst d
  /\ map f (dict_values (dict_set d k v)) = map f (dict_values d).
Proof.
  intros Hget Hf. unfold dict_values.
  induction d as [| [k' v'] d IH]; cbn in *; [discriminate |].
  destruct (String.eqb k' k); cbn.
  - injection Hget as ->. now rewrite Hf.
  - destruct (IH Hget) as [-> ->]. now split.
Qed.

Lemma dict_set_In {V : Type} (d : list (string * V)) (k : string) (v : V)
    (k' : string) (v' : V) :
  In (k', v') (dict_set d k v) -> (k', v') = (k, v) \/ In (k', v') d.
Proof.
  induction d as [| [k0 v0] d IH]; cbn.
  - intros [H | []]. now left.
  - destruct (String.eqb_spec k0 k) as [-> | Hne]; cbn.
    + intros [H | H]; auto.
    + intros [H | H]; auto. destruct (IH H); auto.
Qed.

Lemma dict_get_Some_In {V : Type} (d : list (string * V)) (k : string) (v : V) :
  dict_get d k = Some v -> In (k, v) d.
Proof.
  induction d as [| [k' v'] d IH]; cbn; [discriminate |].
  destruct (String.eqb_spec k' k) as [-> | Hne].
  - intros [= ->]. now left.
  - intro H. right. now apply IH.
Qed.

Lemma dict_In_get {V : Type} (d : list (string * V)) (k : string) (v : V) :
  NoDup (map fst d) -> In (k, v) d -> dict_get d k = Some v.
Proof.
  induction d as [| [k' v'] d IH]; cbn; [contradiction |].
  intros Hnd [H | H].
  - injection H as -> ->. now rewrite String.eqb_refl.
  - inversion Hnd as [| ? ? Hk' Hnd']; subst.
    destruct (String.eqb_spec k' k) as [-> | Hne]; [| now apply IH].
    exfalso. apply Hk'. apply in_map_iff. now exists (k, v).
Qed.

(** ** What a method call does to the manager *)

Lemma ingest_reading_effect (self : IoTSensorManager) (id : string)
    (sensor : Sensor) (v : Q) (ts : option Timestamp) (now : datetime) :
  dict_get (sensors self) id = Some sensor ->
  let r :=
    mkSensorReading (reading_key (_reading_counter self + 1)) id
      (sensor_type sensor) v (config_get (sensor_type sensor) cfg_unit "")
      (timestamp_or ts now) (_assess_reading_quality v (sensor_type sensor))
      (_check_thresholds sensor v) in
  let bound :=
    if Qlt_bool (th_max (thresholds sensor)) v
    then th_max (thresholds sensor) else th_min (thresholds sensor) in
  let a :=
    mkAlert (alert_key (_alert_counter self + 1)) (sensor_id sensor)
      (alert_severity sensor v)
      (mkAlertMessage (SensorType_value (sensor_type sensor)) (room sensor) v
         (config_get (sensor_type sensor) cfg_unit "") bound)
      v bound now false false None in
  ingest_reading self id v ts now
  = Returned r
      (mkManager (property_id self)
         (dict_set (sensors self) id
            (set_last_reading sensor v (timestamp_or ts now)))
         (readings self ++ [r])
         (if _check_thresholds sensor v then alerts self ++ [a]
          else alerts self)
         (alert_callbacks self)
         (_reading_counter self + 1)
         (if _check_thresholds sensor v then _alert_counter self + 1
          else _alert_counter self)).
Proof.
  intros Hget r bound a. unfold ingest_reading. rewrite Hget.
  fold (timestamp_or ts now).
  destruct (_check_thresholds sensor v) eqn:Hc.
  - unfold _generate_alert. rewrite notify_callbacks_returns.
    subst r a bound. unfold reading_key, alert_key.
    reflexivity.
  - subst r. unfold reading_key. reflexivity.
Qed.

(** A call of [ingest_reading] that returns was made for a registered
    sensor. *)
Lemma ingest_reading_returned (self : IoTSensorManager) (id : string) (v : Q)
    (ts : option Timestamp) (now : datetime) r self' :
  ingest_reading self id v ts now = Returned r self' ->
  exists sensor, dict_get (sensors self) id = Some sensor.
Proof.
  unfold ingest_reading.
  destruct (dict_get (sensors self) id) as [sensor |]; [| discriminate].
  intros _. now exists sensor.
Qed.

(** ** The loops of [acknowledge_alert] and [resolve_alert], continued *)

Section AlertLoopFacts.

Variable id : string.

Variable assign : Alert -> Alert.
Hypothesis assign_id : forall a, alert_id (assign a) = alert_id a.

Variable loop : list Alert -> bool * list Alert.
Hypothesis loop_nil : loop [] = (false, []).
Hypothesis loop_cons :
  forall a l,
    loop (a :: l)
    = if String.eqb (alert_id a) id then (true, assign a :: l)
      else let (found, l') := loop l in (found, a :: l').

Lemma loop_ids (l : list Alert) : map alert_id (snd (loop l)) = map alert_id l.
Proof.
  induction l as [| b l IH]; [now rewrite loop_nil |].
  rewrite loop_cons. destruct (String.eqb (alert_id b) id); cbn.
  - now rewrite assign_id.
  - destruct (loop l) as [found l']. cbn in *. now rewrite IH.
Qed.

Lemma loop_In (l : list Alert) (a' : Alert) :
  In a' (snd (loop l)) ->
  In a' l \/ exists a, In a l /\ alert_id a = id /\ a' = assign a.
Proof.
  induction l as [| b l IH]; [now rewrite loop_nil |].
  rewrite loop_cons. destruct (String.eqb_spec (alert_id b) id) as [E | E]; cbn.
  - intros [<- | H]; [| now left; right].
    right. exists b. repeat split; [now left | exact E].
  - destruct (loop l) as [found l']. cbn in *.
    intros [<- | H]; [now left; left |].
    destruct (IH H) as [H' | (a & Ha & Hid & ->)]; [now left; right |].
    right. exists a. auto.
Qed.


End AlertLoopFacts.

Lemma acknowledge_alert_effect (self : IoTSensorManager) (id : string) :
  acknowledge_alert self id
  = Returned (fst (acknowledge_loop (alerts self) id))
      (set_alerts self (snd (acknowledge_loop (alerts self) id))).
Proof.
  unfold acknowledge_alert. now destruct (acknowledge_loop (alerts self) id).
Qed.

Lemma resolve_alert_effect (self : IoTSensorManager) (id : string)
    (now : datetime) :
  resolve_alert self id now
  = Returned (fst (resolve_loop (alerts self) id now))
      (set_alerts self (snd (resolve_loop (alerts self) id now))).
Proof.
  unfold resolve_alert. now destruct (resolve_loop (alerts self) id now).
Qed.

Lemma acknowledge_loop_ids (l : list Alert) (id : string) :
  map alert_id (snd (acknowledge_loop l id)) = map alert_id l.
Proof.
  exact (loop_ids id set_acknowledged (fun _ => eq_refl)
           (fun l => acknowledge_loop l id) eq_refl (fun _ _ => eq_refl) l).
Qed.

Lemma resolve_loop_ids (l : list Alert) (id : string) (now : datetime) :
  map alert_id (snd (resolve_loop l id now)) = map alert_id l.
Proof.
  exact (loop_ids id (fun a => set_resolved a now) (fun _ => eq_refl)
           (fun l => resolve_loop l id now) eq_refl (fun _ _ => eq_refl) l).
Qed.

(** ** Numbering *)

Lemma seq_snoc (n : nat) : seq 1 (n + 1) = (seq 1 n ++ [(n + 1)%nat])%list.
Proof.
  replace (n + 1)%nat with (S n) by lia. apply seq_S.
Qed.

Lemma sensor_key_fresh (self : IoTSensorManager) :
  numbered self ->
  dict_get (sensors self) (sensor_key (List.length (sensors self) + 1)) = None.
Proof.
  intros [Hk _ _ _]. apply dict_get_None. rewrite Hk.
  intro Hin. apply in_map_iff in Hin. destruct Hin as (i & E & Hi).
  apply prefix_inj, format_d_inj in E. subst i.
  apply in_seq in Hi. lia.
Qed.

Lemma numbered_register self t loc rm now s self' :
  numbered self ->
  register_sensor self t loc rm now = Returned s self' ->
  numbered self'.
Proof.
  intros Hn. pose proof (sensor_key_fresh self Hn) as Hfresh.
  destruct Hn as [Hk Hi Hr Ha].
  unfold register_sensor. fold (sensor_key (List.length (sensors self) + 1)).
  intros [= _ <-].
  rewrite (dict_set_fresh _ _ _ Hfresh).
  split; cbn [sensors readings alerts _reading_counter _alert_counter
                set_sensors]; try assumption.
  - rewrite map_app, length_app, seq_snoc, map_app, <- Hk. reflexivity.
  - unfold dict_values in *. rewrite !map_app, Hi. reflexivity.
Qed.

Lemma numbered_ingest self id v ts now r self' :
  numbered self ->
  ingest_reading self id v ts now = Returned r self' ->
  numbered self'.
Proof.
  intros [Hk Hi Hr Ha] E.
  destruct (ingest_reading_returned _ _ _ _ _ _ _ E) as (sensor & Hget).
  rewrite (ingest_reading_effect self id sensor v ts now Hget) in E.
  injection E as _ <-.
  destruct (dict_set_present sensor_id (sensors self) id sensor
              (set_last_reading sensor v (timestamp_or ts now)) Hget eq_refl)
    as [Hk' Hi'].
  split; cbn [sensors readings alerts _reading_counter _alert_counter].
  - assert (Hlen : List.length
                     (dict_set (sensors self) id
                        (set_last_reading sensor v (timestamp_or ts now)))
                   = List.length (sensors self)).
    { rewrite <- (length_map fst), Hk'. apply length_map. }
    now rewrite Hk', Hlen.
  - now rewrite Hi', Hk'.
  - rewrite map_app, seq_snoc, map_app, Hr. reflexivity.
  - destruct (_check_thresholds sensor v); [| exact Ha].
    rewrite map_app, seq_snoc, map_app, Ha. reflexivity.
Qed.

Theorem reachable_numbered (self : IoTSensorManager) :
  reachable self -> numbered self.
Proof.
  induction 1 as [pid | self t loc rm now s self' _ IH E
                 | self id v ts now r self' _ IH E
                 | self id b self' _ IH E
                 | self id now b self' _ IH E
                 | self callback self' _ IH E].
  - now split.
  - eapply numbered_register; eassumption.
  - eapply numbered_ingest; eassumption.
  - rewrite acknowledge_alert_effect in E. injection E as _ <-.
    destruct IH as [Hk Hi Hr Ha]. split; cbn; try assumption.
    now rewrite acknowledge_loop_ids.
  - rewrite resolve_alert_effect in E. injection E as _ <-.
    destruct IH as [Hk Hi Hr Ha]. split; cbn; try assumption.
    now rewrite resolve_loop_ids.
  - injection E as <-. destruct IH as [Hk Hi Hr Ha]. now split.
Qed.

Lemma sensor_stored_under_id (d : list (string * Sensor)) (id : string)
    (s : Sensor) :
  map sensor_id (dict_values d) = map fst d ->
  dict_get d id = Some s -> sensor_id s = id.
Proof.
  unfold dict_values.
  induction d as [| [k v] d IH]; cbn; [discriminate |].
  intros [= Hv Hrest]. destruct (String.eqb_spec k id) as [<- | _].
  - now intros [= <-].
  - now apply IH.
Qed.

Lemma alerted_manager_reachable : reachable alerted_manager.
Proof.
  apply reachable_after_ingest. exact temperature_manager_reachable.
Defined.

(** In a manager that was built through its methods, [register_sensor]
    returns a sensor whose identifier was not registered before, stores it
    under that identifier, and leaves every other entry of the registry as it
    was; the registry grows by one sensor. *)
Theorem register_sensor_fresh (self : IoTSensorManager) (t : SensorType)
    (loc rm : string) (now : datetime) :
  reachable self ->
  exists s self',
    register_sensor self t loc rm now = Returned s self'
    /\ sensor_type s = t
    /\ dict_get (sensors self) (sensor_id s) = None
    /\ dict_get (sensors self') (sensor_id s) = Some s
    /\ (forall id, id <> sensor_id s ->
          dict_get (sensors self') id = dict_get (sensors self) id)
    /\ List.length (sensors self') = S (List.length (sensors self))
    /\ readings self' = readings self
    /\ alerts self' = alerts self.
Proof.
  intro Hreach.
  pose proof (sensor_key_fresh self (reachable_numbered self Hreach)) as Hfresh.
  unfold register_sensor. fold (sensor_key (List.length (sensors self) + 1)).
  eexists. eexists. split; [reflexivity |].
  cbn [sensor_type sensor_id sensors readings alerts set_sensors].
  split; [reflexivity |]. split; [exact Hfresh |].
  split; [apply dict_get_set_same |].
  split; [intros id Hne; apply dict_get_set_other; congruence |].
  split; [| now split].
  rewrite (dict_set_fresh _ _ _ Hfresh), length_app. cbn. lia.
Qed.

Lemma register_sensor_fresh_witness :
  exists s self',
    register_sensor alerted_manager HUMIDITY "Hall" "Kitchen" one_hour
    = Returned s self'
    /\ sensor_id s = "S-0002"
    /\ List.length (sensors self') = 2%nat.
Proof.
  destruct (register_sensor_fresh alerted_manager HUMIDITY "Hall" "Kitchen"
              one_hour alerted_manager_reachable)
    as (s & self' & E & _ & _ & _ & _ & Hlen & _).
  exists s, self'. split; [exact E |].
  split; [| exact Hlen].
  injection E as <- _. reflexivity.
Defined.



Lemma identifiers_numbered_sensors (self : IoTSensorManager) :
  reachable self -> NoDup (map fst (sensors self)).
Proof.
  intro Hreach. destruct (reachable_numbered self Hreach) as [Hk _ _ _].
  rewrite Hk. apply NoDup_keys, seq_NoDup.
Qed.




(** ** Nothing is deleted *)

Lemma alert_evolves_refl (a : Alert) : alert_evolves a a.
Proof. unfold alert_evolves. tauto. Qed.

Lemma sensor_evolves_refl (s : Sensor) : sensor_evolves s s.
Proof. unfold sensor_evolves. tauto. Qed.

Lemma Forall2_refl {A : Type} (R : A -> A -> Prop) (l : list A) :
  (forall a, R a a) -> Forall2 R l l.
Proof. intro H. induction l; constructor; auto. Qed.

Lemma acknowledge_loop_evolves (l : list Alert) (id : string) :
  Forall2 alert_evolves l (snd (acknowledge_loop l id)).
Proof.
  induction l as [| a l IH]; cbn; [constructor |].
  destruct (String.eqb (alert_id a) id); cbn.
  - constructor; [| apply Forall2_refl, alert_evolves_refl].
    unfold alert_evolves. cbn. tauto.
  - destruct (acknowledge_loop l id) as [found l']. cbn in *.
    constructor; [apply alert_evolves_refl | exact IH].
Qed.

Lemma resolve_loop_evolves (l : list Alert) (id : string) (now : datetime) :
  Forall2 alert_evolves l (snd (resolve_loop l id now)).
Proof.
  induction l as [| a l IH]; cbn; [constructor |].
  destruct (String.eqb (alert_id a) id); cbn.
  - constructor; [| apply Forall2_refl, alert_evolves_refl].
    unfold alert_evolves. cbn. tauto.
  - destruct (resolve_loop l id now) as [found l']. cbn in *.
    constructor; [apply alert_evolves_refl | exact IH].
Qed.

(** No method deletes anything: a call of a method that changes a manager
    built through its methods keeps the log of readings as the beginning of
    the new log, keeps every alert in its place with its content, with flags
    that were set still set, and keeps every sensor under its identifier with
    everything but its last reading. *)
Theorem step_keeps (self self' : IoTSensorManager) :
  reachable self ->
  step self self' ->
  prefix (readings self) (readings self')
  /\ (exists kept new,
        alerts self' = (kept ++ new)%list
        /\ Forall2 alert_evolves (alerts self) kept)
  /\ (forall id s, dict_get (sensors self) id = Some s ->
        exists s', dict_get (sensors self') id = Some s'
                   /\ sensor_evolves s s')
  /\ prefix (alert_callbacks self) (alert_callbacks self').
Proof.
  intros Hreach Hstep.
  assert (Hsame : forall l : list Alert, exists kept new,
             l = (kept ++ new)%list /\ Forall2 alert_evolves l kept).
  { intro l. exists l, []. split; [now rewrite app_nil_r |].
    apply Forall2_refl, alert_evolves_refl. }
  assert (Hsensors : forall d : list (string * Sensor), forall id s,
             dict_get d id = Some s ->
             exists s', dict_get d id = Some s' /\ sensor_evolves s s').
  { intros d id s H. exists s. split; [exact H | apply sensor_evolves_refl]. }
  destruct Hstep as [self t loc rm now s self' E
                    | self id v ts now r self' E
                    | self id b self' E
                    | self id now b self' E
                    | self callback self' E].
  - pose proof (sensor_key_fresh self (reachable_numbered self Hreach)) as Hf.
    unfold register_sensor in E.
    fold (sensor_key (List.length (sensors self) + 1)) in E.
    injection E as _ <-.
    cbn [readings alerts sensors alert_callbacks set_sensors].
    split; [exists []; now rewrite app_nil_r |].
    split; [apply Hsame |].
    split; [| exists []; now rewrite app_nil_r].
    intros id s0 H. exists s0. split; [| apply sensor_evolves_refl].
    rewrite dict_get_set_other; [exact H | congruence].
  - destruct (ingest_reading_returned _ _ _ _ _ _ _ E) as (sensor & Hget).
    rewrite (ingest_reading_effect self id sensor v ts now Hget) in E.
    injection E as _ <-. cbn [readings alerts sensors alert_callbacks].
    split; [now eexists |].
    split.
    + destruct (_check_thresholds sensor v); [| apply Hsame].
      eexists. eexists. split; [reflexivity |].
      apply Forall2_refl, alert_evolves_refl.
    + split; [| exists []; now rewrite app_nil_r].
      intros id' s H. rewrite dict_get_set.
      destruct (String.eqb_spec id id') as [<- | _];
        [| exists s; split; [exact H | apply sensor_evolves_refl]].
      rewrite Hget in H. injection H as <-.
      eexists. split; [reflexivity |]. unfold sensor_evolves. cbn. tauto.
  - rewrite acknowledge_alert_effect in E. injection E as _ <-.
    cbn [readings alerts sensors alert_callbacks set_alerts].
    split; [exists []; now rewrite app_nil_r |].
    split; [| split; [apply Hsensors | exists []; now rewrite app_nil_r]].
    eexists. exists []. split; [now rewrite app_nil_r |].
    apply acknowledge_loop_evolves.
  - rewrite resolve_alert_effect in E. injection E as _ <-.
    cbn [readings alerts sensors alert_callbacks set_alerts].
    split; [exists []; now rewrite app_nil_r |].
    split; [| split; [apply Hsensors | exists []; now rewrite app_nil_r]].
    eexists. exists []. split; [now rewrite app_nil_r |].
    apply resolve_loop_evolves.
  - injection E as <-.
    cbn [readings alerts sensors alert_callbacks set_alert_callbacks].
    split; [exists []; now rewrite app_nil_r |].
    split; [apply Hsame |]. split; [apply Hsensors | now eexists].
Qed.

Lemma step_keeps_witness :
  prefix (readings temperature_manager) (readings alerted_manager)
  /\ exists s',
      dict_get (sensors alerted_manager) "S-0001" = Some s'
      /\ sensor_evolves temperature_sensor s'.
Proof.
  destruct (step_keeps temperature_manager alerted_manager
              temperature_manager_reachable
              (step_ingest temperature_manager "S-0001" 40 None one_hour _ _
                 eq_refl))
    as (Hlog & _ & Hsensors & _).
  split; [exact Hlog |]. exact (Hsensors "S-0001" temperature_sensor eq_refl).
Defined.

(** ** Alerts of a reachable manager *)

Lemma alert_severity_thresholds (s s' : Sensor) (v : Q) :
  thresholds s' = thresholds s -> alert_severity s' v = alert_severity s v.
Proof. unfold alert_severity. now intros ->. Qed.

Lemma alert_severity_not_emergency (s : Sensor) (v : Q) :
  alert_severity s v <> EMERGENCY.
Proof.
  unfold alert_severity.
  destruct (_ || _); [discriminate |]. destruct (_ || _); discriminate.
Qed.

Lemma alert_sound_registry (d d' : list (string * Sensor)) (a : Alert) :
  (forall id s, dict_get d id = Some s ->
     exists s', dict_get d' id = Some s' /\ thresholds s' = thresholds s) ->
  alert_sound d a -> alert_sound d' a.
Proof.
  intros Hd (Hsev & Hres & s & Hget & Hs & Hout).
  destruct (Hd _ _ Hget) as (s' & Hget' & Hth).
  split; [exact Hsev |]. split; [exact Hres |].
  exists s'. split; [exact Hget' |].
  rewrite (alert_severity_thresholds s s' _ Hth), Hth. now split.
Qed.

Lemma alert_sound_flags (d : list (string * Sensor)) (a a' : Alert) :
  a_sensor_id a' = a_sensor_id a ->
  severity a' = severity a ->
  a_value a' = a_value a ->
  threshold a' = threshold a ->
  (resolved a' = true <-> resolution_time a' <> None) ->
  alert_sound d a -> alert_sound d a'.
Proof.
  intros Hid Hsev Hv Ht Hres (Hsev0 & _ & s & Hget & Hs & Hout).
  split; [now rewrite Hsev |]. split; [exact Hres |].
  exists s. rewrite Hid, Hsev, Hv, Ht. now split.
Qed.

(** Every alert of a manager that was built through its methods has one of
    the severities Info, Warning and Critical, never Emergency; it carries a
    resolution time exactly when it is resolved; and it belongs to a
    registered sensor, has the severity that the rule gives its value on the
    band of that sensor, and a value strictly outside the band, below the
    minimum or above the maximum, with that bound as its threshold. *)
Theorem alerts_sound (self : IoTSensorManager) :
  reachable self ->
  forall a, In a (alerts self) -> alert_sound (sensors self) a.
Proof.
  induction 1 as [pid | self t loc rm now s self' Hreach IH E
                 | self id v ts now r self' Hreach IH E
                 | self id b self' Hreach IH E
                 | self id now b self' Hreach IH E
                 | self callback self' Hreach IH E].
  - intros a [].
  - pose proof (sensor_key_fresh self (reachable_numbered self Hreach)) as Hf.
    unfold register_sensor in E.
    fold (sensor_key (List.length (sensors self) + 1)) in E.
    injection E as _ <-. cbn [alerts sensors set_sensors].
    intros a Ha. apply (alert_sound_registry (sensors self)); [| now apply IH].
    intros id s0 H. exists s0. split; [| reflexivity].
    rewrite dict_get_set_other; [exact H | congruence].
  - destruct (ingest_reading_returned _ _ _ _ _ _ _ E) as (sensor & Hget).
    rewrite (ingest_reading_effect self id sensor v ts now Hget) in E.
    injection E as _ <-. cbn [alerts sensors].
    assert (Hd : forall id' s, dict_get (sensors self) id' = Some s ->
              exists s',
                dict_get (dict_set (sensors self) id
                            (set_last_reading sensor v (timestamp_or ts now)))
                  id' = Some s'
                /\ thresholds s' = thresholds s).
    { intros id' s H. rewrite dict_get_set.
      destruct (String.eqb_spec id id') as [<- | _]; [| now exists s].
      rewrite Hget in H. injection H as <-. now eexists. }
    intros a Ha.
    assert (Hold : In a (alerts self) ->
              alert_sound
                (dict_set (sensors self) id
                   (set_last_reading sensor v (timestamp_or ts now))) a).
    { intro H. apply (alert_sound_registry (sensors self)); [exact Hd |].
      now apply IH. }
    destruct (_check_thresholds sensor v) eqn:Hc; [| now apply Hold].
    apply in_app_or in Ha. destruct Ha as [Ha | [<- | []]]; [now apply Hold |].
    split; [apply alert_severity_not_emergency |].
    split; [cbn; split; [discriminate | congruence] |].
    cbn [a_sensor_id a_value severity threshold].
    destruct (reachable_numbered self Hreach) as [_ Hi _ _].
    rewrite (sensor_stored_under_id _ _ _ Hi Hget), dict_get_set_same.
    eexists. split; [reflexivity |]. split; [reflexivity |].
    cbn [thresholds set_last_reading].
    apply _check_thresholds_iff in Hc.
    destruct (Qlt_bool_spec (th_max (thresholds sensor)) v) as [H | H].
    + now right.
    + left. split; [tauto | reflexivity].
  - rewrite acknowledge_alert_effect in E. injection E as _ <-.
    cbn [alerts sensors set_alerts]. intros a' Ha'.
    destruct (loop_In id set_acknowledged (fun l => acknowledge_loop l id)
                eq_refl (fun _ _ => eq_refl) _ _ Ha')
      as [Ha | (a & Ha & _ & ->)]; [now apply IH |].
    apply (alert_sound_flags _ a); try reflexivity; [| now apply IH].
    now destruct (IH a Ha) as (_ & Hres & _).
  - rewrite resolve_alert_effect in E. injection E as _ <-.
    cbn [alerts sensors set_alerts]. intros a' Ha'.
    destruct (loop_In id (fun a => set_resolved a now)
                (fun l => resolve_loop l id now)
                eq_refl (fun _ _ => eq_refl) _ _ Ha')
      as [Ha | (a & Ha & _ & ->)]; [now apply IH |].
    apply (alert_sound_flags _ a); try reflexivity; [| now apply IH].
    cbn. split; [discriminate | reflexivity].
  - injection E as <-. exact IH.
Qed.

Lemma alerts_sound_witness :
  exists a,
    alerts alerted_manager = [a]
    /\ alert_sound (sensors alerted_manager) a.
Proof.
  eexists. split; [reflexivity |].
  apply (alerts_sound alerted_manager alerted_manager_reachable).
  left. reflexivity.
Defined.

(** ** Bands, quality and severity *)

Lemma band_order_table (t : SensorType) :
  th_min (default_thresholds t) <= th_optimal_min (default_thresholds t)
  /\ th_optimal_min (default_thresholds t)
     < th_optimal_max (default_thresholds t)
  /\ th_optimal_max (default_thresholds t) <= th_max (default_thresholds t)
  /\ 0 <= th_min (default_thresholds t).
Proof. table t; repeat split; lra. Qed.

(** Every sensor of a manager that was built through its methods is Online
    with a full battery. *)
Lemma reachable_online (self : IoTSensorManager) :
  reachable self ->
  forall id s, In (id, s) (sensors self) ->
               status s = "Online" /\ battery_level s = 100%Z.
Proof.
  induction 1 as [pid | self t loc rm now s self' Hreach IH E
                 | self id v ts now r self' Hreach IH E
                 | self id b self' Hreach IH E
                 | self id now b self' Hreach IH E
                 | self callback self' Hreach IH E].
  - intros id s [].
  - unfold register_sensor in E. injection E as _ <-.
    cbn [sensors set_sensors]. intros id s0 H.
    apply dict_set_In in H. destruct H as [[= _ ->] | H]; [now split |].
    now apply (IH id).
  - destruct (ingest_reading_returned _ _ _ _ _ _ _ E) as (sensor & Hget).
    rewrite (ingest_reading_effect self id sensor v ts now Hget) in E.
    injection E as _ <-. cbn [sensors]. intros id' s H.
    apply dict_set_In in H.
    destruct H as [[= _ ->] | H]; [| now apply (IH id')].
    cbn. apply (IH id). now apply dict_get_Some_In.
  - rewrite acknowledge_alert_effect in E. injection E as _ <-. exact IH.
  - rewrite resolve_alert_effect in E. injection E as _ <-. exact IH.
  - injection E as <-. exact IH.
Qed.

Lemma sensor_band_table (self : IoTSensorManager) (id : string)
    (s : Sensor) :
  reachable self ->
  dict_get (sensors self) id = Some s ->
  0 <= th_min (thresholds s)
  /\ th_min (thresholds s) <= th_optimal_min (thresholds s)
  /\ th_optimal_min (thresholds s) < th_optimal_max (thresholds s)
  /\ th_optimal_max (thresholds s) <= th_max (thresholds s)
  /\ th_optimal_min (thresholds s) = config_get (sensor_type s) optimal_min 20
  /\ th_optimal_max (thresholds s) = config_get (sensor_type s) optimal_max 80
  /\ status s = "Online"
  /\ battery_level s = 100%Z.
Proof.
  intros Hreach Hget.
  rewrite (table_thresholds self (reachable_consistent self Hreach) id s Hget).
  destruct (band_order_table (sensor_type s)) as (H1 & H2 & H3 & H0).
  destruct (reachable_online self Hreach id s (dict_get_Some_In _ _ _ Hget))
    as [Hon Hbat].
  repeat split; assumption.
Qed.

(** Every sensor of a manager that was built through its methods has the
    band of the table for its type: its four thresholds are the minimum, the
    maximum and the optimal range that [SENSOR_CONFIG] gives for the type
    (0, 100, 20 and 80 where the table has no entry), and
    [0 <= min <= optimal_min < optimal_max <= max]; it is stored under its
    identifier and is Online with a full battery. *)
Theorem registered_sensor_band (self : IoTSensorManager) (id : string)
    (s : Sensor) :
  reachable self ->
  dict_get (sensors self) id = Some s ->
  sensor_id s = id
  /\ th_min (thresholds s) = config_get (sensor_type s) min_threshold 0
  /\ th_max (thresholds s) = config_get (sensor_type s) max_threshold 100
  /\ th_optimal_min (thresholds s) = config_get (sensor_type s) optimal_min 20
  /\ th_optimal_max (thresholds s) = config_get (sensor_type s) optimal_max 80
  /\ 0 <= th_min (thresholds s)
  /\ th_min (thresholds s) <= th_optimal_min (thresholds s)
  /\ th_optimal_min (thresholds s) < th_optimal_max (thresholds s)
  /\ th_optimal_max (thresholds s) <= th_max (thresholds s)
  /\ status s = "Online"
  /\ battery_level s = 100%Z.
Proof.
  intros Hreach Hget.
  destruct (sensor_band_table self id s Hreach Hget)
    as (H0 & H1 & H2 & H3 & _ & _ & Hon & Hbat).
  destruct (reachable_numbered self Hreach) as [_ Hi _ _].
  split; [exact (sensor_stored_under_id _ _ _ Hi Hget) |].
  rewrite (table_thresholds self (reachable_consistent self Hreach) id s Hget)
    in *.
  cbn [default_thresholds th_min th_max th_optimal_min th_optimal_max] in *.
  repeat split; assumption.
Qed.

Lemma registered_sensor_band_witness :
  th_min (thresholds temperature_sensor) = 10
  /\ th_max (thresholds temperature_sensor) = 35
  /\ th_optimal_min (thresholds temperature_sensor) = 20
  /\ th_optimal_max (thresholds temperature_sensor) = 26
  /\ status temperature_sensor = "Online".
Proof.
  destruct (registered_sensor_band temperature_manager "S-0001"
              temperature_sensor temperature_manager_reachable eq_refl)
    as (_ & H1 & H2 & H3 & H4 & _ & _ & _ & _ & Hon & _).
  split; [exact H1 |]. split; [exact H2 |]. split; [exact H3 |].
  split; [exact H4 | exact Hon].
Defined.

Lemma _assess_reading_quality_Good (v : Q) (t : SensorType) :
  _assess_reading_quality v t = "Good" ->
  config_get t optimal_min 20 <= v <= config_get t optimal_max 80.
Proof.
  unfold _assess_reading_quality.
  destruct (Qle_bool_spec (config_get t optimal_min 20) v);
    destruct (Qle_bool_spec v (config_get t optimal_max 80)); cbn [andb];
    try (now split); destruct (_ || _); discriminate.
Qed.




(** ** The history query, continued *)

Lemma history_loop_app_other (id : string) (cutoff : datetime)
    (l : list SensorReading) (r : SensorReading) :
  r_sensor_id r <> id ->
  history_loop id cutoff (l ++ [r]) = history_loop id cutoff l.
Proof.
  intro Hne. induction l as [| x l IH]; cbn [app history_loop].
  - unfold in_history.
    destruct (String.eqb_spec (r_sensor_id r) id) as [E | _];
      [contradiction | reflexivity].
  - now rewrite IH.
Qed.

(** A reading that was just ingested with the default timestamp is the last
    entry of the history of its sensor, after the entries that the query
    returned before, for every positive window that starts at a time of the
    class [datetime], when the earlier readings of the sensor carry no time
    zone; the query for another sensor ends as before. *)
Theorem history_after_ingest (self : IoTSensorManager) (id : string)
    (sensor : Sensor) (v : Q) (hours : Z) (now : datetime) :
  dict_get (sensors self) id = Some sensor ->
  (0 < hours)%Z ->
  representable now ->
  representable (now - timedelta_hours hours) ->
  naive_readings self id ->
  exists r self' h,
    ingest_reading self id v None now = Returned r self'
    /\ get_sensor_history self id hours now = Returned h self
    /\ get_sensor_history self' id hours now
       = Returned (h ++ [history_entry r])%list self'
    /\ h_value (history_entry r) = v
    /\ h_timestamp (history_entry r) = Naive now
    /\ forall id', id' <> id ->
         (forall h', get_sensor_history self id' hours now = Returned h' self ->
                     get_sensor_history self' id' hours now
                     = Returned h' self')
         /\ (forall e, get_sensor_history self id' hours now = Raised e self ->
                       get_sensor_history self' id' hours now
                       = Raised e self').
Proof.
  intros Hget Hhours Hnow Hcut Hnaive.
  rewrite (ingest_reading_effect self id sensor v None now Hget).
  eexists. eexists. eexists. split; [reflexivity |].
  split; [now apply get_sensor_history_naive |].
  split; [| split; [reflexivity | split; [reflexivity |]]].
  - rewrite get_sensor_history_naive; [| exact Hnow | exact Hcut |].
    + cbn [readings]. rewrite filter_app, map_app. cbn [filter].
      unfold stamped_after at 2.
      cbn [r_sensor_id timestamp timestamp_or instant].
      rewrite String.eqb_refl.
      assert (Hlt : (now - timedelta_hours hours <? now)%Z = true).
      { apply Z.ltb_lt. unfold timedelta_hours. lia. }
      rewrite Hlt. reflexivity.
    + intros r Hr Hid. cbn [readings] in Hr. apply in_app_or in Hr.
      destruct Hr as [Hr | [<- | []]]; [now apply Hnaive | reflexivity].
  - intros id' Hne. unfold get_sensor_history. cbn [readings].
    destruct (delta <- timedelta hours ;; datetime_sub now delta)
      as [e | cutoff] eqn:E; unfold bind in E |- *.
    + destruct (timedelta hours) as [e' | delta].
      * injection E as ->. split; [discriminate |].
        intros e' H. now injection H as <-.
      * rewrite E. split; [discriminate |].
        intros e' H. now injection H as <-.
    + destruct (timedelta hours) as [e' | delta]; [discriminate E |].
      rewrite E. rewrite history_loop_app_other by (cbn; congruence).
      destruct (history_loop id' cutoff (readings self)) as [e | h'].
      * split; [discriminate |]. intros e' H. now injection H as <-.
      * split; [| discriminate]. intros h'' H. now injection H as <-.
Qed.

Lemma history_after_ingest_witness :
  exists r self' h,
    ingest_reading out_of_order_manager "S-0001" 25 None (12 * one_hour)
    = Returned r self'
    /\ get_sensor_history self' "S-0001" 2 (12 * one_hour)
       = Returned (h ++ [history_entry r])%list self'.
Proof.
  destruct (history_after_ingest out_of_order_manager "S-0001"
              (mkSensor "S-0001" TEMPERATURE "Main Hall" "Living Room"
                 "Online" 100 23 (Naive (9 * one_hour + one_hour / 2)) 0
                 (default_thresholds TEMPERATURE))
              25 2 (12 * one_hour) eq_refl eq_refl)
    as (r & self' & h & E & _ & Hh & _).
  - split; discriminate.
  - split; discriminate.
  - exact out_of_order_naive.
  - exists r, self', h. split; [exact E | exact Hh].
Defined.

Lemma filter_filter {A : Type} (f g : A -> bool) (l : list A) :
  filter f (filter g l) = filter (fun x => g x && f x) l.
Proof.
  induction l as [| x l IH]; cbn; [reflexivity |].
  destruct (g x); cbn; [destruct (f x) |]; now rewrite IH.
Qed.

Lemma filter_map_comm {A B : Type} (f : B -> bool) (g : A -> B) (l : list A) :
  filter f (map g l) = map g (filter (fun x => f (g x)) l).
Proof.
  induction l as [| x l IH]; cbn; [reflexivity |].
  destruct (f (g x)); cbn; now rewrite IH.
Qed.

(** A narrower window never shows an entry that the wider one lacks: when
    both windows start at times of the class [datetime] and the readings of
    the sensor carry no time zone, the history for [hours1 <= hours2] is the
    history for [hours2] without its entries stamped at or before
    [now - hours1], in the same order. *)
Theorem history_window_narrows (self : IoTSensorManager) (id : string)
    (hours1 hours2 : Z) (now : datetime) :
  (hours1 <= hours2)%Z ->
  representable now ->
  representable (now - timedelta_hours hours1) ->
  representable (now - timedelta_hours hours2) ->
  naive_readings self id ->
  exists h1 h2,
    get_sensor_history self id hours1 now = Returned h1 self
    /\ get_sensor_history self id hours2 now = Returned h2 self
    /\ h1 = filter (fun e => (now - timedelta_hours hours1
                              <? instant (h_timestamp e))%Z)
              h2.
Proof.
  intros Hle Hnow Hcut1 Hcut2 Hnaive.
  rewrite !get_sensor_history_naive by assumption.
  eexists. eexists. split; [reflexivity |]. split; [reflexivity |].
  rewrite filter_map_comm, filter_filter. f_equal.
  apply filter_ext. intro r. unfold stamped_after.
  cbn [h_timestamp history_entry].
  destruct (String.eqb (r_sensor_id r) id); cbn [andb]; [| reflexivity].
  destruct (Z.ltb_spec (now - timedelta_hours hours1) (instant (timestamp r)))
    as [H | H].
  - rewrite andb_true_r. symmetry. apply Z.ltb_lt.
    unfold timedelta_hours in *. lia.
  - now rewrite andb_false_r.
Qed.

Lemma history_window_narrows_witness :
  exists h1 h2,
    get_sensor_history out_of_order_manager "S-0001" 1 (10 * one_hour)
    = Returned h1 out_of_order_manager
    /\ get_sensor_history out_of_order_manager "S-0001" 24 (10 * one_hour)
       = Returned h2 out_of_order_manager
    /\ List.length h1 = 2%nat /\ List.length h2 = 3%nat.
Proof.
  destruct (history_window_narrows out_of_order_manager "S-0001" 1 24
              (10 * one_hour))
    as (h1 & h2 & E1 & E2 & _).
  - discriminate.
  - split; discriminate.
  - split; discriminate.
  - split; discriminate.
  - exact out_of_order_naive.
  - exists h1, h2. split; [exact E1 |]. split; [exact E2 |].
    injection E1 as <-. injection E2 as <-. split; reflexivity.
Defined.

(** For a window of zero or fewer hours that starts at a time of the class
    [datetime], the history of a sensor is empty when its readings carry no
    time zone and none is stamped after the time of the query. *)
Theorem history_empty_window (self : IoTSensorManager) (id : string)
    (hours : Z) (now : datetime) :
  (hours <= 0)%Z ->
  representable now ->
  representable (now - timedelta_hours hours) ->
  naive_readings self id ->
  (forall r, In r (readings self) -> r_sensor_id r = id ->
             (instant (timestamp r) <= now)%Z) ->
  get_sensor_history self id hours now = Returned [] self.
Proof.
  intros Hhours Hnow Hcut Hnaive Hpast.
  rewrite get_sensor_history_naive by assumption.
  replace (filter _ (readings self)) with (@nil SensorReading); [reflexivity |].
  symmetry. induction (readings self) as [| r l IH]; [reflexivity |].
  cbn [filter]. unfold stamped_after at 1.
  destruct (String.eqb_spec (r_sensor_id r) id) as [E | _]; cbn [andb].
  - assert (Hr : (instant (timestamp r) <= now)%Z)
      by (apply Hpast; [now left | exact E]).
    destruct (Z.ltb_spec (now - timedelta_hours hours) (instant (timestamp r)))
      as [H | _].
    + unfold timedelta_hours in H. lia.
    + apply IH. intros r' Hr' Hid. apply Hpast; [now right | exact Hid].
  - apply IH. intros r' Hr' Hid. apply Hpast; [now right | exact Hid].
Qed.

Lemma history_empty_window_witness :
  get_sensor_history out_of_order_manager "S-0001" 0 (11 * one_hour)
  = Returned [] out_of_order_manager.
Proof.
  apply history_empty_window.
  - discriminate.
  - split; discriminate.
  - split; discriminate.
  - exact out_of_order_naive.
  - intros r [<- | [<- | [<- | []]]] _; discriminate.
Defined.

(** ** Active alerts *)




Lemma acknowledge_loop_active (l : list Alert) (id : string) :
  map alert_id
    (filter (fun a => negb (resolved a)) (snd (acknowledge_loop l id)))
  = map alert_id (filter (fun a => negb (resolved a)) l).
Proof.
  induction l as [| a l IH]; [reflexivity |].
  cbn [acknowledge_loop]. destruct (String.eqb (alert_id a) id); cbn.
  - now destruct (resolved a).
  - destruct (acknowledge_loop l id) as [found l']. cbn in *.
    destruct (resolved a); cbn; now rewrite IH.
Qed.

(** Acknowledging never changes which alerts are active: after
    [acknowledge_alert], for a known identifier or an unknown one,
    [get_active_alerts] returns alerts with the same identifiers in the same
    order as before. *)
Theorem active_after_acknowledge (self : IoTSensorManager) (id : string) :
  exists b self' act act',
    acknowledge_alert self id = Returned b self'
    /\ get_active_alerts self = Returned act self
    /\ get_active_alerts self' = Returned act' self'
    /\ map alert_id act' = map alert_id act.
Proof.
  rewrite acknowledge_alert_effect. unfold get_active_alerts.
  eexists. eexists. eexists. eexists.
  split; [reflexivity |]. split; [reflexivity |]. split; [reflexivity |].
  cbn [alerts set_alerts]. apply acknowledge_loop_active.
Qed.

(** What [ingest_reading] does for a registered sensor, whatever the
    listeners do. *)
Lemma general_ingest_reading_effect (callbacks : list Listeners.Callable)
    (self : IoTSensorManager) (id : string) (sensor : Sensor) (v : Q)
    (ts : option Timestamp) (now : datetime) :
  dict_get (sensors self) id = Some sensor ->
  let r :=
    mkSensorReading (reading_key (_reading_counter self + 1)) id
      (sensor_type sensor) v (config_get (sensor_type sensor) cfg_unit "")
      (timestamp_or ts now) (_assess_reading_quality v (sensor_type sensor))
      (_check_thresholds sensor v) in
  let bound :=
    if Qlt_bool (th_max (thresholds sensor)) v
    then th_max (thresholds sensor) else th_min (thresholds sensor) in
  let a :=
    mkAlert (alert_key (_alert_counter self + 1)) (sensor_id sensor)
      (alert_severity sensor v)
      (mkAlertMessage (SensorType_value (sensor_type sensor)) (room sensor) v
         (config_get (sensor_type sensor) cfg_unit "") bound)
      v bound now false false None in
  let after alerts' alert_counter' :=
    mkManager (property_id self)
      (dict_set (sensors self) id
         (set_last_reading sensor v (timestamp_or ts now)))
      (readings self ++ [r])%list alerts' (alert_callbacks self)
      (_reading_counter self + 1) alert_counter' in
  Listeners.ingest_reading callbacks self id v ts now
  = if _check_thresholds sensor v
    then
      let self' :=
        after
          (alerts self ++ [fst (Listeners.notify_callbacks callbacks a)])%list
          (_alert_counter self + 1)%nat in
      match snd (Listeners.notify_callbacks callbacks a) with
      | Listeners.Returns => Listeners.Returned r self'
      | Listeners.Raises e => Listeners.Raised e self'
      end
    else Listeners.Returned r (after (alerts self) (_alert_counter self)).
Proof.
  intros Hget r bound a after. unfold Listeners.ingest_reading. rewrite Hget.
  fold (timestamp_or ts now).
  destruct (_check_thresholds sensor v) eqn:Hc.
  - unfold Listeners._generate_alert.
    subst r a bound after. unfold reading_key, alert_key.
    cbn [thresholds set_last_reading sensor_type room sensor_id
         _alert_counter set_alert_counter set_readings set_sensors
         set_reading_counter].
    destruct (Listeners.notify_callbacks callbacks _) as [a' [| e]];
      reflexivity.
  - subst r after. unfold reading_key. reflexivity.
Qed.

(** With listeners that raise no exception outside class [Exception], the
    ingestion of a breaching reading puts its alert at the end of the list
    of active alerts, as the listeners leave it, unless a listener resolved
    it; if the listeners leave the alert as it is, it is there with the
    value and the time of the ingestion, not acknowledged.  The ingestion
    of any other reading leaves the list as it was. *)
Theorem active_after_ingest (callbacks : list Listeners.Callable)
    (self : IoTSensorManager) (id : string) (sensor : Sensor) (v : Q)
    (ts : option Timestamp) (now : datetime) :
  dict_get (sensors self) id = Some sensor ->
  (forall c, In c callbacks -> raises_only_Exception c) ->
  exists r self' act,
    Listeners.ingest_reading callbacks self id v ts now
    = Listeners.Returned r self'
    /\ get_active_alerts self = Returned act self
    /\ (triggered_alert r = true ->
        exists a,
          alerts self' = (alerts self ++ [a])%list
          /\ get_active_alerts self'
             = Returned (if resolved a then act else (act ++ [a])%list) self'
          /\ ((forall c alert, In c callbacks -> fst (c alert) = alert) ->
              get_active_alerts self' = Returned (act ++ [a])%list self'
              /\ a_value a = v /\ a_timestamp a = now
              /\ acknowledged a = false))
    /\ (triggered_alert r = false ->
        get_active_alerts self' = Returned act self').
Proof.
  intros Hget Hquiet.
  rewrite (general_ingest_reading_effect callbacks self id sensor v ts now
             Hget).
  cbv zeta.
  match goal with
  | |- context [Listeners.notify_callbacks callbacks ?x] => set (a := x)
  end.
  rewrite (notify_callbacks_quiet callbacks a Hquiet).
  destruct (_check_thresholds sensor v) eqn:Hc.
  - eexists. eexists. eexists. split; [reflexivity |].
    unfold get_active_alerts. split; [reflexivity |].
    cbn [triggered_alert alerts]. split; [| discriminate].
    intros _. exists (fst (Listeners.notify_callbacks callbacks a)).
    split; [reflexivity |]. rewrite filter_app. cbn [filter].
    split.
    + destruct (resolved _); cbn [negb]; [now rewrite app_nil_r | reflexivity].
    + intro Hsame.
      rewrite (notify_callbacks_same callbacks a Hsame).
      cbn [fst]. subst a. cbn. now repeat split.
  - eexists. eexists. eexists. split; [reflexivity |].
    unfold get_active_alerts. split; [reflexivity |].
    cbn [triggered_alert alerts]. split; [discriminate | reflexivity].
Qed.

Lemma active_after_ingest_witness :
  exists r self' a,
    Listeners.ingest_reading [failing_listener] alerted_manager "S-0001" 5
      None (2 * one_hour)
    = Listeners.Returned r self'
    /\ get_active_alerts self'
       = Returned (alerts alerted_manager ++ [a])%list self'
    /\ a_value a = 5.
Proof.
  destruct (active_after_ingest [failing_listener] alerted_manager "S-0001"
              (mkSensor "S-0001" TEMPERATURE "Main Hall" "Living Room"
                 "Online" 100 40 (Naive one_hour) 0
                 (default_thresholds TEMPERATURE))
              5 None (2 * one_hour) eq_refl)
    as (r & self' & act & E & Hact & Hyes & _).
  { intros c [<- | []] alert e H. injection H as <-. reflexivity. }
  assert (Hflag : triggered_alert r = true)
    by (injection E as <- _; reflexivity).
  destruct (Hyes Hflag) as (a & _ & _ & Hsame).
  destruct Hsame as (Ha & Hv & _).
  { intros c alert [<- | []]. reflexivity. }
  exists r, self', a. split; [exact E |].
  injection Hact as <-. split; [exact Ha | exact Hv].
Defined.

(** ** Current readings *)

Lemma current_loop_get (items : list (string * Sensor))
    (acc : list (string * CurrentReading)) (id : string) :
  NoDup (map fst items) ->
  dict_get (current_loop items acc) id
  = match dict_get items id with
    | Some s => Some (current_row s)
    | None => dict_get acc id
    end.
Proof.
  revert acc. induction items as [| [k s] items IH]; intros acc Hnd;
    [reflexivity |].
  cbn [map fst] in Hnd. inversion Hnd as [| ? ? Hk Hnd']; subst.
  cbn [current_loop dict_get]. rewrite (IH _ Hnd').
  destruct (String.eqb_spec k id) as [<- | Hne].
  - apply dict_get_None in Hk. rewrite Hk. apply dict_get_set_same.
  - destruct (dict_get items id); [reflexivity |].
    now apply dict_get_set_other.
Qed.

Lemma current_loop_keys (items : list (string * Sensor))
    (acc : list (string * CurrentReading)) :
  NoDup (map fst acc ++ map fst items) ->
  map fst (current_loop items acc) = (map fst acc ++ map fst items)%list.
Proof.
  revert acc. induction items as [| [k s] items IH]; intros acc Hnd.
  - cbn. now rewrite app_nil_r.
  - cbn [current_loop map fst] in *.
    assert (Hk : dict_get acc k = None).
    { apply dict_get_None. intro Hin.
      apply NoDup_remove_2 in Hnd. apply Hnd, in_or_app. now left. }
    rewrite (dict_set_fresh _ _ _ Hk), IH; rewrite map_app; cbn [map fst].
    + now rewrite <- app_assoc.
    + now rewrite <- app_assoc.
Qed.

Lemma current_rows (self : IoTSensorManager) :
  reachable self ->
  exists current,
    get_current_readings self = Returned current self
    /\ map fst current = map fst (sensors self)
    /\ forall id,
         dict_get current id
         = option_map current_row (dict_get (sensors self) id).
Proof.
  intro Hreach.
  pose proof (identifiers_numbered_sensors self Hreach) as Hnd.
  unfold get_current_readings. eexists. split; [reflexivity |].
  split; [now apply (current_loop_keys (sensors self) []) |].
  intro id. rewrite (current_loop_get _ _ _ Hnd).
  now destruct (dict_get (sensors self) id).
Qed.

(** In a manager that was built through its methods, [get_current_readings]
    returns one row for every sensor and no other row, under the keys
    [S-0001], [S-0002], ... in the order of registration.  The row of a
    sensor shows its type, location and room, its last value and the time
    of that value, the unit of the table for its type and the status
    Online; its quality is Good, Fair or Poor, and it is Good exactly when
    the last value lies within the optimal range of the sensor. *)
Theorem current_readings_rows (self : IoTSensorManager) :
  reachable self ->
  exists current,
    get_current_readings self = Returned current self
    /\ map fst current = map sensor_key (seq 1 (List.length (sensors self)))
    /\ (forall id, dict_get (sensors self) id = None ->
                   dict_get current id = None)
    /\ forall id sensor,
         dict_get (sensors self) id = Some sensor ->
         exists row,
           dict_get current id = Some row
           /\ c_sensor_type row = SensorType_value (sensor_type sensor)
           /\ c_location row = location sensor
           /\ c_room row = room sensor
           /\ c_value row = last_reading sensor
           /\ c_timestamp row = last_reading_time sensor
           /\ c_unit row = config_get (sensor_type sensor) cfg_unit ""
           /\ c_status row = "Online"
           /\ (c_quality row = "Good" \/ c_quality row = "Fair"
               \/ c_quality row = "Poor")
           /\ (c_quality row = "Good"
               <-> th_optimal_min (thresholds sensor) <= last_reading sensor
                   <= th_optimal_max (thresholds sensor)).
Proof.
  intro Hreach.
  destruct (current_rows self Hreach) as (current & E & Hkeys & Hrows).
  exists current. split; [exact E |]. split; [| split].
  - rewrite Hkeys. exact (sensor_keys self (reachable_numbered self Hreach)).
  - intros id Hnone. now rewrite Hrows, Hnone.
  - intros id sensor Hget. exists (current_row sensor).
    split; [now rewrite Hrows, Hget |].
    destruct (reachable_online self Hreach id sensor
                (dict_get_Some_In _ _ _ Hget)) as [Hon _].
    rewrite (table_thresholds self (reachable_consistent self Hreach) id
               sensor Hget).
    cbn [current_row c_sensor_type c_location c_room c_value c_timestamp
         c_unit c_status c_quality default_thresholds th_optimal_min
         th_optimal_max].
    do 6 (split; [reflexivity |]). split; [exact Hon |].
    split; [| split].
    + unfold _assess_reading_quality.
      destruct (_ && _); [now left |].
      destruct (_ || _); [now right; right | now right; left].
    + apply _assess_reading_quality_Good.
    + apply (_assess_reading_quality_cases (last_reading sensor)
               (sensor_type sensor)).
Qed.

Lemma current_readings_rows_witness :
  exists current row,
    get_current_readings alerted_manager = Returned current alerted_manager
    /\ map fst current = ["S-0001"]
    /\ dict_get current "S-0001" = Some row
    /\ c_value row = 40
    /\ c_unit row = "°C"
    /\ c_quality row <> "Good".
Proof.
  destruct (current_readings_rows alerted_manager alerted_manager_reachable)
    as (current & E & Hk & _ & Hrows).
  destruct (Hrows "S-0001"
              (mkSensor "S-0001" TEMPERATURE "Main Hall" "Living Room"
                 "Online" 100 40 (Naive one_hour) 0
                 (default_thresholds TEMPERATURE))
              eq_refl)
    as (row & Hrow & _ & _ & _ & Hv & _ & Hu & _ & _ & Hgood).
  exists current, row. split; [exact E |]. split; [exact Hk |].
  split; [exact Hrow |]. split; [exact Hv |]. split; [exact Hu |].
  intro Hq. apply Hgood in Hq. destruct Hq as [_ Hq]. now apply Hq.
Defined.

(** After the ingestion of a reading, the row of its sensor in the current
    readings shows the value, the time, the unit and the quality of that
    reading; the rows of the other sensors are as before. *)
Theorem current_after_ingest (self : IoTSensorManager) (id : string)
    (sensor : Sensor) (v : Q) (ts : option Timestamp) (now : datetime) :
  reachable self ->
  dict_get (sensors self) id = Some sensor ->
  exists r self' before after row,
    ingest_reading self id v ts now = Returned r self'
    /\ get_current_readings self = Returned before self
    /\ get_current_readings self' = Returned after self'
    /\ dict_get after id = Some row
    /\ c_value row = v
    /\ c_timestamp row = timestamp r
    /\ c_quality row = quality r
    /\ c_unit row = r_unit r
    /\ forall id', id' <> id -> dict_get after id' = dict_get before id'.
Proof.
  intros Hreach Hget.
  destruct (ingest_reading_registered self id sensor v ts now Hget)
    as (r & self' & E & _ & Hv & Hts & Hq & _ & _ & Hs & _).
  assert (Hreach' : reachable self') by (eapply reach_ingest; eassumption).
  destruct (current_rows self Hreach) as (before & Eb & _ & Hb).
  destruct (current_rows self' Hreach') as (after & Ea & _ & Ha).
  exists r, self', before, after.
  exists (current_row (set_last_reading sensor v (timestamp_or ts now))).
  split; [exact E |]. split; [exact Eb |]. split; [exact Ea |].
  split; [now rewrite Ha, Hs, dict_get_set_same |].
  cbn [current_row c_value c_timestamp c_quality c_unit set_last_reading
       last_reading last_reading_time sensor_type].
  split; [reflexivity |]. split; [now rewrite Hts |].
  split; [now rewrite Hq |].
  split.
  - rewrite (ingest_reading_effect self id sensor v ts now Hget) in E.
    now injection E as <- _.
  - intros id' Hne. rewrite Ha, Hb, Hs, dict_get_set_other; congruence.
Qed.

Lemma current_after_ingest_witness :
  exists r self' after row,
    ingest_reading temperature_manager "S-0001" 28 None one_hour
    = Returned r self'
    /\ get_current_readings self' = Returned after self'
    /\ dict_get after "S-0001" = Some row
    /\ c_value row = 28.
Proof.
  destruct (current_after_ingest temperature_manager "S-0001"
              temperature_sensor 28 None one_hour
              temperature_manager_reachable eq_refl)
    as (r & self' & before & after & row & E & _ & Ea & Hrow & Hv & _).
  exists r, self', after, row.
  split; [exact E |]. split; [exact Ea |]. split; [exact Hrow | exact Hv].
Defined.

(** ** Network status *)

Lemma count_if_bounds {A : Type} (f : A -> bool) (l : list A) :
  (0 <= count_if f l <= Z.of_nat (List.length l))%Z.
Proof.
  unfold count_if. pose proof (filter_length_le f l). lia.
Qed.

Lemma count_if_all {A : Type} (f : A -> bool) (l : list A) :
  (forall x, In x l -> f x = true) -> count_if f l = Z.of_nat (List.length l).
Proof.
  intro H. unfold count_if. f_equal.
  induction l as [| x l IH]; [reflexivity |].
  cbn. rewrite (H x (or_introl eq_refl)). cbn. f_equal.
  apply IH. intros y Hy. apply H. now right.
Qed.

Lemma count_if_zero {A : Type} (f : A -> bool) (l : list A) :
  count_if f l = 0%Z <-> forall x, In x l -> f x = false.
Proof.
  unfold count_if. induction l as [| x l IH]; cbn.
  - split; [intros _ y [] | reflexivity].
  - destruct (f x) eqn:E; cbn.
    + split; [lia |]. intro H. specialize (H x (or_introl eq_refl)). congruence.
    + rewrite IH. split.
      * intros H y [<- | Hy]; auto.
      * intros H y Hy. apply H. now right.
Qed.

(** The counts of [get_network_status] add up: the online and the offline
    sensors are all the sensors, the readings of the day are no more than the
    readings, the active alerts are those that are not resolved, and the
    health is Poor exactly when more than two sensors are not online,
    whatever the alerts. *)
Theorem network_status_counts (self : IoTSensorManager) (now : datetime) :
  exists n,
    get_network_status self now = Returned n self
    /\ total_sensors n = Z.of_nat (List.length (sensors self))
    /\ (online_sensors n + offline_sensors n = total_sensors n)%Z
    /\ (0 <= online_sensors n <= total_sensors n)%Z
    /\ (0 <= daily_readings n <= Z.of_nat (List.length (readings self)))%Z
    /\ get_active_alerts self = Returned (active_alerts n) self
    /\ (network_health n = "Poor" <-> (2 < offline_sensors n)%Z).
Proof.
  unfold get_network_status, get_active_alerts. eexists.
  split; [reflexivity |].
  cbn [total_sensors online_sensors offline_sensors daily_readings
       active_alerts network_health].
  pose proof (count_if_bounds (fun s => String.eqb (status s) "Online")
                (dict_values (sensors self))) as Hon.
  assert (Hlen : List.length (dict_values (sensors self))
                 = List.length (sensors self)) by apply length_map.
  rewrite Hlen in Hon.
  split; [reflexivity |]. split; [lia |]. split; [exact Hon |].
  split; [apply count_if_bounds |]. split; [reflexivity |].
  set (offline := (_ - _)%Z).
  destruct (Z.eqb_spec offline 0); cbn [andb].
  - destruct (_ =? 0)%Z; [split; [discriminate | lia] |].
    destruct (Z.leb_spec offline 1); [| lia]. cbn [andb].
    destruct (_ =? 0)%Z; [split; [discriminate | lia] |].
    destruct (Z.leb_spec offline 2); [split; [discriminate | lia] | lia].
  - destruct (Z.leb_spec offline 1); cbn [andb].
    + destruct (_ =? 0)%Z; [split; [discriminate | lia] |].
      destruct (Z.leb_spec offline 2); [split; [discriminate | lia] | lia].
    + destruct (Z.leb_spec offline 2); [split; [discriminate | lia] |].
      split; [lia | reflexivity].
Qed.

Lemma network_status_counts_witness :
  exists n,
    get_network_status alerted_manager (2 * one_hour)
    = Returned n alerted_manager
    /\ network_health n <> "Poor".
Proof.
  destruct (network_status_counts alerted_manager (2 * one_hour))
    as (n & E & _ & _ & _ & _ & _ & Hpoor).
  exists n. split; [exact E |].
  intro H. apply Hpoor in H. injection E as <-. discriminate H.
Defined.

(** In a manager that was built through its methods every sensor is online,
    so the health depends on the active alerts alone: it is Excellent
    exactly when there is none, Fair exactly when one of them is Critical,
    Good exactly when there are some and none is Critical, and never Poor. *)
Theorem network_health_reachable (self : IoTSensorManager) (now : datetime) :
  reachable self ->
  exists n,
    get_network_status self now = Returned n self
    /\ offline_sensors n = 0%Z
    /\ online_sensors n = total_sensors n
    /\ (network_health n = "Excellent" <-> active_alerts n = [])
    /\ (network_health n = "Fair"
        <-> exists a, In a (active_alerts n) /\ severity a = CRITICAL)
    /\ (network_health n = "Good"
        <-> active_alerts n <> []
            /\ forall a, In a (active_alerts n) -> severity a <> CRITICAL)
    /\ network_health n <> "Poor".
Proof.
  intro Hreach. unfold get_network_status. eexists. split; [reflexivity |].
  cbn [total_sensors online_sensors offline_sensors active_alerts
       network_health].
  assert (Hon : count_if (fun s => String.eqb (status s) "Online")
                  (dict_values (sensors self))
                = Z.of_nat (List.length (sensors self))).
  { rewrite count_if_all; [unfold dict_values; now rewrite length_map |].
    intros s Hs. unfold dict_values in Hs. apply in_map_iff in Hs.
    destruct Hs as ([id s'] & <- & Hin). cbn [snd].
    destruct (reachable_online self Hreach id s' Hin) as [-> _]. reflexivity. }
  rewrite Hon, Z.sub_diag. cbn [Z.eqb Z.leb Z.compare andb].
  set (act := filter (fun a => negb (resolved a)) (alerts self)).
  assert (Hcrit : count_if is_critical act = 0%Z
                  <-> forall a, In a act -> severity a <> CRITICAL).
  { rewrite count_if_zero. split; intros H a Ha; specialize (H a Ha);
      unfold is_critical in *; destruct (severity a); congruence. }
  split; [reflexivity |]. split; [reflexivity |].
  destruct act as [| a0 act]; cbn [List.length Z.of_nat Z.eqb].
  - repeat split; try reflexivity; try discriminate.
    + intros (a & [] & _).
    + intros [H _]. now destruct H.
  - change (Z.pos (Pos.of_succ_nat (List.length act)) =? 0)%Z with false.
    cbv iota. destruct (Z.eqb_spec (count_if is_critical (a0 :: act)) 0)
      as [E | E].
    + pose proof (proj1 Hcrit E) as Hnone.
      repeat split; try reflexivity; try discriminate; try exact Hnone.
      intros (a & Ha & Hs). now destruct (Hnone a Ha).
    + assert (Hex : exists a, In a (a0 :: act) /\ severity a = CRITICAL).
      { clear - E. unfold count_if in E.
        induction (a0 :: act) as [| a l IH]; [now destruct E |].
        cbn in E. unfold is_critical at 1 in E.
        destruct (severity a) eqn:Hs;
          try (destruct IH as (a' & Ha' & Hs'); [exact E |];
               exists a'; split; [now right | exact Hs']).
        exists a. split; [now left | exact Hs]. }
      repeat split; try reflexivity; try discriminate;
        try (intros _; exact Hex).
      intros [_ H]. destruct Hex as (a & Ha & Hs). now destruct (H a Ha).
Qed.

Lemma network_health_reachable_witness :
  exists n,
    get_network_status alerted_manager (2 * one_hour)
    = Returned n alerted_manager
    /\ network_health n = "Good".
Proof.
  destruct (network_health_reachable alerted_manager (2 * one_hour)
              alerted_manager_reachable)
    as (n & E & _ & _ & _ & _ & Hgood & _).
  exists n. split; [exact E |]. apply Hgood.
  injection E as <-. cbn [active_alerts]. split; [discriminate |].
  intros a [<- | []]. discriminate.
Defined.

(** ** The range of the comfort scores *)

Lemma py_div_inr (a b q : Q) :
  py_div a b = inr q -> ~ b == 0 /\ q = a / b.
Proof.
  unfold py_div. destruct (Qeq_bool_spec b 0); [discriminate |].
  intros [= <-]. now split.
Qed.

Lemma bind_inr {A B : Type} (r : Result A) (k : A -> Result B) (b : B) :
  bind r k = inr b -> exists a, r = inr a /\ k a = inr b.
Proof.
  destruct r as [e | a]; cbn; [discriminate |]. intro H. now exists a.
Qed.

Lemma Qdiv_pos (a b : Q) : 0 < a -> 0 < b -> 0 < a / b.
Proof.
  intros Ha Hb. apply Qlt_shift_div_l; [exact Hb |]. now rewrite Qmult_0_l.
Qed.

Lemma _calculate_sensor_score_range (sensor : Sensor) (q : Q) :
  _calculate_sensor_score sensor = inr q ->
  0 <= q <= 100
  /\ (80 <= q
      <-> config_get (sensor_type sensor) optimal_min 20
          <= last_reading sensor
          <= config_get (sensor_type sensor) optimal_max 80).
Proof.
  destruct (optimal_range_table (sensor_type sensor)) as [H0 Hlt].
  set (lo := config_get (sensor_type sensor) optimal_min 20) in *.
  set (hi := config_get (sensor_type sensor) optimal_max 80) in *.
  set (v := last_reading sensor).
  destruct (Qle_bool_spec lo v) as [Hlo | Hlo].
  - destruct (Qle_bool_spec v hi) as [Hhi | Hhi].
    + destruct (_calculate_sensor_score_in_range sensor (conj Hlo Hhi))
        as (score & -> & _ & Hrange).
      intros [= <-]. split; [split; lra | tauto].
    + unfold _calculate_sensor_score. fold lo hi v.
      destruct (Qle_bool_spec lo v); [| contradiction].
      destruct (Qle_bool_spec v hi); [contradiction |]. cbn [andb].
      destruct (Qlt_bool_spec v lo); [lra |].
      intro H. apply bind_inr in H. destruct H as (d & Hd & [= <-]).
      apply py_div_inr in Hd. destruct Hd as [_ ->].
      assert (Hpos : 0 < (v - hi) / hi) by (apply Qdiv_pos; lra).
      set (d := (v - hi) / hi) in *.
      unfold py_max. destruct (Qlt_bool_spec 0 (80 - d * 50)); split;
        try (split; lra); split; intro; lra.
  - unfold _calculate_sensor_score. fold lo hi v.
    destruct (Qle_bool_spec lo v); [contradiction |]. cbn [andb].
    destruct (Qlt_bool_spec v lo); [| lra].
    intro H. apply bind_inr in H. destruct H as (d & Hd & [= <-]).
    apply py_div_inr in Hd. destruct Hd as [Hnz ->].
    assert (Hpos : 0 < (lo - v) / lo) by (apply Qdiv_pos; lra).
    set (d := (lo - v) / lo) in *.
    unfold py_max. destruct (Qlt_bool_spec 0 (80 - d * 50)); split;
      try (split; lra); split; intro; lra.
Qed.

(** Whenever the score of a sensor is computed, it lies between 0 and 100:
    between 80 and 100 when the last value of the sensor lies within the
    optimal range of its type, and between 0 and 80 when it lies outside. *)
Theorem sensor_score_range (sensor : Sensor) (q : Q) :
  _calculate_sensor_score sensor = inr q ->
  let lo := config_get (sensor_type sensor) optimal_min 20 in
  let hi := config_get (sensor_type sensor) optimal_max 80 in
  0 <= q <= 100
  /\ (lo <= last_reading sensor <= hi -> 80 <= q)
  /\ (~ lo <= last_reading sensor <= hi -> q <= 80).
Proof.
  intros Hq lo hi.
  destruct (_calculate_sensor_score_range sensor q Hq) as [Hrange Hiff].
  fold lo hi in Hiff. split; [exact Hrange |]. split.
  - apply Hiff.
  - intro Hout. apply Qnot_lt_le. intro H. apply Hout, Hiff. lra.
Qed.

Lemma sensor_score_range_witness :
  exists q,
    _calculate_sensor_score temperature_sensor = inr q
    /\ 0 <= q <= 100 /\ q <= 80.
Proof.
  eexists. split; [reflexivity |].
  destruct (sensor_score_range temperature_sensor _ eq_refl)
    as (Hrange & _ & Hout).
  split; [exact Hrange |]. apply Hout.
  intros [H _]. now apply H.
Defined.

Lemma round1_range (x : Q) : 0 <= x <= 100 -> 0 <= round1 x <= 100.
Proof.
  intros [H0 H100]. unfold round1.
  set (f := Qfloor (x * 10)).
  assert (Hf0 : (0 <= f)%Z).
  { change 0%Z with (Qfloor 0). apply Qfloor_resp_le. lra. }
  assert (Hf1 : (f <= 1000)%Z).
  { change 1000%Z with (Qfloor 1000). apply Qfloor_resp_le. lra. }
  assert (Hbounds : forall z, (0 <= z <= 1000)%Z ->
                      0 <= inject_Z z / 10 <= 100).
  { intros z [Hz0 Hz1]. rewrite Zle_Qle in Hz0, Hz1.
    change (inject_Z 0) with 0 in Hz0. change (inject_Z 1000) with 1000 in Hz1.
    split.
    - apply Qle_shift_div_l; lra.
    - apply Qle_shift_div_r; lra. }
  assert (Hdown : 0 <= inject_Z f / 10 <= 100) by (apply Hbounds; lia).
  assert (Hup : (f < 1000)%Z -> 0 <= inject_Z (f + 1) / 10 <= 100)
    by (intro; apply Hbounds; lia).
  assert (Hd : (f < 1000)%Z \/ x * 10 - inject_Z f <= 0).
  { destruct (Z.eq_dec f 1000) as [E | E]; [| left; lia].
    right. rewrite E. change (inject_Z 1000) with 1000. lra. }
  destruct (Qlt_bool_spec (x * 10 - inject_Z f) (1 # 2)); [exact Hdown |].
  destruct Hd as [Hd | Hd]; [| lra].
  destruct (Qlt_bool_spec (1 # 2) (x * 10 - inject_Z f)); [now apply Hup |].
  destruct (Z.even f); [exact Hdown | now apply Hup].
Qed.

Lemma score_sensors_in_range (l : list Sensor) :
  forall scores scores',
    scores_in_range scores ->
    score_sensors l scores = inr scores' ->
    scores_in_range scores'.
Proof.
  induction l as [| s l IH]; intros scores scores' Hin; cbn [score_sensors].
  - now intros [= <-].
  - destruct (in_weights (sensor_type s)); [| now apply IH].
    intro H. apply bind_inr in H. destruct H as (q & Hq & H).
    apply (IH (dict_set scores (SensorType_value (sensor_type s)) q));
      [| exact H].
    intros k q' HIn. apply dict_set_In in HIn.
    destruct HIn as [[= _ ->] | HIn].
    + now apply (_calculate_sensor_score_range s).
    + now apply (Hin k).
Qed.

Lemma weighted_totals_bounds (ws : list (SensorType * Q))
    (scores : list (string * Q)) :
  scores_in_range scores ->
  (forall t w, In (t, w) ws -> 0 <= w) ->
  forall weighted_sum total_weight,
    0 <= weighted_sum <= 100 * total_weight ->
    0 <= total_weight ->
    0 <= fst (weighted_totals ws scores weighted_sum total_weight)
      <= 100 * snd (weighted_totals ws scores weighted_sum total_weight)
    /\ 0 <= snd (weighted_totals ws scores weighted_sum total_weight).
Proof.
  intros Hscores.
  induction ws as [| [t w] ws IH]; intros Hw weighted_sum total_weight Hs Ht;
    cbn [weighted_totals fst snd]; [now split |].
  assert (Hw0 : 0 <= w) by (apply (Hw t); now left).
  assert (Hrest : forall t' w', In (t', w') ws -> 0 <= w')
    by (intros t' w' H; apply (Hw t'); now right).
  destruct (dict_get scores (SensorType_value t)) as [s |] eqn:E;
    [| now apply IH].
  apply dict_get_Some_In, Hscores in E.
  apply IH; [exact Hrest | | lra].
  assert (0 <= s * w) by (apply Qmult_le_0_compat; lra).
  assert (s * w <= 100 * w) by (apply Qmult_le_compat_r; lra).
  split; lra.
Qed.

(** Whenever [calculate_comfort_score] returns, the overall score and every
    component score lie between 0 and 100, and there is at least one
    recommendation. *)
Theorem comfort_score_range (self self' : IoTSensorManager) (c : ComfortScore) :
  calculate_comfort_score self = Returned c self' ->
  0 <= overall_score c <= 100
  /\ scores_in_range (component_scores c)
  /\ recommendations c <> [].
Proof.
  unfold calculate_comfort_score.
  destruct (comfort_result self) as [e | c0] eqn:E; [discriminate |].
  intros [= <- _]. unfold comfort_result in E.
  apply bind_inr in E. destruct E as (scores & Hscores & E).
  assert (Hrange : scores_in_range scores).
  { apply (score_sensors_in_range (dict_values (sensors self)) [] scores);
      [intros k q [] | exact Hscores]. }
  destruct (weighted_totals_bounds weights scores Hrange) with
    (weighted_sum := 0) (total_weight := 0) as [Hsum Htot]; try lra.
  { intros t w Hin. cbn in Hin.
    repeat (destruct Hin as [[= _ <-] | Hin]; [lra |]). destruct Hin. }
  destruct (weighted_totals weights scores 0 0) as [weighted_sum total_weight].
  cbn [fst snd] in *.
  apply bind_inr in E. destruct E as (overall & Hoverall & [= <-]).
  cbn [overall_score component_scores recommendations].
  split; [| split; [exact Hrange |]].
  - apply round1_range.
    destruct (Qlt_bool_spec 0 total_weight) as [Hpos | _].
    + apply py_div_inr in Hoverall. destruct Hoverall as [_ ->]. split.
      * apply Qle_shift_div_l; lra.
      * apply Qle_shift_div_r; lra.
    + injection Hoverall as <-. lra.
  - unfold _generate_comfort_recommendations.
    destruct (_ ++ _)%list; discriminate.
Qed.

Lemma comfort_score_range_witness :
  exists c,
    calculate_comfort_score alerted_manager = Returned c alerted_manager
    /\ 0 <= overall_score c <= 100.
Proof.
  eexists. split; [reflexivity |].
  now apply (comfort_score_range alerted_manager alerted_manager).
Defined.

Lemma score_sensors_unweighted (l : list Sensor) (scores : list (string * Q)) :
  (forall s, In s l -> in_weights (sensor_type s) = false) ->
  score_sensors l scores = inr scores.
Proof.
  induction l as [| s l IH]; intro H; cbn [score_sensors]; [reflexivity |].
  rewrite (H s (or_introl eq_refl)). apply IH.
  intros s' Hs'. apply H. now right.
Qed.

(** For a population without a sensor of a weighted category, the empty
    population included, [calculate_comfort_score] returns the overall score
    50 with the category Poor, no component score, and the recommendation
    that all parameters are within the optimal range. *)
Theorem comfort_score_unweighted (self : IoTSensorManager) :
  (forall s, In s (dict_values (sensors self)) ->
             in_weights (sensor_type s) = false) ->
  exists c,
    calculate_comfort_score self = Returned c self
    /\ overall_score c == 50
    /\ category c = "Poor"
    /\ component_scores c = []
    /\ recommendations c = ["All parameters within optimal range"].
Proof.
  intro H. unfold calculate_comfort_score, comfort_result.
  rewrite (score_sensors_unweighted _ [] H). cbn [bind].
  eexists. split; [reflexivity |]. now repeat split.
Qed.

Lemma comfort_score_unweighted_witness :
  exists c,
    calculate_comfort_score (negative_manager VOC)
    = Returned c (negative_manager VOC)
    /\ category c = "Poor".
Proof.
  destruct (comfort_score_unweighted (negative_manager VOC))
    as (c & E & _ & Hcat & _).
  - intros s [<- | []]. reflexivity.
  - exists c. split; [exact E | exact Hcat].
Defined.

(** ** Categories and recommendations *)

(** The category never gets worse when the score goes up. *)
Theorem category_monotone (x y : Q) :
  x <= y ->
  (category_rank (_score_to_category x)
   <= category_rank (_score_to_category y))%nat.
Proof.
  intro H. unfold _score_to_category.
  destruct (Qle_bool_spec 90 x); destruct (Qle_bool_spec 90 y);
    try (cbn; lia); try lra;
    destruct (Qle_bool_spec 75 x); destruct (Qle_bool_spec 75 y);
    try (cbn; lia); try lra;
    destruct (Qle_bool_spec 60 x); destruct (Qle_bool_spec 60 y);
    try (cbn; lia); try lra;
    destruct (Qle_bool_spec 40 x); destruct (Qle_bool_spec 40 y);
    try (cbn; lia); lra.
Qed.

Lemma category_monotone_witness :
  (category_rank (_score_to_category 59)
   <= category_rank (_score_to_category 60))%nat.
Proof. apply category_monotone. discriminate. Defined.

(** The recommendations are never empty; they are the single message that
    all parameters are within the optimal range exactly when none of the
    five scores of temperature, humidity, air quality, CO2 and noise, each
    taken as 100 when missing, is below 70; the score of light has no part
    in them. *)
Theorem recommendations_default (scores : list (string * Q)) :
  _generate_comfort_recommendations scores <> []
  /\ (_generate_comfort_recommendations scores
      = ["All parameters within optimal range"]
      <-> 70 <= scores_get scores (SensorType_value TEMPERATURE)
          /\ 70 <= scores_get scores (SensorType_value HUMIDITY)
          /\ 70 <= scores_get scores (SensorType_value AIR_QUALITY)
          /\ 70 <= scores_get scores (SensorType_value CO2)
          /\ 70 <= scores_get scores (SensorType_value NOISE))
  /\ forall q,
       _generate_comfort_recommendations
         (dict_set scores (SensorType_value LIGHT) q)
       = _generate_comfort_recommendations scores.
Proof.
  split; [| split].
  - unfold _generate_comfort_recommendations.
    destruct (_ ++ _)%list; discriminate.
  - unfold _generate_comfort_recommendations.
    destruct (Qlt_bool_spec
                (scores_get scores (SensorType_value TEMPERATURE)) 70);
      destruct (Qlt_bool_spec
                  (scores_get scores (SensorType_value HUMIDITY)) 70);
      destruct (Qlt_bool_spec
                  (scores_get scores (SensorType_value AIR_QUALITY)) 70);
      destruct (Qlt_bool_spec (scores_get scores (SensorType_value CO2)) 70);
      destruct (Qlt_bool_spec (scores_get scores (SensorType_value NOISE)) 70);
      cbn [app]; (split; [intro H | intros (H1 & H2 & H3 & H4 & H5)]);
      try discriminate H; try reflexivity; lra.
  - intro q. unfold _generate_comfort_recommendations, scores_get.
    rewrite !dict_get_set_other by discriminate. reflexivity.
Qed.

Lemma recommendations_default_witness :
  _generate_comfort_recommendations [("Temperature", 95); ("Noise Level", 71)]
  = ["All parameters within optimal range"].
Proof.
  apply (recommendations_default [("Temperature", 95); ("Noise Level", 71)]).
  repeat split; discriminate.
Defined.

(** ** Several sensors of one category *)

Lemma in_weights_value (a b : SensorType) :
  SensorType_value a = SensorType_value b -> in_weights a = in_weights b.
Proof.
  intro H. unfold in_weights, SensorType_eqb. now rewrite H.
Qed.

Lemma score_sensors_last (t : SensorType) (l : list Sensor) :
  in_weights t = true ->
  forall scores scores',
    score_sensors l scores = inr scores' ->
    match last_of_type t l with
    | Some s =>
        exists q, _calculate_sensor_score s = inr q
                  /\ dict_get scores' (SensorType_value t) = Some q
    | None =>
        dict_get scores' (SensorType_value t)
        = dict_get scores (SensorType_value t)
    end.
Proof.
  intro Ht.
  induction l as [| s l IH]; intros scores scores';
    cbn [score_sensors last_of_type].
  - now intros [= <-].
  - unfold SensorType_eqb.
    destruct (String.eqb_spec (SensorType_value (sensor_type s))
                (SensorType_value t)) as [E | E].
    + rewrite (in_weights_value _ _ E), Ht.
      intro H. apply bind_inr in H. destruct H as (q & Hq & H).
      specialize (IH _ _ H). destruct (last_of_type t l); [exact IH |].
      exists q. split; [exact Hq |]. rewrite IH, E. apply dict_get_set_same.
    + destruct (in_weights (sensor_type s)).
      * intro H. apply bind_inr in H. destruct H as (q & Hq & H).
        specialize (IH _ _ H). destruct (last_of_type t l); [exact IH |].
        rewrite IH. now apply dict_get_set_other.
      * intro H. specialize (IH _ _ H). now destruct (last_of_type t l).
Qed.

(** Where several sensors have the same weighted category, the component
    score of the category is the score of the one that was registered last;
    the others have no part in the comfort score.  A category without a
    sensor has no component score. *)
Theorem comfort_last_sensor (self self' : IoTSensorManager) (c : ComfortScore)
    (t : SensorType) :
  calculate_comfort_score self = Returned c self' ->
  in_weights t = true ->
  match last_of_type t (dict_values (sensors self)) with
  | Some s =>
      exists q, _calculate_sensor_score s = inr q
                /\ dict_get (component_scores c) (SensorType_value t) = Some q
  | None => dict_get (component_scores c) (SensorType_value t) = None
  end.
Proof.
  unfold calculate_comfort_score.
  destruct (comfort_result self) as [e | c0] eqn:E; [discriminate |].
  intros [= <- _] Ht. unfold comfort_result in E.
  apply bind_inr in E. destruct E as (scores & Hscores & E).
  destruct (weighted_totals weights scores 0 0) as [weighted_sum total_weight].
  apply bind_inr in E. destruct E as (overall & _ & [= <-]).
  cbn [component_scores].
  exact (score_sensors_last t _ Ht [] scores Hscores).
Qed.

Lemma comfort_last_sensor_witness :
  exists c,
    calculate_comfort_score two_temperature_manager
    = Returned c two_temperature_manager
    /\ exists q, dict_get (component_scores c) "Temperature" = Some q
                 /\ q < 80.
Proof.
  eexists. split; [reflexivity |].
  destruct (comfort_last_sensor two_temperature_manager
              two_temperature_manager _ TEMPERATURE eq_refl eq_refl)
    as (q & Hq & Hget).
  exists q. split; [exact Hget |].
  injection Hq as <-. reflexivity.
Defined.

(** ** Simulated readings *)

Lemma uniform_range (a b u : Q) :
  a <= b -> 0 <= u <= 1 -> a <= uniform a b u <= b.
Proof.
  intros Hab [Hu0 Hu1]. unfold uniform.
  assert (H0 : 0 <= (b - a) * u) by (apply Qmult_le_0_compat; lra).
  assert (H1 : (b - a) * u <= (b - a) * 1).
  { rewrite !(Qmult_comm (b - a)). apply Qmult_le_compat_r; lra. }
  split; lra.
Qed.

Lemma registry_kept_refl (d : list (string * Sensor)) : registry_kept d d.
Proof. intros id s H. now exists s. Qed.

Lemma registry_kept_trans (d1 d2 d3 : list (string * Sensor)) :
  registry_kept d1 d2 -> registry_kept d2 d3 -> registry_kept d1 d3.
Proof.
  intros H12 H23 id s H. destruct (H12 id s H) as (s2 & H2 & Ht & Hth).
  destruct (H23 id s2 H2) as (s3 & H3 & Ht' & Hth').
  exists s3. split; [exact H3 |]. split; congruence.
Qed.

Lemma simulated_hour_representable (duration_hours hour : Z) (t : datetime) :
  representable t ->
  representable (t - timedelta_hours duration_hours) ->
  (0 <= hour < duration_hours)%Z ->
  representable (t - timedelta_hours (duration_hours - hour)).
Proof.
  unfold representable, timedelta_hours. lia.
Qed.

Lemma simulate_hours_good (duration_hours : Z) (random : nat -> Q)
    (clock alert_clock : nat -> datetime) (id : string) (t : SensorType)
    (hours : list Z) :
  (forall n, 0 <= random n <= 1) ->
  simulation_representable duration_hours clock ->
  (forall hour, In hour hours -> (0 <= hour < duration_hours)%Z) ->
  forall (self : IoTSensorManager) (n : nat) (sensor : Sensor),
    dict_get (sensors self) id = Some sensor ->
    sensor_type sensor = t ->
    thresholds sensor = default_thresholds t ->
    exists self' new,
      simulate_hours self id (config_get t optimal_min 20)
        (config_get t optimal_max 80) duration_hours hours random clock
        alert_clock n
      = Returned (n + List.length hours)%nat self'
      /\ readings self' = (readings self ++ new)%list
      /\ List.length new = List.length hours
      /\ Forall (simulated duration_hours clock) new
      /\ alerts self' = alerts self
      /\ registry_kept (sensors self) (sensors self').
Proof.
  intros Hrandom Hclock.
  destruct (optimal_range_table t) as [Hlo0 Hlt].
  destruct (band_order_table t) as (Hb1 & _ & Hb3 & _).
  cbn [default_thresholds th_min th_max th_optimal_min th_optimal_max]
    in Hb1, Hb3.
  set (lo := config_get t optimal_min 20) in *.
  set (hi := config_get t optimal_max 80) in *.
  induction hours as [| hour hours IH]; intros Hhours self n sensor Hget Ht Hth.
  - exists self, []. cbn. rewrite Nat.add_0_r, app_nil_r.
    repeat split; [constructor | apply registry_kept_refl].
  - cbn [simulate_hours].
    pose proof (Hhours hour (or_introl eq_refl)) as Hhour.
    destruct (Hclock n) as [Hnow Hstart].
    rewrite (datetime_sub_hours (clock n) (duration_hours - hour) Hnow
               (simulated_hour_representable _ _ _ Hnow Hstart Hhour)).
    set (value := (lo + hi) / 2 + uniform (- ((hi - lo) / 4)) ((hi - lo) / 4)
                                    (random n)).
    assert (Hvalue : lo <= value <= hi).
    { assert (Hmid : (lo + hi) / 2 == (lo + hi) * (1 # 2)) by reflexivity.
      assert (Hvar : (hi - lo) / 4 == (hi - lo) * (1 # 4)) by reflexivity.
      destruct (uniform_range (- ((hi - lo) / 4)) ((hi - lo) / 4) (random n))
        as [Hu1 Hu2]; [lra | apply Hrandom |].
      unfold value. split; lra. }
    assert (Hgood : _assess_reading_quality value (sensor_type sensor)
                    = "Good").
    { rewrite Ht. now apply (_assess_reading_quality_cases value t). }
    assert (Hcheck : _check_thresholds sensor value = false).
    { destruct (_check_thresholds sensor value) eqn:Hc; [| reflexivity].
      apply _check_thresholds_iff in Hc. rewrite Hth in Hc.
      cbn [default_thresholds th_min th_max] in Hc. lra. }
    rewrite (ingest_reading_effect self id sensor value _ (alert_clock n)
               Hget).
    rewrite Hcheck, Hgood.
    match goal with
    | |- context [simulate_hours ?s _ _ _ _ _ _ _ _ _] => set (self1 := s)
    end.
    destruct (IH (fun h Hh => Hhours h (or_intror Hh)) self1 (S n)
                (set_last_reading sensor value
                   (Naive (clock n - timedelta_hours (duration_hours - hour)))))
      as (self' & new & E & Hlog & Hlen & Hall & Halerts & Hkept);
      [apply dict_get_set_same | exact Ht | exact Hth |].
    rewrite E. eexists. eexists.
    split; [f_equal; cbn; lia |].
    split; [rewrite Hlog; cbn [readings self1]; now rewrite <- app_assoc |].
    split; [cbn; now rewrite Hlen |].
    split; [| split; [exact Halerts |]].
    + constructor; [| exact Hall].
      split; [reflexivity |]. split; [reflexivity |].
      cbn [timestamp timestamp_or].
      exists n. eexists. split; [reflexivity |].
      unfold timedelta_hours. lia.
    + apply (registry_kept_trans _ (sensors self1)); [| exact Hkept].
      intros id' s H. cbn [sensors self1]. rewrite dict_get_set.
      destruct (String.eqb_spec id id') as [<- | _]; [| now exists s].
      rewrite Hget in H. injection H as <-. now eexists.
Qed.

Lemma range_bounds (n hour : Z) : In hour (range n) -> (0 <= hour < n)%Z.
Proof.
  unfold range. intro H. apply in_map_iff in H.
  destruct H as (k & <- & Hk). apply in_seq in Hk. lia.
Qed.

Lemma range_length (n : Z) : List.length (range n) = Z.to_nat n.
Proof. unfold range. now rewrite length_map, length_seq. Qed.

Lemma range_first (n : Z) :
  (0 < n)%Z -> exists rest, range n = 0%Z :: rest.
Proof.
  intro Hn. unfold range.
  destruct (Z.to_nat n) as [| k] eqn:E; [lia |].
  cbn [seq map]. now eexists.
Qed.

Lemma simulate_sensors_good (duration_hours : Z) (random : nat -> Q)
    (clock alert_clock : nat -> datetime) (l : list Sensor) :
  (forall n, 0 <= random n <= 1) ->
  simulation_representable duration_hours clock ->
  forall (self : IoTSensorManager) (n : nat),
    (forall s, In s l ->
       exists s0, dict_get (sensors self) (sensor_id s) = Some s0
                  /\ sensor_type s0 = sensor_type s
                  /\ thresholds s0 = default_thresholds (sensor_type s)) ->
    exists n' self' new,
      simulate_sensors self l duration_hours random clock alert_clock n
      = Returned n' self'
      /\ readings self' = (readings self ++ new)%list
      /\ List.length new = (List.length l * Z.to_nat duration_hours)%nat
      /\ Forall (simulated duration_hours clock) new
      /\ alerts self' = alerts self.
Proof.
  intros Hrandom Hclock. induction l as [| s l IH]; intros self n Hl.
  - exists n, self, []. cbn. rewrite app_nil_r. repeat split. constructor.
  - cbn [simulate_sensors].
    destruct (Hl s (or_introl eq_refl)) as (s0 & Hget & Ht & Hth).
    destruct (simulate_hours_good duration_hours random clock alert_clock
                (sensor_id s) (sensor_type s) (range duration_hours) Hrandom
                Hclock (range_bounds duration_hours) self n s0 Hget Ht Hth)
      as (self1 & new1 & E1 & Hlog1 & Hlen1 & Hall1 & Halerts1 & Hkept).
    rewrite E1.
    destruct (IH self1 (n + List.length (range duration_hours))%nat)
      as (n' & self' & new & E & Hlog & Hlen & Hall & Halerts).
    { intros s' Hs'.
      destruct (Hl s' (or_intror Hs')) as (s1 & Hget1 & Ht1 & Hth1).
      destruct (Hkept _ _ Hget1) as (s2 & Hget2 & Ht2 & Hth2).
      exists s2. split; [exact Hget2 |]. split; congruence. }
    rewrite E. exists n', self', (new1 ++ new)%list.
    split; [reflexivity |].
    split; [now rewrite Hlog, Hlog1, <- app_assoc |].
    split; [rewrite length_app, Hlen1, Hlen, range_length; cbn; lia |].
    split; [now apply Forall_app | congruence].
Qed.

(** On a manager that was built through its methods, with random numbers
    between 0 and 1: when the simulated hours before every reading of the
    clock are times of the class [datetime], [simulate_readings] returns
    without an exception; it appends one reading per sensor and simulated
    hour to the log, each of quality Good, without an alert and stamped
    within the simulated hours before a reading of the clock, and it creates
    no alert.  When there is a sensor and the simulated hours before the
    first reading of the clock start before the times of the class, it
    raises [OverflowError] and leaves the manager as it was. *)
Theorem simulate_readings_good (self : IoTSensorManager) (duration_hours : Z)
    (random : nat -> Q) (clock alert_clock : nat -> datetime) :
  reachable self ->
  (forall n, 0 <= random n <= 1) ->
  (simulation_representable duration_hours clock ->
   exists self' new,
     simulate_readings self duration_hours random clock alert_clock
     = Returned tt self'
     /\ readings self' = (readings self ++ new)%list
     /\ List.length new
        = (List.length (sensors self) * Z.to_nat duration_hours)%nat
     /\ Forall (simulated duration_hours clock) new
     /\ alerts self' = alerts self)
  /\ (sensors self <> [] ->
      (0 < duration_hours)%Z ->
      ~ representable (clock 0%nat - timedelta_hours duration_hours) ->
      simulate_readings self duration_hours random clock alert_clock
      = Raised OverflowError self).
Proof.
  intros Hreach Hrandom. split.
  - intro Hclock. unfold simulate_readings.
    destruct (simulate_sensors_good duration_hours random clock alert_clock
                (dict_values (sensors self)) Hrandom Hclock self 0%nat)
      as (n' & self' & new & E & Hlog & Hlen & Hall & Halerts).
    { intros s Hs. unfold dict_values in Hs. apply in_map_iff in Hs.
      destruct Hs as ([id s'] & <- & Hin). cbn [snd].
      pose proof (identifiers_numbered_sensors self Hreach) as Hnd.
      pose proof (dict_In_get _ _ _ Hnd Hin) as Hget.
      destruct (reachable_numbered self Hreach) as [_ Hi _ _].
      rewrite (sensor_stored_under_id _ _ _ Hi Hget).
      exists s'. split; [exact Hget |]. split; [reflexivity |].
      exact (table_thresholds self (reachable_consistent self Hreach) id s'
               Hget). }
    rewrite E. exists self', new.
    split; [reflexivity |]. split; [exact Hlog |].
    split; [| now split].
    rewrite Hlen. unfold dict_values. now rewrite length_map.
  - intros Hsome Hpos Hstart. unfold simulate_readings.
    destruct (sensors self) as [| [id s] rest]; [contradiction |].
    cbn [dict_values map snd simulate_sensors].
    destruct (range_first duration_hours Hpos) as (hours & ->).
    cbn [simulate_hours]. rewrite datetime_sub_overflow; [reflexivity |].
    now rewrite Z.sub_0_r.
Qed.

Lemma simulate_readings_good_witness :
  (exists self' new,
     simulate_readings alerted_manager 24 (fun _ => 1 # 3)
       (fun n => (30 * one_hour + Z.min (Z.of_nat n) 1000)%Z)
       (fun n => (30 * one_hour + Z.min (Z.of_nat n) 1000)%Z)
     = Returned tt self'
     /\ readings self' = (readings alerted_manager ++ new)%list
     /\ List.length new = 24%nat)
  /\ simulate_readings alerted_manager 20000000 (fun _ => 1 # 3)
       (fun _ => 30 * one_hour)%Z (fun _ => 30 * one_hour)%Z
     = Raised OverflowError alerted_manager.
Proof.
  split.
  - destruct (simulate_readings_good alerted_manager 24 (fun _ => 1 # 3)
                (fun n => (30 * one_hour + Z.min (Z.of_nat n) 1000)%Z)
                (fun n => (30 * one_hour + Z.min (Z.of_nat n) 1000)%Z)
                alerted_manager_reachable)
      as [H _].
    + intros _. split; discriminate.
    + destruct H as (self' & new & E & Hlog & Hlen & _).
      * intro n. unfold representable, datetime_min, datetime_max, one_hour,
          timedelta_hours. lia.
      * exists self', new.
        split; [exact E |]. split; [exact Hlog | exact Hlen].
  - apply (simulate_readings_good alerted_manager 20000000 (fun _ => 1 # 3)
             (fun _ => 30 * one_hour)%Z (fun _ => 30 * one_hour)%Z
             alerted_manager_reachable).
    + intros _. split; discriminate.
    + discriminate.
    + reflexivity.
    + intros [H _]. now apply H.
Defined.

(** ** Readings of the day *)

Lemma count_if_app {A : Type} (f : A -> bool) (l l' : list A) :
  count_if f (l ++ l') = (count_if f l + count_if f l')%Z.
Proof. unfold count_if. rewrite filter_app, length_app. lia. Qed.

(** A reading ingested with the default timestamp counts as a reading of the
    day: the daily count of the network status taken at the same time goes
    up by one, and the number of sensors stays. *)
Theorem daily_after_ingest (self : IoTSensorManager) (id : string)
    (sensor : Sensor) (v : Q) (now : datetime) :
  dict_get (sensors self) id = Some sensor ->
  exists r self' n n',
    ingest_reading self id v None now = Returned r self'
    /\ get_network_status self now = Returned n self
    /\ get_network_status self' now = Returned n' self'
    /\ daily_readings n' = (daily_readings n + 1)%Z
    /\ total_sensors n' = total_sensors n.
Proof.
  intro Hget. rewrite (ingest_reading_effect self id sensor v None now Hget).
  unfold get_network_status. eexists. eexists. eexists. eexists.
  split; [reflexivity |]. split; [reflexivity |]. split; [reflexivity |].
  cbn [daily_readings total_sensors readings sensors].
  split.
  - rewrite count_if_app. f_equal. unfold count_if.
    cbn [filter timestamp timestamp_or timestamp_date].
    now rewrite Z.eqb_refl.
  - f_equal. rewrite <- !(length_map fst). f_equal.
    exact (proj1 (dict_set_present sensor_id _ _ sensor
                    (set_last_reading sensor v (Naive now)) Hget eq_refl)).
Qed.

Lemma daily_after_ingest_witness :
  exists r self' n',
    ingest_reading alerted_manager "S-0001" 22 None (2 * one_hour)
    = Returned r self'
    /\ get_network_status self' (2 * one_hour) = Returned n' self'
    /\ daily_readings n' = 2%Z.
Proof.
  destruct (daily_after_ingest alerted_manager "S-0001"
              (mkSensor "S-0001" TEMPERATURE "Main Hall" "Living Room"
                 "Online" 100 40 (Naive one_hour) 0
                 (default_thresholds TEMPERATURE))
              22 (2 * one_hour) eq_refl)
    as (r & self' & n & n' & E & En & En' & Hdaily & _).
  exists r, self', n'. split; [exact E |]. split; [exact En' |].
  rewrite Hdaily. injection En as <-. reflexivity.
Defined.

(** ** The managers of the routes *)

(** [get_sensor_manager] creates the manager of a property on the first call
    for it, as a manager without sensors, and returns the stored manager on
    every later call: it never replaces a manager that is stored, and a
    second call for the same property returns the same manager and leaves
    the dictionary as the first call left it. *)
Theorem get_sensor_manager_stable
    (managers : list (string * IoTSensorManager)) (pid : string) :
  exists manager managers',
    get_sensor_manager managers pid = (manager, managers')
    /\ dict_get managers' pid = Some manager
    /\ (forall pid' m, dict_get managers pid' = Some m ->
          dict_get managers' pid' = Some m)
    /\ (forall pid', pid' <> pid ->
          dict_get managers' pid' = dict_get managers pid')
    /\ (dict_get managers pid = None -> manager = __init__ pid)
    /\ get_sensor_manager managers' pid = (manager, managers').
Proof.
  unfold get_sensor_manager.
  destruct (dict_get managers pid) as [m |] eqn:E.
  - exists m, managers. rewrite E. repeat split; auto. discriminate.
  - exists (__init__ pid), (dict_set managers pid (__init__ pid)).
    rewrite dict_get_set_same. repeat split; auto.
    + intros pid' m H. rewrite dict_get_set_other; [exact H | congruence].
    + intros pid' Hne. apply dict_get_set_other. congruence.
Qed.

Lemma get_sensor_manager_stable_witness :
  exists manager managers',
    get_sensor_manager [("PROP-001", alerted_manager)] "PROP-002"
    = (manager, managers')
    /\ dict_get managers' "PROP-001" = Some alerted_manager
    /\ manager = __init__ "PROP-002".
Proof.
  destruct (get_sensor_manager_stable [("PROP-001", alerted_manager)]
              "PROP-002")
    as (manager & managers' & E & _ & Hkept & _ & Hnew & _).
  exists manager, managers'. split; [exact E |].
  split; [exact (Hkept "PROP-001" alerted_manager eq_refl) |].
  exact (Hnew eq_refl).
Defined.
